(** * moveit_grasps: geometric grasp generation for cuboids

    A shallow embedding of [src/grasp_generator.cpp] (class [GraspGenerator])
    and properties of it: those that the specification states, and further
    ones that the code shows.

    Numbers.  A C++ [double] is modelled as a real number of the Standard
    Library ([R]): arithmetic is exact, there is no rounding.  The one place
    where the source relies on IEEE special values is the quotient [t] that
    [graspIntersectionHelper] hands to [intersectionHelper]: its denominator is
    zero whenever the reach-in segment is parallel to the face under test, and
    the source then compares an infinity or a NaN against 0 and 1.  That
    quotient is modelled by [xdouble], which keeps the non-finite values.
    A C++ [int] or [std::size_t] is modelled as [Z]; a conversion from [double]
    to [int] truncates toward zero ([double_to_int]).  Counts are assumed to fit
    the machine types (the conversion is undefined in C++ otherwise).
    Two more places of the source leave the real numbers.  The centroid of a
    mesh without vertices is the quotient 0/0, a NaN: the pose that
    [getBoundingBoxFromMesh] stores for such a mesh has no counterpart here,
    and nothing is stated about it.  The fields [desired_distance] and
    [min_distance] of a grasp message are single-precision: the message holds
    the configured depth narrowed to [float32], the model holds the depth
    itself, and the properties of the pre-grasp poses are stated on the field
    of the message, not on the configured depth.

    Eigen.  [Eigen::Vector3d] is a triple of reals, [Eigen::Matrix3d] a triple
    of rows, [Eigen::Affine3d] a linear part and a translation.  An
    [Eigen::AngleAxisd] about a unit coordinate axis is its rotation matrix. *)

From Stdlib Require Import Reals Lra Lia ZArith List Bool Permutation.
From Stdlib Require String.
From Equations Require Import Equations.
Import ListNotations.

Local Open Scope R_scope.

(* ================================================================== *)
(** ** Numbers *)

Module Num.

(** [x <= y] and [x < y] on doubles, as the booleans the source branches on. *)
Definition Rleb (x y : R) : bool := if Rle_dec x y then true else false.
Definition Rltb (x y : R) : bool := if Rlt_dec x y then true else false.

(** [ceil] and [floor] of <cmath>: a double with an integral value. *)
Definition ceil (x : R) : R := IZR (Zceil x).
Definition floor (x : R) : R := IZR (Zfloor x).

(** Conversion [double -> int]: the fractional part is discarded. *)
Definition double_to_int (x : R) : Z :=
  if Rlt_dec x 0 then Zceil x else Zfloor x.

(** A quotient of two doubles, with the IEEE-754 results of a division by
    zero kept apart from the finite ones. *)
Inductive xdouble : Type :=
| Fin (r : R)
| PInf
| NInf
| NaN.

(** [x / y] in IEEE arithmetic, for finite [x] and [y]; a zero denominator is
    the [+0.0] that a difference [b - a] of equal doubles yields. *)
Definition fdiv (x y : R) : xdouble :=
  if Req_dec_T y 0 then
    if Rlt_dec 0 x then PInf
    else if Rlt_dec x 0 then NInf
    else NaN
  else Fin (x / y).

(** The order [lo <= t <= hi] on [xdouble], as a proposition; NaN is
    unordered. *)
Definition xbetween (lo hi : R) (t : xdouble) : Prop :=
  match t with
  | Fin r => lo <= r <= hi
  | PInf | NInf | NaN => False
  end.

End Num.
Import Num.

(* ================================================================== *)
(** ** The part of Eigen that the generator uses *)

Module Eigen.

Record Vector3d : Type := vec3 { vx : R; vy : R; vz : R }.

(** A 3x3 matrix, stored by rows. *)
Record Matrix3d : Type := mat3 { row0 : Vector3d; row1 : Vector3d; row2 : Vector3d }.

(** [Eigen::Affine3d]: [p |-> linear * p + translation]. *)
Record Affine3d : Type := affine { linear : Matrix3d; translation : Vector3d }.

Definition Zero : Vector3d := vec3 0 0 0.
Definition UnitX : Vector3d := vec3 1 0 0.
Definition UnitY : Vector3d := vec3 0 1 0.
Definition UnitZ : Vector3d := vec3 0 0 1.

Definition vadd (u v : Vector3d) : Vector3d :=
  vec3 (vx u + vx v) (vy u + vy v) (vz u + vz v).
Definition vsub (u v : Vector3d) : Vector3d :=
  vec3 (vx u - vx v) (vy u - vy v) (vz u - vz v).
Definition vneg (u : Vector3d) : Vector3d := vec3 (- vx u) (- vy u) (- vz u).
Definition vscale (k : R) (u : Vector3d) : Vector3d :=
  vec3 (k * vx u) (k * vy u) (k * vz u).
Definition dot (u v : Vector3d) : R := vx u * vx v + vy u * vy v + vz u * vz v.
Definition cross (u v : Vector3d) : Vector3d :=
  vec3 (vy u * vz v - vz u * vy v)
       (vz u * vx v - vx u * vz v)
       (vx u * vy v - vy u * vx v).
Definition squaredNorm (u : Vector3d) : R := dot u u.
Definition norm (u : Vector3d) : R := sqrt (squaredNorm u).
(** [v.normalized()]: [v / v.norm()]. *)
Definition normalized (u : Vector3d) : Vector3d :=
  vec3 (vx u / norm u) (vy u / norm u) (vz u / norm u).

Definition col0 (m : Matrix3d) : Vector3d := vec3 (vx (row0 m)) (vx (row1 m)) (vx (row2 m)).
Definition col1 (m : Matrix3d) : Vector3d := vec3 (vy (row0 m)) (vy (row1 m)) (vy (row2 m)).
Definition col2 (m : Matrix3d) : Vector3d := vec3 (vz (row0 m)) (vz (row1 m)) (vz (row2 m)).

(** [linear() << axis_1, axis_2, axis_3] with three column vectors. *)
Definition of_cols (c0 c1 c2 : Vector3d) : Matrix3d :=
  mat3 (vec3 (vx c0) (vx c1) (vx c2))
       (vec3 (vy c0) (vy c1) (vy c2))
       (vec3 (vz c0) (vz c1) (vz c2)).

Definition MIdentity : Matrix3d := mat3 UnitX UnitY UnitZ.

Definition mvmul (m : Matrix3d) (v : Vector3d) : Vector3d :=
  vec3 (dot (row0 m) v) (dot (row1 m) v) (dot (row2 m) v).

Definition mmul (a b : Matrix3d) : Matrix3d :=
  mat3 (vec3 (dot (row0 a) (col0 b)) (dot (row0 a) (col1 b)) (dot (row0 a) (col2 b)))
       (vec3 (dot (row1 a) (col0 b)) (dot (row1 a) (col1 b)) (dot (row1 a) (col2 b)))
       (vec3 (dot (row2 a) (col0 b)) (dot (row2 a) (col1 b)) (dot (row2 a) (col2 b))).

Definition determinant (m : Matrix3d) : R := dot (row0 m) (cross (row1 m) (row2 m)).

(** Inverse of a 3x3 matrix by cofactors. *)
Definition minverse (m : Matrix3d) : Matrix3d :=
  let d := determinant m in
  let c0 := cross (row1 m) (row2 m) in
  let c1 := cross (row2 m) (row0 m) in
  let c2 := cross (row0 m) (row1 m) in
  of_cols (vscale (/ d) c0) (vscale (/ d) c1) (vscale (/ d) c2).

(** Rotation matrices of [AngleAxisd(angle, UnitX)], [UnitY] and [UnitZ]. *)
Definition AngleAxisX (angle : R) : Matrix3d :=
  mat3 (vec3 1 0 0)
       (vec3 0 (cos angle) (- sin angle))
       (vec3 0 (sin angle) (cos angle)).
Definition AngleAxisY (angle : R) : Matrix3d :=
  mat3 (vec3 (cos angle) 0 (sin angle))
       (vec3 0 1 0)
       (vec3 (- sin angle) 0 (cos angle)).
Definition AngleAxisZ (angle : R) : Matrix3d :=
  mat3 (vec3 (cos angle) (- sin angle) 0)
       (vec3 (sin angle) (cos angle) 0)
       (vec3 0 0 1).

Definition Identity : Affine3d := affine MIdentity Zero.

(** [pose.rotation()].  The generator only calls it on rigid poses, where it
    is the linear part. *)
Definition rotation (t : Affine3d) : Matrix3d := linear t.

(** [pose *= R] for a rotation [R]: the linear part is multiplied on the
    right, the translation is kept. *)
Definition rotate (t : Affine3d) (r : Matrix3d) : Affine3d :=
  affine (mmul (linear t) r) (translation t).

(** [pose.translation() += v]. *)
Definition translate (t : Affine3d) (v : Vector3d) : Affine3d :=
  affine (linear t) (vadd (translation t) v).

(** [pose.translation() = v]. *)
Definition set_translation (t : Affine3d) (v : Vector3d) : Affine3d :=
  affine (linear t) v.

(** [pose * p] for a point [p]. *)
Definition transform (t : Affine3d) (p : Vector3d) : Vector3d :=
  vadd (mvmul (linear t) p) (translation t).

(** [a * b] for two transforms. *)
Definition compose (a b : Affine3d) : Affine3d :=
  affine (mmul (linear a) (linear b)) (transform a (translation b)).

(** [pose.inverse()]. *)
Definition inverse (t : Affine3d) : Affine3d :=
  let li := minverse (linear t) in
  affine li (vneg (mvmul li (translation t))).

End Eigen.
Import Eigen.

(* ================================================================== *)
(** ** Configuration and generator state *)

(** The fields of [GraspData] that the generator reads.  Lengths are in
    metres; [angle_resolution_] is in degrees (the generator converts it). *)
Record GraspData : Type := mkGraspData {
  finger_to_palm_depth_ : R;
  grasp_min_depth_ : R;
  angle_resolution_ : R;
  gripper_width_ : R;
  grasp_resolution_ : R;
  grasp_depth_resolution_ : R;
  grasp_pose_to_eef_pose_ : Affine3d
}.

Inductive grasp_axis_t : Type := X_AXIS | Y_AXIS | Z_AXIS.

(* ================================================================== *)
(** ** Segment / rectangle intersection *)

(** [intersectionHelper(t, u1, v1, u2, v2, a, b, u, v)].  The result pairs the
    returned flag with what the call stores through the references [u] and
    [v]: nothing when [t] is out of range.  The guard [t >= 0 && t <= 1] is
    false on a NaN and on both infinities. *)
Definition intersectionHelper (t : xdouble) (u1 v1 u2 v2 a b : R)
  : bool * option (R * R) :=
  match t with
  | Fin r =>
      if Rleb 0 r && Rleb r 1 then
        let u := u1 + r * (u2 - u1) in
        let v := v1 + r * (v2 - v1) in
        if Rleb (- a / 2) u && Rleb u (a / 2) && Rleb (- b / 2) v && Rleb v (b / 2)
        then (true, Some (u, v))
        else (false, Some (u, v))
      else (false, None)
  | PInf | NInf | NaN => (false, None)
  end.

(** [graspIntersectionHelper]: does the segment from the grasp point to the
    fingertip cross one of the six faces of the cuboid? *)
Definition graspIntersectionHelper (cuboid_pose : Affine3d) (depth width height : R)
  (grasp_pose : Affine3d) (grasp_data : GraspData) : bool :=
  (* get line segment from grasp point to fingertip *)
  let point_a := translation grasp_pose in
  let point_b :=
    vadd point_a
         (vscale (finger_to_palm_depth_ grasp_data) (mvmul (rotation grasp_pose) UnitZ)) in
  (* translate points into cuboid coordinate system *)
  let point_a := transform (inverse cuboid_pose) point_a in
  let point_b := transform (inverse cuboid_pose) point_b in
  (* XY faces of the cuboid (z = +/- height/2) *)
  let t := fdiv (height / 2 - vz point_a) (vz point_b - vz point_a) in
  if fst (intersectionHelper t (vx point_a) (vy point_a) (vx point_b) (vy point_b) depth width)
  then true else
  let t := fdiv (- height / 2 - vz point_a) (vz point_b - vz point_a) in
  if fst (intersectionHelper t (vx point_a) (vy point_a) (vx point_b) (vy point_b) depth width)
  then true else
  (* XZ faces of the cuboid (y = +/- width/2) *)
  let t := fdiv (width / 2 - vy point_a) (vy point_b - vy point_a) in
  if fst (intersectionHelper t (vx point_a) (vz point_a) (vx point_b) (vz point_b) depth height)
  then true else
  let t := fdiv (- width / 2 - vy point_a) (vy point_b - vy point_a) in
  if fst (intersectionHelper t (vx point_a) (vz point_a) (vx point_b) (vz point_b) depth height)
  then true else
  (* YZ faces of the cuboid (x = +/- depth/2) *)
  let t := fdiv (depth / 2 - vx point_a) (vx point_b - vx point_a) in
  if fst (intersectionHelper t (vy point_a) (vz point_a) (vy point_b) (vz point_b) width height)
  then true else
  let t := fdiv (- depth / 2 - vx point_a) (vx point_b - vx point_a) in
  if fst (intersectionHelper t (vy point_a) (vz point_a) (vy point_b) (vz point_b) width height)
  then true else
  (* no intersection found *)
  false.

(** The point of the segment at parameter [t], in the two in-plane
    coordinates, lies in the rectangle [[-a/2, a/2] x [-b/2, b/2]]. *)
Definition interpolated_in_rectangle (t : xdouble) (u1 v1 u2 v2 a b : R) : Prop :=
  match t with
  | Fin r =>
      - a / 2 <= u1 + r * (u2 - u1) <= a / 2 /\
      - b / 2 <= v1 + r * (v2 - v1) <= b / 2
  | PInf | NInf | NaN => False
  end.


(* ================================================================== *)
(** ** Cuboid axis grasps: the helpers *)

(** The [switch (axis)] at the head of [generateCuboidAxisGrasps]: the two
    extents perpendicular to the chosen axis, their directions, and the
    rotation that aligns the gripper with the axis. *)
Definition length_along_a (axis : grasp_axis_t) (depth width height : R) : R :=
  match axis with
  | X_AXIS => width
  | Y_AXIS => depth
  | Z_AXIS => depth
  end.

Definition length_along_b (axis : grasp_axis_t) (depth width height : R) : R :=
  match axis with
  | X_AXIS => height
  | Y_AXIS => height
  | Z_AXIS => width
  end.

(** [a_dir] and [b_dir], after [normalized()]. *)
Definition a_dir (axis : grasp_axis_t) (cuboid_pose : Affine3d) : Vector3d :=
  normalized
    match axis with
    | X_AXIS => mvmul (rotation cuboid_pose) UnitY
    | Y_AXIS => mvmul (rotation cuboid_pose) UnitX
    | Z_AXIS => mvmul (rotation cuboid_pose) UnitX
    end.

Definition b_dir (axis : grasp_axis_t) (cuboid_pose : Affine3d) : Vector3d :=
  normalized
    match axis with
    | X_AXIS => mvmul (rotation cuboid_pose) UnitZ
    | Y_AXIS => mvmul (rotation cuboid_pose) UnitZ
    | Z_AXIS => mvmul (rotation cuboid_pose) UnitY
    end.

(** [double rotation_angles[3]] = [alpha_x, alpha_y, alpha_z]. *)
Definition rotation_angles (axis : grasp_axis_t) : R * R * R :=
  match axis with
  | X_AXIS => (- PI / 2, 0, - PI / 2)
  | Y_AXIS => (0, PI / 2, PI)
  | Z_AXIS => (PI / 2, PI / 2, 0)
  end.

(** The pose both helpers start from: rotated by the three axis angles, then
    by [alignment] about the local Y axis, then moved by [translation]. *)
Definition aligned_pose (pose : Affine3d) (angles : R * R * R)
  (translation : Vector3d) (alignment : R) : Affine3d :=
  let '(alpha_x, alpha_y, alpha_z) := angles in
  let grasp_pose := pose in
  let grasp_pose :=
    rotate grasp_pose
      (mmul (mmul (AngleAxisX alpha_x) (AngleAxisY alpha_y)) (AngleAxisZ alpha_z)) in
  let grasp_pose := rotate grasp_pose (AngleAxisY alignment) in
  translate grasp_pose translation.

(** The [for] loop of [addFaceGraspsHelper]. *)
Fixpoint face_loop (n : nat) (grasp_pose : Affine3d) (delta : Vector3d)
  (grasp_poses : list Affine3d) : list Affine3d :=
  match n with
  | O => grasp_poses
  | S k =>
      let grasp_pose := translate grasp_pose delta in
      face_loop k grasp_pose delta (grasp_poses ++ [grasp_pose])
  end.

(** [addFaceGraspsHelper]: the vector [grasp_poses] after the call.  (The
    source declares a [std::size_t] result and returns none; the caller does
    not use it.) *)
Definition addFaceGraspsHelper (pose : Affine3d) (angles : R * R * R)
  (translation delta : Vector3d) (alignment_rotation : R) (num_grasps : Z)
  (grasp_poses : list Affine3d) : list Affine3d :=
  let grasp_pose := aligned_pose pose angles translation alignment_rotation in
  face_loop (Z.to_nat num_grasps) grasp_pose delta grasp_poses.

(** The [for] loop of [addCornerGraspsHelper]. *)
Fixpoint corner_loop (n : nat) (grasp_pose : Affine3d) (delta_angle : R)
  (grasp_poses : list Affine3d) : list Affine3d :=
  match n with
  | O => grasp_poses
  | S k =>
      let grasp_pose := rotate grasp_pose (AngleAxisY delta_angle) in
      corner_loop k grasp_pose delta_angle (grasp_poses ++ [grasp_pose])
  end.

(** [addCornerGraspsHelper]: the vector [grasp_poses] after the call.  (The
    loop counter of the source is a [std::size_t]: the count is taken to be
    positive, as the clamp in block 1 makes it.) *)
Definition addCornerGraspsHelper (pose : Affine3d) (angles : R * R * R)
  (translation : Vector3d) (corner_rotation : R) (num_radial_grasps : Z)
  (grasp_poses : list Affine3d) : list Affine3d :=
  let delta_angle := (PI / 2) / IZR (num_radial_grasps + 1) in
  (* rotate & translate pose to be aligned with edge of cuboid *)
  let grasp_pose := aligned_pose pose angles translation corner_rotation in
  corner_loop (Z.to_nat num_radial_grasps) grasp_pose delta_angle grasp_poses.

(* ================================================================== *)
(** ** Cuboid axis grasps: the five blocks of [generateCuboidAxisGrasps] *)

(** [double offset = 0.001]: back the palm off of the object slightly. *)
Definition offset : R := 1 / 1000.

(** [finger_depth = finger_to_palm_depth_ - grasp_min_depth_]. *)
Definition finger_depth (grasp_data : GraspData) : R :=
  finger_to_palm_depth_ grasp_data - grasp_min_depth_ grasp_data.

(** [angle_res = angle_resolution_ * M_PI / 180.0]. *)
Definition angle_res (grasp_data : GraspData) : R :=
  angle_resolution_ grasp_data * PI / 180.

(** [num_radial_grasps], after the clamp to at least 1. *)
Definition num_radial_grasps (grasp_data : GraspData) : Z :=
  let n := double_to_int (ceil ((PI / 2) / angle_res grasp_data)) in
  if (n <=? 0)%Z then 1%Z else n.

(** Block 1: grasps at corners, centroid aligned. *)
Definition add_corner_grasps (cuboid_pose : Affine3d) (depth width height : R)
  (axis : grasp_axis_t) (grasp_data : GraspData)
  (grasp_poses : list Affine3d) : list Affine3d :=
  let a_dir := a_dir axis cuboid_pose in
  let b_dir := b_dir axis cuboid_pose in
  let angles := rotation_angles axis in
  let corner_translation_a :=
    vscale (0.5 * (length_along_a axis depth width height + offset)) a_dir in
  let corner_translation_b :=
    vscale (0.5 * (length_along_b axis depth width height + offset)) b_dir in
  let n := num_radial_grasps grasp_data in
  (* move to corner 0.5 * ( -a, -b) *)
  let translation := vsub (vneg corner_translation_a) corner_translation_b in
  let grasp_poses :=
    addCornerGraspsHelper cuboid_pose angles translation 0 n grasp_poses in
  (* move to corner 0.5 * ( -a, +b) *)
  let translation := vadd (vneg corner_translation_a) corner_translation_b in
  let grasp_poses :=
    addCornerGraspsHelper cuboid_pose angles translation (- PI / 2) n grasp_poses in
  (* move to corner 0.5 * ( +a, +b) *)
  let translation := vadd corner_translation_a corner_translation_b in
  let grasp_poses :=
    addCornerGraspsHelper cuboid_pose angles translation PI n grasp_poses in
  (* move to corner 0.5 * ( +a, -b) *)
  let translation := vsub corner_translation_a corner_translation_b in
  addCornerGraspsHelper cuboid_pose angles translation (PI / 2) n grasp_poses.

(** [num_grasps_along_a] and [num_grasps_along_b]: the count for an extent
    [length], with the fallback to 3 when the gripper is wider than the
    object.  (The source also assigns [delta] in the fallback; the value is
    overwritten before any use.) *)
Definition num_grasps_along (length : R) (grasp_data : GraspData) : Z :=
  let n :=
    double_to_int
      (floor ((length - gripper_width_ grasp_data) / grasp_resolution_ grasp_data) + 1) in
  if (n <=? 0)%Z then 3%Z else n.

(** [delta_a] and [delta_b]: the exact spacing for a count. *)
Definition face_delta (length : R) (grasp_data : GraspData) (num_grasps : Z) : R :=
  if (num_grasps =? 1)%Z then 0
  else (length - gripper_width_ grasp_data) / IZR (num_grasps - 1).

(** Block 2: grasps along the four faces, axis aligned.  All four calls pass
    [num_grasps_along_b], as the source does. *)
Definition add_face_grasps (cuboid_pose : Affine3d) (depth width height : R)
  (axis : grasp_axis_t) (grasp_data : GraspData)
  (grasp_poses : list Affine3d) : list Affine3d :=
  let a_dir := a_dir axis cuboid_pose in
  let b_dir := b_dir axis cuboid_pose in
  let angles := rotation_angles axis in
  let length_along_a := length_along_a axis depth width height in
  let length_along_b := length_along_b axis depth width height in
  let gripper_width := gripper_width_ grasp_data in
  let num_grasps_along_a := num_grasps_along length_along_a grasp_data in
  let num_grasps_along_b := num_grasps_along length_along_b grasp_data in
  let delta_a := face_delta length_along_a grasp_data num_grasps_along_a in
  let delta_b := face_delta length_along_b grasp_data num_grasps_along_b in
  let a_translation :=
    vsub (vsub (vneg (vscale (0.5 * (length_along_a + offset)) a_dir))
               (vscale (0.5 * (length_along_b - gripper_width)) b_dir))
         (vscale delta_b b_dir) in
  let b_translation :=
    vsub (vsub (vscale (- 0.5 * (length_along_a - gripper_width)) a_dir)
               (vscale delta_a a_dir))
         (vscale (0.5 * (length_along_b + offset)) b_dir) in
  (* grasps along -a_dir face *)
  let delta := vscale delta_b b_dir in
  let rotation := 0 in
  let grasp_poses :=
    addFaceGraspsHelper cuboid_pose angles a_translation delta rotation
      num_grasps_along_b grasp_poses in
  (* grasps along +b_dir face *)
  let rotation := - PI / 2 in
  let delta := vscale (- delta_a) a_dir in
  let grasp_poses :=
    addFaceGraspsHelper cuboid_pose angles (vneg b_translation) delta rotation
      num_grasps_along_b grasp_poses in
  (* grasps along +a_dir face *)
  let rotation := PI in
  let delta := vscale (- delta_b) b_dir in
  let grasp_poses :=
    addFaceGraspsHelper cuboid_pose angles (vneg a_translation) delta rotation
      num_grasps_along_b grasp_poses in
  (* grasps along -b_dir face *)
  let rotation := PI / 2 in
  let delta := vscale delta_a a_dir in
  addFaceGraspsHelper cuboid_pose angles b_translation delta rotation
    num_grasps_along_b grasp_poses.

(** [num_depth_grasps], after the clamp to at least 1, and [delta_f]. *)
Definition num_depth_grasps (grasp_data : GraspData) : Z :=
  let n :=
    double_to_int (ceil (finger_depth grasp_data / grasp_depth_resolution_ grasp_data)) in
  if (n <=? 0)%Z then 1%Z else n.

Definition delta_f (grasp_data : GraspData) : R :=
  finger_depth grasp_data / IZR (num_depth_grasps grasp_data).

(** The inner [for (j ...)] loop of the depth block. *)
Fixpoint depth_loop (n : nat) (depth_pose : Affine3d) (delta_f : R)
  (grasp_dir : Vector3d) (grasp_poses : list Affine3d) : list Affine3d :=
  match n with
  | O => grasp_poses
  | S k =>
      let depth_pose :=
        set_translation depth_pose
          (vsub (translation depth_pose) (vscale delta_f grasp_dir)) in
      depth_loop k depth_pose delta_f grasp_dir (grasp_poses ++ [depth_pose])
  end.

(** Block 3: grasps at variable depths.  The outer loop runs over the
    indices of the poses present when the block starts and reads
    [grasp_poses[i]] from the growing vector. *)
Definition add_depth_grasps (grasp_data : GraspData)
  (grasp_poses : list Affine3d) : list Affine3d :=
  let num_grasps := length grasp_poses in
  fold_left
    (fun grasp_poses i =>
       let grasp_dir := mvmul (rotation (nth i grasp_poses Identity)) UnitZ in
       let depth_pose := nth i grasp_poses Identity in
       depth_loop (Z.to_nat (num_depth_grasps grasp_data)) depth_pose
         (delta_f grasp_data) grasp_dir grasp_poses)
    (seq 0 num_grasps) grasp_poses.

(** The two [while] loops of the variable-angle block, one for each sign of
    [angle].  A pose is appended while [graspIntersectionHelper] returns true
    for it; the loop is left when the helper returns false, or by the [break]
    once [iterations] exceeds [max_iterations]. *)
Equations? angle_loop (cuboid_pose : Affine3d) (depth width height : R)
  (grasp_data : GraspData) (angle : R) (max_iterations : Z)
  (iterations : Z) (grasp_pose : Affine3d) (grasp_poses : list Affine3d)
  : list Affine3d by wf (Z.to_nat (max_iterations + 1 - iterations)) lt :=
  angle_loop cuboid_pose depth width height grasp_data angle max_iterations
    iterations grasp_pose grasp_poses
    with graspIntersectionHelper cuboid_pose depth width height grasp_pose grasp_data => {
    | false := grasp_poses;
    | true with Z_gt_dec (iterations + 1) max_iterations => {
      | left _ := grasp_poses ++ [grasp_pose];
      | right _ :=
          angle_loop cuboid_pose depth width height grasp_data angle max_iterations
            (iterations + 1) (rotate grasp_pose (AngleAxisY angle))
            (grasp_poses ++ [grasp_pose]) } }.
Proof. lia. Qed.

(** Block 4, loop body: the sweeps that start from [grasp_poses[i]]. *)
Definition add_angle_grasps_at (cuboid_pose : Affine3d) (depth width height : R)
  (grasp_data : GraspData) (grasp_poses : list Affine3d) (i : nat)
  : list Affine3d :=
  let angle_res := angle_res grasp_data in
  let base_pose := nth i grasp_poses Identity in
  let grasp_pose := rotate base_pose (AngleAxisY angle_res) in
  let max_iterations := double_to_int (PI / angle_res + 1) in
  let iterations := 0%Z in
  let grasp_poses :=
    angle_loop cuboid_pose depth width height grasp_data angle_res
      max_iterations iterations grasp_pose grasp_poses in
  let iterations := 0%Z in
  let grasp_pose := rotate base_pose (AngleAxisY (- angle_res)) in
  angle_loop cuboid_pose depth width height grasp_data (- angle_res)
    max_iterations iterations grasp_pose grasp_poses.

(** Block 4: grasps at variable angles, for the poses from index
    [num_corner_grasps] on (corner grasps at zero depth don't need variable
    angles). *)
Definition add_angle_grasps (cuboid_pose : Affine3d) (depth width height : R)
  (grasp_data : GraspData) (num_corner_grasps : nat)
  (grasp_poses : list Affine3d) : list Affine3d :=
  let num_grasps := length grasp_poses in
  fold_left
    (add_angle_grasps_at cuboid_pose depth width height grasp_data)
    (seq num_corner_grasps (num_grasps - num_corner_grasps)) grasp_poses.

(** Block 5: grasps in both directions. *)
Definition add_bidirectional_grasps (grasp_poses : list Affine3d) : list Affine3d :=
  let num_grasps := length grasp_poses in
  fold_left
    (fun grasp_poses i =>
       let grasp_pose := nth i grasp_poses Identity in
       let grasp_pose := rotate grasp_pose (AngleAxisZ PI) in
       grasp_poses ++ [grasp_pose])
    (seq 0 num_grasps) grasp_poses.

(* ================================================================== *)
(** ** Scoring and output *)

(** The members of [GraspGenerator] that are plain data, and [grasp_id], the
    function-local [static int] of [addGrasp], which lives as long as the
    program.  The handles [visual_tools_] and [nh_] are left out, and with
    them the drawing and logging calls. *)
Record GraspGenerator : Type := mkGraspGenerator {
  verbose_ : bool;
  m_between_grasps_ : R;
  m_between_depth_grasps_ : R;
  show_grasp_arrows_ : bool;
  show_grasp_arrows_speed_ : R;
  show_prefiltered_grasps_ : bool;
  show_prefiltered_grasps_speed_ : R;
  ideal_grasp_pose_ : Affine3d;
  grasp_id : Z
}.

Definition set_ideal_grasp_pose_ (self : GraspGenerator) (p : Affine3d) : GraspGenerator :=
  mkGraspGenerator (verbose_ self) (m_between_grasps_ self) (m_between_depth_grasps_ self)
    (show_grasp_arrows_ self) (show_grasp_arrows_speed_ self)
    (show_prefiltered_grasps_ self) (show_prefiltered_grasps_speed_ self)
    p (grasp_id self).

Definition set_grasp_id (self : GraspGenerator) (n : Z) : GraspGenerator :=
  mkGraspGenerator (verbose_ self) (m_between_grasps_ self) (m_between_depth_grasps_ self)
    (show_grasp_arrows_ self) (show_grasp_arrows_speed_ self)
    (show_prefiltered_grasps_ self) (show_prefiltered_grasps_speed_ self)
    (ideal_grasp_pose_ self) n.

Module moveit_msgs.

(** [moveit_msgs::GripperTranslation], without the header of the direction.
    [desired_distance] and [min_distance] are [float32] fields of the
    message: what [addGrasp] assigns to them is narrowed to single precision
    in the source and kept as it is here. *)
Record GripperTranslation : Type := mkGripperTranslation {
  direction : Vector3d;
  desired_distance : R;
  min_distance : R
}.

(** [moveit_msgs::Grasp], without time stamps, frame names and postures.
    [id] is the number [n] of the string ["Grasp<n>"]; [grasp_pose] is kept
    as a transform. *)
Record Grasp : Type := mkGrasp {
  id : Z;
  grasp_quality : R;
  pre_grasp_approach : GripperTranslation;
  post_grasp_retreat : GripperTranslation;
  grasp_pose : Affine3d
}.

End moveit_msgs.

(** The value that [scoreGrasp] stores in [ideal_grasp_pose_]. *)
Definition ideal_pose : Affine3d :=
  rotate Identity (mmul (AngleAxisY (PI / 2)) (AngleAxisZ (PI / 2))).

(** The array [individual_scores] of [scoreGrasp] once the three tests have
    run, for a given ideal pose.  [acos] is the Standard Library's, which is
    total on [R].  (With a usable finger length of zero and the palm on the
    centroid the source computes 0.0/0.0; the properties of the score assume
    a positive finger length.) *)
Definition individual_scores (ideal : Affine3d) (pose : Affine3d)
  (grasp_data : GraspData) (object_pose : Affine3d) : list R :=
  (* how close is z-axis of grasp to desired orientation? *)
  let axis_grasp := mvmul (rotation pose) UnitZ in
  let axis_desired := mvmul (rotation ideal) UnitZ in
  let angle := acos (dot axis_grasp axis_desired) in
  let score0 := (PI - angle) / PI in
  (* is camera pointed up? (angle between y-axes) *)
  let axis_grasp := mvmul (rotation pose) UnitY in
  let axis_desired := mvmul (rotation ideal) UnitY in
  let angle := acos (dot axis_grasp axis_desired) in
  let score1 := (PI - angle) / PI in
  (* how close is the palm to the object? (0 = at finger length, 100 = in palm) *)
  let finger_length := finger_to_palm_depth_ grasp_data - grasp_min_depth_ grasp_data in
  let delta := vsub (translation pose) (translation object_pose) in
  let distance := norm delta in
  let score2 :=
    if Rltb finger_length distance then 0
    else (finger_length - distance) / finger_length in
  [score0; score1; score2].

(** [scoreGrasp]: the score, and the generator after the call. *)
Definition scoreGrasp (self : GraspGenerator) (pose : Affine3d)
  (grasp_data : GraspData) (object_pose : Affine3d) : R * GraspGenerator :=
  (* set ideal grasp pose *)
  let self := set_ideal_grasp_pose_ self Identity in
  let self :=
    set_ideal_grasp_pose_ self
      (rotate (ideal_grasp_pose_ self)
              (mmul (AngleAxisY (PI / 2)) (AngleAxisZ (PI / 2)))) in
  let num_tests := 3%nat in
  (* initialize score_weights as 1 *)
  let score_weights := repeat 1 num_tests in
  let individual_scores :=
    individual_scores (ideal_grasp_pose_ self) pose grasp_data object_pose in
  (* compute combined score *)
  let score_sum :=
    fold_left (fun score_sum sw => score_sum + fst sw * snd sw)
              (combine individual_scores score_weights) 0 in
  (score_sum / INR num_tests, self).

(** [addGrasp]: the vector [possible_grasps] and the generator after the
    call. *)
Definition addGrasp (self : GraspGenerator) (grasp_pose : Affine3d)
  (grasp_data : GraspData) (possible_grasps : list moveit_msgs.Grasp)
  (object_pose : Affine3d) : list moveit_msgs.Grasp * GraspGenerator :=
  (* set pregrasp and postgrasp *)
  let pre_grasp_approach :=
    moveit_msgs.mkGripperTranslation Zero
      (finger_to_palm_depth_ grasp_data) (finger_to_palm_depth_ grasp_data) in
  let post_grasp_retreat :=
    moveit_msgs.mkGripperTranslation Zero
      (finger_to_palm_depth_ grasp_data) (finger_to_palm_depth_ grasp_data) in
  let new_id := grasp_id self in
  let self := set_grasp_id self (grasp_id self + 1) in
  (* compute grasp score *)
  let '(quality, self) := scoreGrasp self grasp_pose grasp_data object_pose in
  (* approach and retreat *)
  let pre_grasp_approach :=
    moveit_msgs.mkGripperTranslation (vec3 0 0 1)
      (moveit_msgs.desired_distance pre_grasp_approach)
      (moveit_msgs.min_distance pre_grasp_approach) in
  let post_grasp_retreat :=
    moveit_msgs.mkGripperTranslation (vec3 0 0 (-1))
      (moveit_msgs.desired_distance post_grasp_retreat)
      (moveit_msgs.min_distance post_grasp_retreat) in
  let new_grasp :=
    moveit_msgs.mkGrasp new_id quality pre_grasp_approach post_grasp_retreat
      (compose grasp_pose (grasp_pose_to_eef_pose_ grasp_data)) in
  (possible_grasps ++ [new_grasp], self).

(* ================================================================== *)
(** ** Entry points *)

(** The vector [grasp_poses] of [generateCuboidAxisGrasps] when the five
    blocks have run. *)
Definition cuboid_axis_grasp_poses (cuboid_pose : Affine3d) (depth width height : R)
  (axis : grasp_axis_t) (grasp_data : GraspData) : list Affine3d :=
  let grasp_poses := [] in
  let grasp_poses :=
    add_corner_grasps cuboid_pose depth width height axis grasp_data grasp_poses in
  let num_corner_grasps := length grasp_poses in
  let grasp_poses :=
    add_face_grasps cuboid_pose depth width height axis grasp_data grasp_poses in
  let grasp_poses := add_depth_grasps grasp_data grasp_poses in
  let grasp_poses :=
    add_angle_grasps cuboid_pose depth width height grasp_data num_corner_grasps
      grasp_poses in
  add_bidirectional_grasps grasp_poses.

(** [generateCuboidAxisGrasps]: [possible_grasps] and the generator after the
    call.  (The source declares a [bool] result and returns none; no caller
    uses it.) *)
Definition generateCuboidAxisGrasps (self : GraspGenerator) (cuboid_pose : Affine3d)
  (depth width height : R) (axis : grasp_axis_t) (grasp_data : GraspData)
  (possible_grasps : list moveit_msgs.Grasp)
  : list moveit_msgs.Grasp * GraspGenerator :=
  let grasp_poses :=
    cuboid_axis_grasp_poses cuboid_pose depth width height axis grasp_data in
  (* add all poses as possible grasps *)
  fold_left
    (fun st pose => addGrasp (snd st) pose grasp_data (fst st) cuboid_pose)
    grasp_poses (possible_grasps, self).

(** [generateGrasps], the overload that takes the box: the returned flag,
    [possible_grasps] and the generator after the call. *)
Definition generateGrasps (self : GraspGenerator) (cuboid_pose : Affine3d)
  (depth width height max_grasp_size : R) (grasp_data : GraspData)
  (possible_grasps : list moveit_msgs.Grasp)
  : bool * (list moveit_msgs.Grasp * GraspGenerator) :=
  let st := (possible_grasps, self) in
  (* Most default type of grasp is X axis *)
  let st :=
    if Rleb depth max_grasp_size then
      generateCuboidAxisGrasps (snd st) cuboid_pose depth width height X_AXIS
        grasp_data (fst st)
    else st in
  let st :=
    if Rleb width max_grasp_size then
      generateCuboidAxisGrasps (snd st) cuboid_pose depth width height Y_AXIS
        grasp_data (fst st)
    else st in
  let st :=
    if Rleb height max_grasp_size then
      generateCuboidAxisGrasps (snd st) cuboid_pose depth width height Z_AXIS
        grasp_data (fst st)
    else st in
  (true, st).

(* ================================================================== *)
(** ** Pre-grasp poses *)

(** [getPreGraspDirection].  The record [moveit_msgs.Grasp] carries no frame
    names: [frame_id] is [grasp.pre_grasp_approach.direction.header.frame_id].
    The pose of the message is read back as the transform that [addGrasp]
    stored. *)
Definition getPreGraspDirection (grasp : moveit_msgs.Grasp)
  (frame_id ee_parent_link : String.string) : Vector3d :=
  (* grasp pose variables *)
  let grasp_pose_eigen := moveit_msgs.grasp_pose grasp in
  (* the direction of the pre-grasp *)
  let approach := moveit_msgs.pre_grasp_approach grasp in
  let pre_grasp_approach_direction :=
    vec3 (-1 * vx (moveit_msgs.direction approach) * moveit_msgs.desired_distance approach)
         (-1 * vy (moveit_msgs.direction approach) * moveit_msgs.desired_distance approach)
         (-1 * vz (moveit_msgs.direction approach) * moveit_msgs.desired_distance approach) in
  (* decide if we need to change the approach direction to the local frame of
     the end effector orientation *)
  if String.eqb frame_id ee_parent_link then
    mvmul (rotation grasp_pose_eigen) pre_grasp_approach_direction
  else
    pre_grasp_approach_direction.

(** [getPreGraspPose]: the pose of the returned message (its header is the
    one of the grasp pose). *)
Definition getPreGraspPose (grasp : moveit_msgs.Grasp)
  (frame_id ee_parent_link : String.string) : Affine3d :=
  let grasp_pose_eigen := moveit_msgs.grasp_pose grasp in
  (* copy original grasp pose to pre-grasp pose *)
  let pre_grasp_pose_eigen := grasp_pose_eigen in
  (* approach direction *)
  let pre_grasp_approach_direction_local :=
    getPreGraspDirection grasp frame_id ee_parent_link in
  (* update the grasp matrix using the new locally-framed approach direction *)
  translate pre_grasp_pose_eigen pre_grasp_approach_direction_local.

(* ================================================================== *)
(** ** Bounding box of a mesh *)

Module shape_msgs.

(** [shape_msgs::Mesh]: vertex positions and triangles of vertex indices. *)
Record Mesh : Type := mkMesh {
  vertices : list Vector3d;
  triangles : list (nat * nat * nat)
}.

End shape_msgs.

(** [std::numeric_limits<double>::max()] and [::min()]: the largest finite
    double and the smallest positive normal double. *)
Definition DBL_MAX : R := IZR (2 ^ 1024 - 2 ^ 971).
Definition DBL_MIN : R := / IZR (2 ^ 1022).

(** The sums of the first loop of [getBoundingBoxFromMesh]. *)
Record Moments : Type := mkMoments {
  m_centroid : Vector3d;
  Ixx : R; Iyy : R; Izz : R; Ixy : R; Ixz : R; Iyz : R
}.

Definition accumulate (m : Moments) (point : Vector3d) : Moments :=
  mkMoments
    (vadd (m_centroid m) point)
    (Ixx m + (vy point * vy point + vz point * vz point))
    (Iyy m + (vx point * vx point + vz point * vz point))
    (Izz m + (vx point * vx point + vy point * vy point))
    (Ixy m + vx point * vy point)
    (Ixz m + vx point * vz point)
    (Iyz m + vy point * vz point).

(** One step of the bounds loop: [min] and [max] updated with [point],
    component by component. *)
Definition update_bounds (bounds : Vector3d * Vector3d) (point : Vector3d)
  : Vector3d * Vector3d :=
  let '(min, max) := bounds in
  (vec3 (if Rltb (vx point) (vx min) then vx point else vx min)
        (if Rltb (vy point) (vy min) then vy point else vy min)
        (if Rltb (vz point) (vz min) then vz point else vz min),
   vec3 (if Rltb (vx max) (vx point) then vx point else vx max)
        (if Rltb (vy max) (vy point) then vy point else vy max)
        (if Rltb (vz max) (vz point) then vz point else vz max)).

Section BoundingBox.

(** [Eigen::EigenSolver]: the matrix whose columns are the real parts of the
    eigenvectors of its argument, in the solver's order. *)
Variable eigenvectors : Matrix3d -> Matrix3d.

(** [getBoundingBoxFromMesh]: the returned flag and what the call stores in
    [cuboid_pose], [depth], [width] and [height].  With no vertex the source
    divides the zero sums by [num_vertices = 0]: its centroid, and with it
    the translation of the pose it stores, is a NaN, which [R] does not have.
    The flag and the three extents do not depend on the centroid then (the
    loop over the vertices does not run); the pose of this definition for a
    mesh without vertices is not the program's. *)
Definition getBoundingBoxFromMesh (mesh_msg : shape_msgs.Mesh)
  : bool * (Affine3d * R * R * R) :=
  let num_vertices := Z.of_nat (length (shape_msgs.vertices mesh_msg)) in
  (* calculate centroid and moments of inertia *)
  let sums :=
    fold_left accumulate (shape_msgs.vertices mesh_msg)
              (mkMoments Zero 0 0 0 0 0 0) in
  (* final centroid calculation *)
  let centroid :=
    vec3 (vx (m_centroid sums) / IZR num_vertices)
         (vy (m_centroid sums) / IZR num_vertices)
         (vz (m_centroid sums) / IZR num_vertices) in
  (* solve for principle axes of inertia *)
  let inertia_axis_aligned :=
    mat3 (vec3 (Ixx sums) (- Ixy sums) (- Ixz sums))
         (vec3 (- Ixy sums) (Iyy sums) (- Iyz sums))
         (vec3 (- Ixz sums) (- Iyz sums) (Izz sums)) in
  let es := eigenvectors inertia_axis_aligned in
  let axis_1 := col0 es in
  let axis_2 := col1 es in
  let axis_3 := col2 es in
  (* test if eigenvectors are right-handed *)
  let w := vsub (cross axis_1 axis_2) axis_3 in
  let epsilon := 1 / 1000000 in
  let axis_3 :=
    if negb (Rltb (Rabs (vx w)) epsilon && Rltb (Rabs (vy w)) epsilon
             && Rltb (Rabs (vz w)) epsilon)
    then vscale (-1) axis_3 else axis_3 in
  let world_to_mesh_transform := affine (of_cols axis_1 axis_2 axis_3) centroid in
  (* transform and get bounds *)
  let '(min, max) :=
    fold_left
      (fun bounds point =>
         update_bounds bounds (transform (inverse world_to_mesh_transform) point))
      (shape_msgs.vertices mesh_msg)
      (vec3 DBL_MAX DBL_MAX DBL_MAX, vec3 DBL_MIN DBL_MIN DBL_MIN) in
  let depth := vx max - vx min in
  let width := vy max - vy min in
  let height := vz max - vz min in
  let translation :=
    vec3 ((vx min + vx max) / 2) ((vy min + vy max) / 2) ((vz min + vz max) / 2) in
  let cuboid_pose :=
    set_translation world_to_mesh_transform
      (transform world_to_mesh_transform translation) in
  (true, (cuboid_pose, depth, width, height)).

(** [generateGrasps], the overload that takes a mesh.  The box is generated
    around the [cuboid_pose] given by the caller, with the extents of the
    bounding box. *)
Definition generateGrasps_mesh (self : GraspGenerator) (mesh_msg : shape_msgs.Mesh)
  (cuboid_pose : Affine3d) (max_grasp_size : R) (grasp_data : GraspData)
  (possible_grasps : list moveit_msgs.Grasp)
  : bool * (list moveit_msgs.Grasp * GraspGenerator) :=
  let '(ok, (mesh_pose, depth, width, height)) := getBoundingBoxFromMesh mesh_msg in
  if negb ok then
    (* "Unable to get bounding box from mesh" *)
    (false, (possible_grasps, self))
  else
    generateGrasps self cuboid_pose depth width height max_grasp_size grasp_data
      possible_grasps.

End BoundingBox.

(* ================================================================== *)
(** ** Vocabulary of the properties *)

(* ------------------------------------------------------------------ *)
(** *** The vector [grasp_poses] between the blocks *)

(** [grasp_poses] after block 1, after block 2, after block 3 and after
    block 4 of [generateCuboidAxisGrasps]. *)
Definition corner_poses (cuboid_pose : Affine3d) (depth width height : R)
  (axis : grasp_axis_t) (grasp_data : GraspData) : list Affine3d :=
  add_corner_grasps cuboid_pose depth width height axis grasp_data [].

Definition corner_face_poses (cuboid_pose : Affine3d) (depth width height : R)
  (axis : grasp_axis_t) (grasp_data : GraspData) : list Affine3d :=
  add_face_grasps cuboid_pose depth width height axis grasp_data
    (corner_poses cuboid_pose depth width height axis grasp_data).

Definition depth_poses (cuboid_pose : Affine3d) (depth width height : R)
  (axis : grasp_axis_t) (grasp_data : GraspData) : list Affine3d :=
  add_depth_grasps grasp_data
    (corner_face_poses cuboid_pose depth width height axis grasp_data).

Definition angle_poses (cuboid_pose : Affine3d) (depth width height : R)
  (axis : grasp_axis_t) (grasp_data : GraspData) : list Affine3d :=
  add_angle_grasps cuboid_pose depth width height grasp_data
    (length (corner_poses cuboid_pose depth width height axis grasp_data))
    (depth_poses cuboid_pose depth width height axis grasp_data).

(* ------------------------------------------------------------------ *)
(** *** Moves of a pose *)

(** [p] moved back by [dist] along its own Z axis (its approach direction). *)
Definition backed_off (p : Affine3d) (dist : R) : Affine3d :=
  set_translation p
    (vsub (translation p) (vscale dist (mvmul (rotation p) UnitZ))).

(** [p] turned by [angle] about its own Y axis. *)
Definition turned_y (p : Affine3d) (angle : R) : Affine3d :=
  rotate p (AngleAxisY angle).

(** [p] turned by half a turn about its own Z axis. *)
Definition flipped_z (p : Affine3d) : Affine3d := rotate p (AngleAxisZ PI).

(* ------------------------------------------------------------------ *)
(** *** Block 1 *)

(** [corner_translation_a] and [corner_translation_b] of block 1. *)
Definition corner_translation_a (cuboid_pose : Affine3d) (depth width height : R)
  (axis : grasp_axis_t) : Vector3d :=
  vscale (0.5 * (length_along_a axis depth width height + offset)) (a_dir axis cuboid_pose).

Definition corner_translation_b (cuboid_pose : Affine3d) (depth width height : R)
  (axis : grasp_axis_t) : Vector3d :=
  vscale (0.5 * (length_along_b axis depth width height + offset)) (b_dir axis cuboid_pose).

(** The fan of [n] poses around [base]: [base] turned about its Y axis by
    1, 2, ..., [n] times the [n + 1]-th part of a quarter turn. *)
Definition corner_fan (n : Z) (base : Affine3d) : list Affine3d :=
  map (fun k => turned_y base (INR k * ((PI / 2) / IZR (n + 1))))
      (seq 1 (Z.to_nat n)).

(* ------------------------------------------------------------------ *)
(** *** Block 2 *)

(** A row of [n] poses: [start] moved by 1, 2, ..., [n] times [delta]. *)
Definition face_row (n : Z) (start : Affine3d) (delta : Vector3d) : list Affine3d :=
  map (fun k => translate start (vscale (INR k) delta)) (seq 1 (Z.to_nat n)).

(** [a_translation] and [b_translation] of block 2. *)
Definition a_translation (cuboid_pose : Affine3d) (depth width height : R)
  (axis : grasp_axis_t) (grasp_data : GraspData) : Vector3d :=
  let la := length_along_a axis depth width height in
  let lb := length_along_b axis depth width height in
  vsub (vsub (vneg (vscale (0.5 * (la + offset)) (a_dir axis cuboid_pose)))
             (vscale (0.5 * (lb - gripper_width_ grasp_data)) (b_dir axis cuboid_pose)))
       (vscale (face_delta lb grasp_data (num_grasps_along lb grasp_data))
               (b_dir axis cuboid_pose)).

Definition b_translation (cuboid_pose : Affine3d) (depth width height : R)
  (axis : grasp_axis_t) (grasp_data : GraspData) : Vector3d :=
  let la := length_along_a axis depth width height in
  let lb := length_along_b axis depth width height in
  vsub (vsub (vscale (- 0.5 * (la - gripper_width_ grasp_data)) (a_dir axis cuboid_pose))
             (vscale (face_delta la grasp_data (num_grasps_along la grasp_data))
                     (a_dir axis cuboid_pose)))
       (vscale (0.5 * (lb + offset)) (b_dir axis cuboid_pose)).

(** The poses that block 2 adds on each face, in the order of the source:
    [-a_dir], [+b_dir], [+a_dir], [-b_dir]. *)
Definition face_minus_a (cuboid_pose : Affine3d) (depth width height : R)
  (axis : grasp_axis_t) (grasp_data : GraspData) : list Affine3d :=
  let lb := length_along_b axis depth width height in
  face_row (num_grasps_along lb grasp_data)
    (aligned_pose cuboid_pose (rotation_angles axis)
       (a_translation cuboid_pose depth width height axis grasp_data) 0)
    (vscale (face_delta lb grasp_data (num_grasps_along lb grasp_data))
            (b_dir axis cuboid_pose)).

Definition face_plus_b (cuboid_pose : Affine3d) (depth width height : R)
  (axis : grasp_axis_t) (grasp_data : GraspData) : list Affine3d :=
  let la := length_along_a axis depth width height in
  let lb := length_along_b axis depth width height in
  face_row (num_grasps_along lb grasp_data)
    (aligned_pose cuboid_pose (rotation_angles axis)
       (vneg (b_translation cuboid_pose depth width height axis grasp_data)) (- PI / 2))
    (vscale (- face_delta la grasp_data (num_grasps_along la grasp_data))
            (a_dir axis cuboid_pose)).

Definition face_plus_a (cuboid_pose : Affine3d) (depth width height : R)
  (axis : grasp_axis_t) (grasp_data : GraspData) : list Affine3d :=
  let lb := length_along_b axis depth width height in
  face_row (num_grasps_along lb grasp_data)
    (aligned_pose cuboid_pose (rotation_angles axis)
       (vneg (a_translation cuboid_pose depth width height axis grasp_data)) PI)
    (vscale (- face_delta lb grasp_data (num_grasps_along lb grasp_data))
            (b_dir axis cuboid_pose)).

Definition face_minus_b (cuboid_pose : Affine3d) (depth width height : R)
  (axis : grasp_axis_t) (grasp_data : GraspData) : list Affine3d :=
  let la := length_along_a axis depth width height in
  let lb := length_along_b axis depth width height in
  face_row (num_grasps_along lb grasp_data)
    (aligned_pose cuboid_pose (rotation_angles axis)
       (b_translation cuboid_pose depth width height axis grasp_data) (PI / 2))
    (vscale (face_delta la grasp_data (num_grasps_along la grasp_data))
            (a_dir axis cuboid_pose)).

(* ------------------------------------------------------------------ *)
(** *** Block 3 *)

(** The poses that the depth block derives from one pose [p]. *)
Definition depth_fan (grasp_data : GraspData) (p : Affine3d) : list Affine3d :=
  map (fun j => backed_off p (INR j * delta_f grasp_data))
      (seq 1 (Z.to_nat (num_depth_grasps grasp_data))).

(* ------------------------------------------------------------------ *)
(** *** Block 4 *)

(** The run of poses [p], [p] turned by [angle], by twice [angle], ... that
    satisfy [test], cut at the first pose that fails it and after [budget]
    poses. *)
Fixpoint sweep_run (test : Affine3d -> bool) (angle : R) (budget : nat)
  (p : Affine3d) : list Affine3d :=
  match budget with
  | O => []
  | S b => if test p then p :: sweep_run test angle b (turned_y p angle) else []
  end.

(** [max_iterations] of block 4, and the number of poses that one [while]
    loop can append before its [break]. *)
Definition max_iterations (grasp_data : GraspData) : Z :=
  double_to_int (PI / angle_res grasp_data + 1).

Definition sweep_budget (grasp_data : GraspData) : nat :=
  Z.to_nat (Z.max 1 (max_iterations grasp_data + 1)).

(** The poses that block 4 derives from one pose [base]: the run in the
    positive direction, then the run in the negative direction. *)
Definition angle_sweep (cuboid_pose : Affine3d) (depth width height : R)
  (grasp_data : GraspData) (base : Affine3d) : list Affine3d :=
  sweep_run (fun p => graspIntersectionHelper cuboid_pose depth width height p grasp_data)
    (angle_res grasp_data) (sweep_budget grasp_data)
    (turned_y base (angle_res grasp_data))
  ++ sweep_run (fun p => graspIntersectionHelper cuboid_pose depth width height p grasp_data)
       (- angle_res grasp_data) (sweep_budget grasp_data)
       (turned_y base (- angle_res grasp_data)).

(** The reach-in segment of [grasp_pose], in the frame of the cuboid: the
    two points that [graspIntersectionHelper] tests. *)
Definition reach_in_segment (cuboid_pose grasp_pose : Affine3d) (grasp_data : GraspData)
  : Vector3d * Vector3d :=
  let point_a := translation grasp_pose in
  let point_b :=
    vadd point_a
         (vscale (finger_to_palm_depth_ grasp_data) (mvmul (rotation grasp_pose) UnitZ)) in
  (transform (inverse cuboid_pose) point_a, transform (inverse cuboid_pose) point_b).

(* ------------------------------------------------------------------ *)
(** *** The scorer *)

(** [finger_length] and [distance] of [scoreGrasp]. *)
Definition finger_length (grasp_data : GraspData) : R :=
  finger_to_palm_depth_ grasp_data - grasp_min_depth_ grasp_data.

Definition palm_distance (pose object_pose : Affine3d) : R :=
  norm (vsub (translation pose) (translation object_pose)).

(** Components A, B and C of the score: the entries of [individual_scores]
    that [scoreGrasp] averages. *)
Definition score_A (pose : Affine3d) (grasp_data : GraspData) (object_pose : Affine3d) : R :=
  nth 0 (individual_scores ideal_pose pose grasp_data object_pose) 0.
Definition score_B (pose : Affine3d) (grasp_data : GraspData) (object_pose : Affine3d) : R :=
  nth 1 (individual_scores ideal_pose pose grasp_data object_pose) 0.
Definition score_C (pose : Affine3d) (grasp_data : GraspData) (object_pose : Affine3d) : R :=
  nth 2 (individual_scores ideal_pose pose grasp_data object_pose) 0.

(** A generator that has not scored a grasp yet (the constructor does not
    set [ideal_grasp_pose_]), here with the identity as [ideal_grasp_pose_]. *)
Definition fresh_generator : GraspGenerator :=
  mkGraspGenerator false (1 / 100) (1 / 100) false 0 false 0 Identity 0.

(* ------------------------------------------------------------------ *)
(** *** The entry points *)

(** The extent of the box along an axis, and the axes that [generateGrasps]
    attempts, in the order in which it attempts them. *)
Definition axis_extent (axis : grasp_axis_t) (depth width height : R) : R :=
  match axis with
  | X_AXIS => depth
  | Y_AXIS => width
  | Z_AXIS => height
  end.

Definition attempted_axes (depth width height max_grasp_size : R) : list grasp_axis_t :=
  filter (fun axis => Rleb (axis_extent axis depth width height) max_grasp_size)
         [X_AXIS; Y_AXIS; Z_AXIS].

(** The message that [addGrasp] builds for [grasp_pose] when the counter
    [grasp_id] stands at [n]. *)
Definition grasp_message (n : Z) (grasp_pose : Affine3d) (grasp_data : GraspData)
  (object_pose : Affine3d) : moveit_msgs.Grasp :=
  moveit_msgs.mkGrasp n
    (fst (scoreGrasp fresh_generator grasp_pose grasp_data object_pose))
    (moveit_msgs.mkGripperTranslation (vec3 0 0 1)
       (finger_to_palm_depth_ grasp_data) (finger_to_palm_depth_ grasp_data))
    (moveit_msgs.mkGripperTranslation (vec3 0 0 (-1))
       (finger_to_palm_depth_ grasp_data) (finger_to_palm_depth_ grasp_data))
    (compose grasp_pose (grasp_pose_to_eef_pose_ grasp_data)).

(** The messages for the poses [poses], numbered from [n] on. *)
Fixpoint grasp_messages (n : Z) (poses : list Affine3d) (grasp_data : GraspData)
  (object_pose : Affine3d) : list moveit_msgs.Grasp :=
  match poses with
  | [] => []
  | pose :: rest =>
      grasp_message n pose grasp_data object_pose
      :: grasp_messages (n + 1) rest grasp_data object_pose
  end.

(* ------------------------------------------------------------------ *)
(** *** Inputs used in examples *)

(** A gripper with 8 cm fingers, 2 cm of them unusable, 3 cm wide, sampled
    every 45 degrees and every centimetre; it is used on a box of
    4 x 6 x 8 cm. *)
Definition example_grasp_data : GraspData :=
  mkGraspData (8 / 100) (2 / 100) 45 (3 / 100) (1 / 100) (1 / 100) Identity.

(** A box of 0.5 x 1 x 2 and a gripper 0.25 wide sampled every 0.125 along a
    face (all of them exact in binary floating point). *)
Definition wide_grasp_data : GraspData :=
  mkGraspData (8 / 100) (2 / 100) 45 (1 / 4) (1 / 8) (1 / 100) Identity.

(** The gripper frame for grasps around the Z axis of an unrotated box: its
    Z axis points along the box's X axis, its Y axis along the box's Z axis. *)
Definition z_axis_frame : Matrix3d := mat3 (vec3 0 0 1) (vec3 1 0 0) (vec3 0 1 0).

(** The first face grasp around the Z axis of the 4 x 6 x 8 cm box with
    [example_grasp_data]: half a millimetre outside the face [x = -2 cm]. *)
Definition example_base : Affine3d :=
  affine z_axis_frame (vec3 (- (41 / 2000)) (- (15 / 1000)) 0).

(** A mesh without vertices. *)
Definition empty_mesh : shape_msgs.Mesh := shape_msgs.mkMesh [] [].

(** Two meshes with the same two vertices, listed in either order. *)
Definition mesh_ab : shape_msgs.Mesh :=
  shape_msgs.mkMesh [vec3 1 2 3; vec3 (-1) 0 2] [].
Definition mesh_ba : shape_msgs.Mesh :=
  shape_msgs.mkMesh [vec3 (-1) 0 2; vec3 1 2 3] [].

(* ------------------------------------------------------------------ *)
(** *** Rigid poses *)

(** [m.transpose()]. *)
Definition transpose (m : Matrix3d) : Matrix3d := of_cols (row0 m) (row1 m) (row2 m).

(** A rotation matrix: orthonormal columns and determinant 1. *)
Definition is_rotation (m : Matrix3d) : Prop :=
  mmul (transpose m) m = MIdentity /\ determinant m = 1.

(** A rigid pose: its linear part is a rotation. *)
Definition rigid (p : Affine3d) : Prop := is_rotation (linear p).

(** The direction, in the frame of the cuboid, of the local Y axis of the
    grasps generated around [axis]. *)
Definition grasp_y_axis (axis : grasp_axis_t) : Vector3d :=
  match axis with
  | X_AXIS => UnitX
  | Y_AXIS => vneg UnitY
  | Z_AXIS => UnitZ
  end.

(* ------------------------------------------------------------------ *)
(** *** Geometry of the intersection test *)

(** The point of the segment from [a] to [b] at parameter [t]. *)
Definition segment_point (a b : Vector3d) (t : R) : Vector3d :=
  vadd a (vscale t (vsub b a)).

(** The closed box of the given extents, centred at the origin, and its
    interior. *)
Definition in_box (depth width height : R) (q : Vector3d) : Prop :=
  - depth / 2 <= vx q <= depth / 2 /\
  - width / 2 <= vy q <= width / 2 /\
  - height / 2 <= vz q <= height / 2.

Definition strictly_in_box (depth width height : R) (q : Vector3d) : Prop :=
  - depth / 2 < vx q < depth / 2 /\
  - width / 2 < vy q < width / 2 /\
  - height / 2 < vz q < height / 2.

(** The point [q] of the segment from [a] to [b] lies on one of the six
    faces of the box, and the segment is not parallel to that face. *)
Definition on_crossed_face (a b : Vector3d) (depth width height : R) (q : Vector3d)
  : Prop :=
  (vz a <> vz b /\ (vz q = height / 2 \/ vz q = - height / 2) /\
   - depth / 2 <= vx q <= depth / 2 /\ - width / 2 <= vy q <= width / 2) \/
  (vy a <> vy b /\ (vy q = width / 2 \/ vy q = - width / 2) /\
   - depth / 2 <= vx q <= depth / 2 /\ - height / 2 <= vz q <= height / 2) \/
  (vx a <> vx b /\ (vx q = depth / 2 \/ vx q = - depth / 2) /\
   - width / 2 <= vy q <= width / 2 /\ - height / 2 <= vz q <= height / 2).

(** The segment from [a] to [b] crosses a face of the box. *)
Definition crosses_face (a b : Vector3d) (depth width height : R) : Prop :=
  exists t : R, 0 <= t <= 1 /\
    on_crossed_face a b depth width height (segment_point a b t).

(** The six face tests that [graspIntersectionHelper] runs on the segment
    from [a] to [b], already expressed in the cuboid frame: the faces
    [z = +/- height/2], then [y = +/- width/2], then [x = +/- depth/2]. *)
Definition face_tests (a b : Vector3d) (depth width height : R) : bool :=
  fst (intersectionHelper (fdiv (height / 2 - vz a) (vz b - vz a))
         (vx a) (vy a) (vx b) (vy b) depth width)
  || fst (intersectionHelper (fdiv (- height / 2 - vz a) (vz b - vz a))
            (vx a) (vy a) (vx b) (vy b) depth width)
  || fst (intersectionHelper (fdiv (width / 2 - vy a) (vy b - vy a))
            (vx a) (vz a) (vx b) (vz b) depth height)
  || fst (intersectionHelper (fdiv (- width / 2 - vy a) (vy b - vy a))
            (vx a) (vz a) (vx b) (vz b) depth height)
  || fst (intersectionHelper (fdiv (depth / 2 - vx a) (vx b - vx a))
            (vy a) (vz a) (vy b) (vz b) width height)
  || fst (intersectionHelper (fdiv (- depth / 2 - vx a) (vx b - vx a))
            (vy a) (vz a) (vy b) (vz b) width height).

(** A gripper whose fingers have no length. *)
Definition flat_grasp_data : GraspData :=
  mkGraspData 0 0 45 (3 / 100) (1 / 100) (1 / 100) Identity.

(* ------------------------------------------------------------------ *)
(** *** The parts of the bounding box *)

(** The intermediate values of [getBoundingBoxFromMesh]: the sums of the
    first loop, [centroid], [inertia_axis_aligned], the three axes after the
    handedness test, [world_to_mesh_transform], and [min] and [max] after the
    bounds loop. *)
Definition mesh_sums (mesh_msg : shape_msgs.Mesh) : Moments :=
  fold_left accumulate (shape_msgs.vertices mesh_msg) (mkMoments Zero 0 0 0 0 0 0).

Definition mesh_centroid (mesh_msg : shape_msgs.Mesh) : Vector3d :=
  let num_vertices := Z.of_nat (length (shape_msgs.vertices mesh_msg)) in
  vec3 (vx (m_centroid (mesh_sums mesh_msg)) / IZR num_vertices)
       (vy (m_centroid (mesh_sums mesh_msg)) / IZR num_vertices)
       (vz (m_centroid (mesh_sums mesh_msg)) / IZR num_vertices).

Definition inertia_axis_aligned (mesh_msg : shape_msgs.Mesh) : Matrix3d :=
  let sums := mesh_sums mesh_msg in
  mat3 (vec3 (Ixx sums) (- Ixy sums) (- Ixz sums))
       (vec3 (- Ixy sums) (Iyy sums) (- Iyz sums))
       (vec3 (- Ixz sums) (- Iyz sums) (Izz sums)).

Definition right_handed (es : Matrix3d) : Matrix3d :=
  let axis_1 := col0 es in
  let axis_2 := col1 es in
  let axis_3 := col2 es in
  let w := vsub (cross axis_1 axis_2) axis_3 in
  let epsilon := 1 / 1000000 in
  let axis_3 :=
    if negb (Rltb (Rabs (vx w)) epsilon && Rltb (Rabs (vy w)) epsilon
             && Rltb (Rabs (vz w)) epsilon)
    then vscale (-1) axis_3 else axis_3 in
  of_cols axis_1 axis_2 axis_3.

Definition world_to_mesh_transform (eigenvectors : Matrix3d -> Matrix3d)
  (mesh_msg : shape_msgs.Mesh) : Affine3d :=
  affine (right_handed (eigenvectors (inertia_axis_aligned mesh_msg)))
         (mesh_centroid mesh_msg).

Definition mesh_bounds (eigenvectors : Matrix3d -> Matrix3d)
  (mesh_msg : shape_msgs.Mesh) : Vector3d * Vector3d :=
  fold_left
    (fun bounds point =>
       update_bounds bounds
         (transform (inverse (world_to_mesh_transform eigenvectors mesh_msg)) point))
    (shape_msgs.vertices mesh_msg)
    (vec3 DBL_MAX DBL_MAX DBL_MAX, vec3 DBL_MIN DBL_MIN DBL_MIN).

(** What a call of [getBoundingBoxFromMesh] stores in its output arguments. *)
Definition box_pose (r : bool * (Affine3d * R * R * R)) : Affine3d :=
  fst (fst (fst (snd r))).
Definition box_depth (r : bool * (Affine3d * R * R * R)) : R := snd (fst (fst (snd r))).
Definition box_width (r : bool * (Affine3d * R * R * R)) : R := snd (fst (snd r)).
Definition box_height (r : bool * (Affine3d * R * R * R)) : R := snd (snd r).

(** [u] is below [v] in each coordinate. *)
Definition le3 (u v : Vector3d) : Prop := vx u <= vx v /\ vy u <= vy v /\ vz u <= vz v.

(** The sum of a list of vectors. *)
Definition vsum (l : list Vector3d) : Vector3d := fold_right vadd Zero l.

(** Left-handed axes: the third one points down. *)
Definition left_handed_axes : Matrix3d := mat3 (vec3 1 0 0) (vec3 0 1 0) (vec3 0 0 (-1)).

(** A mesh with a single vertex. *)
Definition mesh_a : shape_msgs.Mesh := shape_msgs.mkMesh [vec3 1 2 3] [].

(* ------------------------------------------------------------------ *)
(** *** Pre-grasp poses *)

(** The vector by which [getPreGraspPose] expects the gripper to travel from
    the pre-grasp pose to the grasp: the approach direction of the message,
    read in the frame of the grasp pose when the message names the parent
    link of the end effector, and in the world frame otherwise. *)
Definition approach_in_world (grasp : moveit_msgs.Grasp)
  (frame_id ee_parent_link : String.string) : Vector3d :=
  let direction := moveit_msgs.direction (moveit_msgs.pre_grasp_approach grasp) in
  if String.eqb frame_id ee_parent_link then
    mvmul (rotation (moveit_msgs.grasp_pose grasp)) direction
  else direction.

(* ------------------------------------------------------------------ *)
(** *** Numbering of the grasps *)

(** The grasps [gs] are numbered [n], [n + 1], [n + 2], ... in this order. *)
Definition numbered_from (n : Z) (gs : list moveit_msgs.Grasp) : Prop :=
  map moveit_msgs.id gs = map (fun k => (n + Z.of_nat k)%Z) (seq 0 (length gs)).

(* ------------------------------------------------------------------ *)
(** *** Positions along a face *)

(** The position along the face, from its centre, of the pose of index [i]
    (from 0) of a row of block 2 on a face of extent [length]. *)
Definition row_offset (length : R) (grasp_data : GraspData) (i : nat) : R :=
  - (0.5 * (length - gripper_width_ grasp_data))
  + INR i * face_delta length grasp_data (num_grasps_along length grasp_data).

(** [delta_angle] of [addCornerGraspsHelper] for the count of block 1. *)
Definition delta_angle (grasp_data : GraspData) : R :=
  (PI / 2) / IZR (num_radial_grasps grasp_data + 1).

(* ------------------------------------------------------------------ *)
(** *** Number of poses *)

(** The number of poses after block 3 of [generateCuboidAxisGrasps]: the
    four corner fans and the four face rows, each pose with its depth
    steps. *)
Definition num_base_poses (depth width height : R) (axis : grasp_axis_t)
  (grasp_data : GraspData) : nat :=
  (4 * Z.to_nat (num_radial_grasps grasp_data)
   + 4 * Z.to_nat (num_grasps_along (length_along_b axis depth width height) grasp_data))
  * (1 + Z.to_nat (num_depth_grasps grasp_data)).

(* ------------------------------------------------------------------ *)
(** *** Approach directions *)

(** The axes of the box that [a_dir] and [b_dir] are taken from, in the
    [switch] of [generateCuboidAxisGrasps]. *)
Definition a_axis (axis : grasp_axis_t) : Vector3d :=
  match axis with
  | X_AXIS => UnitY
  | Y_AXIS => UnitX
  | Z_AXIS => UnitX
  end.

Definition b_axis (axis : grasp_axis_t) : Vector3d :=
  match axis with
  | X_AXIS => UnitZ
  | Y_AXIS => UnitZ
  | Z_AXIS => UnitY
  end.

(** The approach direction of a pose: its local Z axis. *)
Definition approach_direction (p : Affine3d) : Vector3d := mvmul (rotation p) UnitZ.

(** The direction [d] points between the directions [u] and [v]: it is a
    combination of the two with positive coefficients. *)
Definition points_between (u v d : Vector3d) : Prop :=
  exists alpha beta : R,
    0 < alpha /\ 0 < beta /\ d = vadd (vscale alpha u) (vscale beta v).

(* ================================================================== *)
(** * Properties *)

(** Equality of poses, matrices and vectors, component by component. *)
Ltac eigen_eq :=
  repeat match goal with
         | |- affine _ _ = affine _ _ => f_equal
         | |- mat3 _ _ _ = mat3 _ _ _ => f_equal
         | |- vec3 _ _ _ = vec3 _ _ _ => f_equal
         end;
  try ring.

Ltac eigen_field :=
  repeat match goal with
         | |- affine _ _ = affine _ _ => f_equal
         | |- mat3 _ _ _ = mat3 _ _ _ => f_equal
         | |- vec3 _ _ _ = vec3 _ _ _ => f_equal
         end;
  try first [lra | field; lra].

(** Unfolding of the vector and matrix operations down to real arithmetic. *)
Ltac eigen_cbv :=
  cbv beta iota zeta delta
    [inverse minverse determinant of_cols cross dot vscale vadd vsub vneg mvmul mmul
     col0 col1 col2 transform rotate translate set_translation rotation compose
     Identity MIdentity UnitX UnitY UnitZ Zero AngleAxisX AngleAxisY AngleAxisZ
     vx vy vz row0 row1 row2 linear translation normalized norm squaredNorm
     turned_y backed_off flipped_z aligned_pose].

(** ** Numbers *)

(** Reflection of the boolean comparisons. *)
Lemma Rleb_true (x y : R) : Rleb x y = true <-> x <= y.
Proof. unfold Rleb; destruct (Rle_dec x y); split; intros; try easy. Qed.

Lemma Rleb_false (x y : R) : Rleb x y = false <-> y < x.
Proof.
  unfold Rleb; destruct (Rle_dec x y); split; intros; try easy; lra.
Qed.

Lemma Rltb_true (x y : R) : Rltb x y = true <-> x < y.
Proof. unfold Rltb; destruct (Rlt_dec x y); split; intros; try easy. Qed.

Lemma Rltb_false (x y : R) : Rltb x y = false <-> y <= x.
Proof.
  unfold Rltb; destruct (Rlt_dec x y); split; intros; try easy; lra.
Qed.

Lemma double_to_int_IZR (z : Z) : double_to_int (IZR z) = z.
Proof.
  unfold double_to_int.
  destruct (Rlt_dec (IZR z) 0).
  - unfold Zceil. rewrite ZfloorNZ. lia.
  - apply ZfloorZ.
Qed.

Lemma double_to_int_ceil (x : R) : double_to_int (ceil x) = Zceil x.
Proof. apply double_to_int_IZR. Qed.

Lemma double_to_int_floor_plus_1 (x : R) :
  double_to_int (floor x + 1) = (Zfloor x + 1)%Z.
Proof.
  unfold floor. rewrite <- plus_IZR. apply double_to_int_IZR.
Qed.



(* ================================================================== *)
(** ** Properties of the intersection test *)

Lemma intersectionHelper_true_iff (t : xdouble) (u1 v1 u2 v2 a b : R) :
  fst (intersectionHelper t u1 v1 u2 v2 a b) = true <->
  xbetween 0 1 t /\ interpolated_in_rectangle t u1 v1 u2 v2 a b.
Proof.
  destruct t as [r | | |]; simpl;
    try (split; [discriminate | intros [[] _]]).
  destruct (Rleb 0 r && Rleb r 1) eqn:Ht; simpl.
  - apply andb_true_iff in Ht. destruct Ht as [H0 H1].
    apply Rleb_true in H0. apply Rleb_true in H1.
    destruct (Rleb (- a / 2) (u1 + r * (u2 - u1)) && Rleb (u1 + r * (u2 - u1)) (a / 2)
              && Rleb (- b / 2) (v1 + r * (v2 - v1)) && Rleb (v1 + r * (v2 - v1)) (b / 2))
      eqn:Hin; simpl.
    + rewrite !andb_true_iff, !Rleb_true in Hin. tauto.
    + split; [discriminate |].
      intros [_ [[Ha Hb] [Hc Hd]]].
      apply Rleb_true in Ha, Hb, Hc, Hd.
      rewrite Ha, Hb, Hc, Hd in Hin. discriminate.
  - split; [discriminate |].
    intros [[H0 H1] _].
    apply Rleb_true in H0, H1. rewrite H0, H1 in Ht. discriminate.
Qed.

(** C6.  [intersectionHelper] returns true exactly when [0 <= t <= 1] and the
    point interpolated between the two in-plane coordinate pairs at [t] lies
    in [[-a/2, a/2] x [-b/2, b/2]]; in particular a [t] outside [[0, 1]]
    (an infinity and a NaN included) gives false whatever the in-plane
    coordinates are. *)
Theorem intersectionHelper_contract (t : xdouble) (u1 v1 u2 v2 a b : R) :
  (fst (intersectionHelper t u1 v1 u2 v2 a b) = true <->
   xbetween 0 1 t /\ interpolated_in_rectangle t u1 v1 u2 v2 a b) /\
  (~ xbetween 0 1 t -> fst (intersectionHelper t u1 v1 u2 v2 a b) = false).
Proof.
  split; [apply intersectionHelper_true_iff |].
  intros Hout.
  destruct (fst (intersectionHelper t u1 v1 u2 v2 a b)) eqn:Hr; [| reflexivity].
  apply intersectionHelper_true_iff in Hr. destruct Hr as [Hin _].
  contradiction.
Qed.

(* ================================================================== *)
(** ** Loops that push onto the vector they read *)

Section IndexedPush.

Context {A : Type} (d : A) (body : A -> list A) (step : list A -> nat -> list A).
Hypothesis step_spec : forall l i, step l i = l ++ body (nth i l d).

(** A loop over the indices [s, s + n) of a vector that appends
    [body (v[i])] at each index reads only the elements that were there at
    the start. *)
Lemma fold_left_indexed_push_gen (l : list A) :
  forall n s acc, (s + n <= length l)%nat ->
    fold_left step (seq s n) (l ++ acc)
    = l ++ acc ++ flat_map body (firstn n (skipn s l)).
Proof.
  induction n as [| n IH]; intros s acc Hlen; simpl.
  - rewrite app_nil_r. reflexivity.
  - rewrite step_spec.
    rewrite app_nth1 by lia.
    rewrite <- app_assoc.
    rewrite IH by lia.
    assert (Hs : (s < length l)%nat) by lia.
    destruct (skipn s l) as [| x rest] eqn:Hsk.
    + apply (f_equal (@length A)) in Hsk. rewrite length_skipn in Hsk.
      simpl in Hsk. lia.
    + assert (Hx : nth s l d = x).
      { rewrite <- (firstn_skipn s l) at 1.
        rewrite app_nth2; rewrite length_firstn, Nat.min_l by lia; [| lia].
        rewrite Nat.sub_diag, Hsk. reflexivity. }
      assert (Hrest : skipn (S s) l = rest).
      { replace (S s) with (1 + s)%nat by lia.
        rewrite <- skipn_skipn, Hsk. reflexivity. }
      rewrite Hx, Hrest. simpl.
      rewrite <- !app_assoc. reflexivity.
Qed.

Lemma fold_left_indexed_push (l : list A) (s : nat) :
  fold_left step (seq s (length l - s)) l = l ++ flat_map body (skipn s l).
Proof.
  destruct (Nat.le_gt_cases s (length l)) as [Hs | Hs].
  - rewrite <- (app_nil_r l) at 2.
    rewrite fold_left_indexed_push_gen by lia.
    simpl. rewrite firstn_all2; [reflexivity |].
    rewrite length_skipn. lia.
  - replace (length l - s)%nat with 0%nat by lia.
    rewrite skipn_all2 by lia. simpl. rewrite app_nil_r. reflexivity.
Qed.

End IndexedPush.

Lemma flat_map_singleton {A B : Type} (f : A -> B) (l : list A) :
  flat_map (fun x => [f x]) l = map f l.
Proof. induction l as [| x l IH]; simpl; [| rewrite IH]; reflexivity. Qed.

(* ================================================================== *)
(** ** Block 5: grasps in both directions *)

Lemma add_bidirectional_grasps_eq (grasp_poses : list Affine3d) :
  add_bidirectional_grasps grasp_poses = grasp_poses ++ map flipped_z grasp_poses.
Proof.
  unfold add_bidirectional_grasps.
  rewrite <- (Nat.sub_0_r (length grasp_poses)) at 1.
  rewrite (fold_left_indexed_push Identity (fun p => [flipped_z p])).
  - simpl. rewrite flat_map_singleton. reflexivity.
  - intros l i. reflexivity.
Qed.

(** Half a turn about the local Z axis keeps the position and the approach
    axis and reverses the other two axes. *)
Lemma flipped_z_axes (p : Affine3d) :
  translation (flipped_z p) = translation p /\
  col2 (linear (flipped_z p)) = col2 (linear p) /\
  col0 (linear (flipped_z p)) = vneg (col0 (linear p)) /\
  col1 (linear (flipped_z p)) = vneg (col1 (linear p)).
Proof.
  destruct p as [[[a b c] [e f g] [h i j]] t].
  unfold flipped_z, rotate, AngleAxisZ, mmul, col0, col1, col2, vneg, dot; simpl.
  rewrite cos_PI, sin_PI.
  repeat split; f_equal; ring.
Qed.

(** C8.  In every run of the enumeration the last block appends, for each
    pose accumulated before it and in the same order, one copy turned by 180
    degrees about that pose's local Z axis; the number of candidate poses
    after the block is exactly twice the number before it. *)
Theorem bidirectional_duplication_doubles (cuboid_pose : Affine3d)
  (depth width height : R) (axis : grasp_axis_t) (grasp_data : GraspData) :
  cuboid_axis_grasp_poses cuboid_pose depth width height axis grasp_data
  = angle_poses cuboid_pose depth width height axis grasp_data
    ++ map flipped_z (angle_poses cuboid_pose depth width height axis grasp_data)
  /\ length (cuboid_axis_grasp_poses cuboid_pose depth width height axis grasp_data)
     = (2 * length (angle_poses cuboid_pose depth width height axis grasp_data))%nat
  /\ (forall p : Affine3d,
        translation (flipped_z p) = translation p /\
        col2 (linear (flipped_z p)) = col2 (linear p) /\
        col0 (linear (flipped_z p)) = vneg (col0 (linear p)) /\
        col1 (linear (flipped_z p)) = vneg (col1 (linear p))).
Proof.
  assert (Heq : cuboid_axis_grasp_poses cuboid_pose depth width height axis grasp_data
                = add_bidirectional_grasps
                    (angle_poses cuboid_pose depth width height axis grasp_data))
    by reflexivity.
  rewrite Heq, add_bidirectional_grasps_eq.
  split; [reflexivity | split].
  - rewrite length_app, length_map. lia.
  - exact flipped_z_axes.
Qed.

(* ================================================================== *)
(** ** Block 3: grasps at variable depths *)

Lemma set_translation_same (p : Affine3d) : set_translation p (translation p) = p.
Proof. destruct p; reflexivity. Qed.

Lemma backed_off_0 (p : Affine3d) : backed_off p 0 = p.
Proof.
  destruct p as [l [x y z]]. unfold backed_off, set_translation, vsub, vscale; simpl.
  do 2 f_equal; ring.
Qed.

Lemma backed_off_step (p : Affine3d) (a b : R) :
  set_translation (backed_off p a)
    (vsub (translation (backed_off p a)) (vscale b (mvmul (rotation p) UnitZ)))
  = backed_off p (a + b).
Proof.
  destruct p as [l [x y z]]. unfold backed_off, set_translation, vsub, vscale; simpl.
  do 2 f_equal; ring.
Qed.

(** The inner loop started at the [k]-th step behind [p] appends the steps
    [k + 1], ..., [k + n]. *)
Lemma depth_loop_eq (p : Affine3d) (delta : R) :
  forall n k acc,
    depth_loop n (backed_off p (INR k * delta)) delta (mvmul (rotation p) UnitZ) acc
    = acc ++ map (fun j => backed_off p (INR j * delta)) (seq (S k) n).
Proof.
  induction n as [| n IH]; intros k acc; simpl.
  - rewrite app_nil_r. reflexivity.
  - rewrite backed_off_step.
    replace (INR k * delta + delta) with (INR (S k) * delta)
      by (rewrite S_INR; ring).
    rewrite IH, <- app_assoc. reflexivity.
Qed.

Lemma add_depth_grasps_eq (grasp_data : GraspData) (grasp_poses : list Affine3d) :
  add_depth_grasps grasp_data grasp_poses
  = grasp_poses ++ flat_map (depth_fan grasp_data) grasp_poses.
Proof.
  unfold add_depth_grasps.
  rewrite <- (Nat.sub_0_r (length grasp_poses)) at 1.
  rewrite (fold_left_indexed_push Identity (depth_fan grasp_data)).
  - reflexivity.
  - intros l i.
    pose proof (depth_loop_eq (nth i l Identity) (delta_f grasp_data)
                  (Z.to_nat (num_depth_grasps grasp_data)) 0 l) as H.
    simpl INR in H. rewrite Rmult_0_l, backed_off_0 in H. exact H.
Qed.

Lemma length_flat_map_const {A B : Type} (f : A -> list B) (n : nat) (l : list A) :
  (forall x, length (f x) = n) -> length (flat_map f l) = (length l * n)%nat.
Proof.
  intros Hf. induction l as [| x l IH]; simpl; [reflexivity |].
  rewrite length_app, Hf, IH. lia.
Qed.

Lemma num_depth_grasps_eq (grasp_data : GraspData) :
  num_depth_grasps grasp_data
  = Z.max 1 (Zceil (finger_depth grasp_data / grasp_depth_resolution_ grasp_data)).
Proof.
  unfold num_depth_grasps. rewrite double_to_int_ceil.
  destruct (Z.leb_spec (Zceil (finger_depth grasp_data / grasp_depth_resolution_ grasp_data)) 0);
    lia.
Qed.

Lemma num_depth_grasps_pos (grasp_data : GraspData) :
  (1 <= num_depth_grasps grasp_data)%Z.
Proof. rewrite num_depth_grasps_eq. lia. Qed.

(** C9.  For a positive depth resolution, the depth block appends, for every
    pose [p] that the corner and face blocks produced, exactly
    [max(1, ceil(finger_depth / depth_resolution))] poses: [p] moved back
    along its approach direction by 1, 2, ..., count steps of
    [delta_f = finger_depth / count], the last one by the whole usable finger
    length [finger_to_palm_depth - grasp_min_depth]; the number of poses after
    the block is the number before it times [1 + count]. *)
Theorem depth_grasps_count_and_span (cuboid_pose : Affine3d)
  (depth width height : R) (axis : grasp_axis_t) (grasp_data : GraspData) :
  0 < grasp_depth_resolution_ grasp_data ->
  num_depth_grasps grasp_data
  = Z.max 1 (Zceil ((finger_to_palm_depth_ grasp_data - grasp_min_depth_ grasp_data)
                    / grasp_depth_resolution_ grasp_data)) /\
  depth_poses cuboid_pose depth width height axis grasp_data
  = corner_face_poses cuboid_pose depth width height axis grasp_data
    ++ flat_map
         (fun p =>
            map (fun j => backed_off p (INR j * delta_f grasp_data))
                (seq 1 (Z.to_nat (num_depth_grasps grasp_data))))
         (corner_face_poses cuboid_pose depth width height axis grasp_data) /\
  delta_f grasp_data
  = (finger_to_palm_depth_ grasp_data - grasp_min_depth_ grasp_data)
    / IZR (num_depth_grasps grasp_data) /\
  IZR (num_depth_grasps grasp_data) * delta_f grasp_data
  = finger_to_palm_depth_ grasp_data - grasp_min_depth_ grasp_data /\
  Z.of_nat (length (depth_poses cuboid_pose depth width height axis grasp_data))
  = (Z.of_nat (length (corner_face_poses cuboid_pose depth width height axis grasp_data))
     * (1 + num_depth_grasps grasp_data))%Z.
Proof.
  intros _.
  pose proof (num_depth_grasps_pos grasp_data) as Hpos.
  assert (Hnz : IZR (num_depth_grasps grasp_data) <> 0).
  { apply not_0_IZR. lia. }
  split; [apply num_depth_grasps_eq |].
  split; [apply add_depth_grasps_eq |].
  split; [reflexivity |].
  split.
  - unfold delta_f, finger_depth. field. exact Hnz.
  - unfold depth_poses. rewrite add_depth_grasps_eq, length_app.
    rewrite (length_flat_map_const _ (Z.to_nat (num_depth_grasps grasp_data))).
    + lia.
    + intros p. unfold depth_fan. rewrite length_map, length_seq. reflexivity.
Qed.

(** With 8 cm fingers, 2 cm of them unusable, and a depth resolution of 1 cm:
    six depth steps behind every corner and face pose. *)
Lemma depth_grasps_count_and_span_witness :
  0 < grasp_depth_resolution_ example_grasp_data /\
  num_depth_grasps example_grasp_data = 6%Z /\
  Z.of_nat (length (depth_poses Identity (4 / 100) (6 / 100) (8 / 100) Z_AXIS
                      example_grasp_data))
  = (Z.of_nat (length (corner_face_poses Identity (4 / 100) (6 / 100) (8 / 100) Z_AXIS
                         example_grasp_data)) * (1 + 6))%Z.
Proof.
  assert (Hres : 0 < grasp_depth_resolution_ example_grasp_data) by (simpl; lra).
  destruct (depth_grasps_count_and_span Identity (4 / 100) (6 / 100) (8 / 100) Z_AXIS
              example_grasp_data Hres) as (Hn & _ & _ & _ & Hlen).
  assert (H6 : num_depth_grasps example_grasp_data = 6%Z).
  { rewrite Hn. simpl. rewrite (Zceil_eq 6); [reflexivity |]. simpl. lra. }
  split; [exact Hres |]. split; [exact H6 |].
  rewrite Hlen, H6. reflexivity.
Defined.

(* ================================================================== *)
(** ** Block 1: grasps at corners *)

Lemma turned_y_0 (p : Affine3d) : turned_y p 0 = p.
Proof.
  destruct p as [[[a b c] [e f g] [h i j]] t].
  unfold turned_y, rotate, AngleAxisY, mmul, col0, col1, col2, dot; simpl.
  rewrite cos_0, sin_0. eigen_eq.
Qed.

Lemma turned_y_add (p : Affine3d) (a b : R) :
  turned_y (turned_y p a) b = turned_y p (a + b).
Proof.
  destruct p as [[[m00 m01 m02] [m10 m11 m12] [m20 m21 m22]] t].
  unfold turned_y, rotate, AngleAxisY, mmul, col0, col1, col2, dot; simpl.
  rewrite cos_plus, sin_plus. eigen_eq.
Qed.

(** The loop of [addCornerGraspsHelper] started at the [k]-th step around
    [p] appends the steps [k + 1], ..., [k + n]. *)
Lemma corner_loop_eq (p : Affine3d) (delta : R) :
  forall n k acc,
    corner_loop n (turned_y p (INR k * delta)) delta acc
    = acc ++ map (fun j => turned_y p (INR j * delta)) (seq (S k) n).
Proof.
  induction n as [| n IH]; intros k acc; simpl.
  - rewrite app_nil_r. reflexivity.
  - fold (turned_y (turned_y p (INR k * delta)) delta).
    rewrite turned_y_add.
    replace (INR k * delta + delta) with (INR (S k) * delta)
      by (rewrite S_INR; ring).
    rewrite IH, <- app_assoc. reflexivity.
Qed.

Lemma addCornerGraspsHelper_eq (pose : Affine3d) (angles : R * R * R)
  (translation : Vector3d) (corner_rotation : R) (n : Z) (acc : list Affine3d) :
  addCornerGraspsHelper pose angles translation corner_rotation n acc
  = acc ++ corner_fan n (aligned_pose pose angles translation corner_rotation).
Proof.
  unfold addCornerGraspsHelper, corner_fan.
  pose proof (corner_loop_eq (aligned_pose pose angles translation corner_rotation)
                (PI / 2 / IZR (n + 1)) (Z.to_nat n) 0 acc) as H.
  simpl INR in H. rewrite Rmult_0_l, turned_y_0 in H. exact H.
Qed.

Lemma length_corner_fan (n : Z) (base : Affine3d) :
  length (corner_fan n base) = Z.to_nat n.
Proof. unfold corner_fan. rewrite length_map, length_seq. reflexivity. Qed.

Lemma num_radial_grasps_eq (grasp_data : GraspData) :
  num_radial_grasps grasp_data = Z.max 1 (Zceil ((PI / 2) / angle_res grasp_data)).
Proof.
  unfold num_radial_grasps. rewrite double_to_int_ceil.
  destruct (Z.leb_spec (Zceil ((PI / 2) / angle_res grasp_data)) 0); lia.
Qed.

(** A quarter turn over a resolution given in degrees. *)
Lemma quarter_turn_over_angle_res (grasp_data : GraspData) :
  angle_resolution_ grasp_data <> 0 ->
  (PI / 2) / angle_res grasp_data = 90 / angle_resolution_ grasp_data.
Proof.
  intros Hres. unfold angle_res. field.
  split; [exact Hres | apply PI_neq0].
Qed.

Lemma add_corner_grasps_eq (cuboid_pose : Affine3d) (depth width height : R)
  (axis : grasp_axis_t) (grasp_data : GraspData) (acc : list Affine3d) :
  add_corner_grasps cuboid_pose depth width height axis grasp_data acc
  = acc
    ++ corner_fan (num_radial_grasps grasp_data)
         (aligned_pose cuboid_pose (rotation_angles axis)
            (vsub (vneg (corner_translation_a cuboid_pose depth width height axis))
                  (corner_translation_b cuboid_pose depth width height axis)) 0)
    ++ corner_fan (num_radial_grasps grasp_data)
         (aligned_pose cuboid_pose (rotation_angles axis)
            (vadd (vneg (corner_translation_a cuboid_pose depth width height axis))
                  (corner_translation_b cuboid_pose depth width height axis)) (- PI / 2))
    ++ corner_fan (num_radial_grasps grasp_data)
         (aligned_pose cuboid_pose (rotation_angles axis)
            (vadd (corner_translation_a cuboid_pose depth width height axis)
                  (corner_translation_b cuboid_pose depth width height axis)) PI)
    ++ corner_fan (num_radial_grasps grasp_data)
         (aligned_pose cuboid_pose (rotation_angles axis)
            (vsub (corner_translation_a cuboid_pose depth width height axis)
                  (corner_translation_b cuboid_pose depth width height axis)) (PI / 2)).
Proof.
  unfold add_corner_grasps.
  cbv zeta.
  rewrite !addCornerGraspsHelper_eq, <- !app_assoc. reflexivity.
Qed.

Lemma fraction_of_span (x q h : R) :
  0 < x < q -> 0 < h -> 0 < x * (h / q) < h.
Proof.
  intros [Hx Hq] Hh.
  assert (Hq0 : 0 < q) by lra.
  assert (Hinv : 0 < / q) by (apply Rinv_0_lt_compat; exact Hq0).
  assert (Hfrac : x * / q < 1).
  { apply (Rmult_lt_reg_r q); [exact Hq0 |].
    rewrite Rmult_assoc, Rinv_l by lra. lra. }
  assert (Hpos : 0 < x * / q) by (apply Rmult_lt_0_compat; assumption).
  replace (x * (h / q)) with (h * (x * / q)) by (field; lra).
  split; [apply Rmult_lt_0_compat; assumption |].
  rewrite <- (Rmult_1_r h) at 2.
  apply Rmult_lt_compat_l; assumption.
Qed.

(** C3 (as amended).  The angular resolution is configured in degrees and
    converted to radians, [angle_res = angle_resolution_ * pi / 180].  For a
    positive resolution the corner block adds, at each of the four corners
    [(+-a, +-b)] of the face perpendicular to the approach axis, exactly
    [n = max(1, ceil((pi/2) / angle_res)) = max(1, ceil(90 / angle_resolution_))]
    poses: the corner's aligned pose turned about its Y axis by [k] times
    [(pi/2) / (n + 1)] for [k = 1, ..., n], angles that lie strictly inside
    the quarter turn around that corner. *)
Theorem corner_grasps_fan_count (cuboid_pose : Affine3d) (depth width height : R)
  (axis : grasp_axis_t) (grasp_data : GraspData) :
  0 < angle_resolution_ grasp_data ->
  num_radial_grasps grasp_data
  = Z.max 1 (Zceil ((PI / 2) / (angle_resolution_ grasp_data * PI / 180))) /\
  num_radial_grasps grasp_data
  = Z.max 1 (Zceil (90 / angle_resolution_ grasp_data)) /\
  corner_poses cuboid_pose depth width height axis grasp_data
  = corner_fan (num_radial_grasps grasp_data)
      (aligned_pose cuboid_pose (rotation_angles axis)
         (vsub (vneg (corner_translation_a cuboid_pose depth width height axis))
               (corner_translation_b cuboid_pose depth width height axis)) 0)
    ++ corner_fan (num_radial_grasps grasp_data)
         (aligned_pose cuboid_pose (rotation_angles axis)
            (vadd (vneg (corner_translation_a cuboid_pose depth width height axis))
                  (corner_translation_b cuboid_pose depth width height axis)) (- PI / 2))
    ++ corner_fan (num_radial_grasps grasp_data)
         (aligned_pose cuboid_pose (rotation_angles axis)
            (vadd (corner_translation_a cuboid_pose depth width height axis)
                  (corner_translation_b cuboid_pose depth width height axis)) PI)
    ++ corner_fan (num_radial_grasps grasp_data)
         (aligned_pose cuboid_pose (rotation_angles axis)
            (vsub (corner_translation_a cuboid_pose depth width height axis)
                  (corner_translation_b cuboid_pose depth width height axis)) (PI / 2)) /\
  (forall base : Affine3d,
     length (corner_fan (num_radial_grasps grasp_data) base)
     = Z.to_nat (num_radial_grasps grasp_data)) /\
  length (corner_poses cuboid_pose depth width height axis grasp_data)
  = (4 * Z.to_nat (num_radial_grasps grasp_data))%nat /\
  (forall k : nat,
     (1 <= k <= Z.to_nat (num_radial_grasps grasp_data))%nat ->
     0 < INR k * ((PI / 2) / IZR (num_radial_grasps grasp_data + 1)) < PI / 2).
Proof.
  intros Hres.
  assert (Hn : num_radial_grasps grasp_data
               = Z.max 1 (Zceil ((PI / 2) / angle_res grasp_data)))
    by apply num_radial_grasps_eq.
  assert (Hcorners := add_corner_grasps_eq cuboid_pose depth width height axis
                        grasp_data []).
  split; [exact Hn |].
  split; [rewrite Hn, quarter_turn_over_angle_res by lra; reflexivity |].
  split; [exact Hcorners |].
  split; [intros base; apply length_corner_fan |].
  split.
  - unfold corner_poses. rewrite Hcorners. simpl.
    rewrite !length_app, !length_corner_fan. lia.
  - intros k [Hk1 Hkn].
    assert (Hn1 : (1 <= num_radial_grasps grasp_data)%Z) by (rewrite Hn; lia).
    apply fraction_of_span; [| assert (H := PI_RGT_0); lra].
    rewrite INR_IZR_INZ. split.
    + apply IZR_lt. lia.
    + apply IZR_lt. lia.
Qed.

Lemma example_num_radial_grasps : num_radial_grasps example_grasp_data = 2%Z.
Proof.
  rewrite num_radial_grasps_eq, quarter_turn_over_angle_res by (simpl; lra).
  rewrite (Zceil_eq 2); [reflexivity |]. simpl. lra.
Qed.

(** Counterexample to C3 as stated.  With the resolution 45 supplied, the
    count of the claim, [max(1, ceil((pi/2) / 45))], is 1 pose at each
    corner, 4 in all; the generator reads 45 as degrees and adds 2 poses at
    each corner, 8 in all. *)
Lemma corner_grasps_radians_counterexample :
  Z.max 1 (Zceil ((PI / 2) / angle_resolution_ example_grasp_data)) = 1%Z /\
  num_radial_grasps example_grasp_data = 2%Z /\
  length (corner_poses Identity (4 / 100) (6 / 100) (8 / 100) X_AXIS example_grasp_data)
  = 8%nat.
Proof.
  split; [| split].
  - rewrite (Zceil_eq 1); [reflexivity |].
    simpl. assert (H0 := PI_RGT_0). assert (H4 := PI_4). lra.
  - exact example_num_radial_grasps.
  - unfold corner_poses. rewrite add_corner_grasps_eq. simpl.
    rewrite !length_app, !length_corner_fan, example_num_radial_grasps.
    reflexivity.
Qed.

(** With a resolution of 45 degrees: two poses in each of the four fans. *)
Lemma corner_grasps_fan_count_witness :
  num_radial_grasps example_grasp_data
  = Z.max 1 (Zceil (90 / angle_resolution_ example_grasp_data)) /\
  length (corner_poses Identity (4 / 100) (6 / 100) (8 / 100) X_AXIS example_grasp_data)
  = (4 * Z.to_nat (num_radial_grasps example_grasp_data))%nat.
Proof.
  assert (Hres : 0 < angle_resolution_ example_grasp_data) by (simpl; lra).
  pose proof (corner_grasps_fan_count Identity (4 / 100) (6 / 100) (8 / 100) X_AXIS
                example_grasp_data Hres) as H.
  split; [apply H | apply H].
Defined.

(* ================================================================== *)
(** ** Block 2: grasps along the faces *)

Lemma translate_scale_0 (p : Affine3d) (delta : Vector3d) :
  translate p (vscale (INR 0) delta) = p.
Proof.
  destruct p as [l [x y z]]. destruct delta as [dx dy dz].
  unfold translate, vadd, vscale; simpl. eigen_eq.
Qed.

Lemma translate_scale_step (p : Affine3d) (delta : Vector3d) (k : nat) :
  translate (translate p (vscale (INR k) delta)) delta
  = translate p (vscale (INR (S k)) delta).
Proof.
  destruct p as [l [x y z]]. destruct delta as [dx dy dz].
  rewrite S_INR. unfold translate, vadd, vscale; simpl. eigen_eq.
Qed.

Lemma face_loop_eq (p : Affine3d) (delta : Vector3d) :
  forall n k acc,
    face_loop n (translate p (vscale (INR k) delta)) delta acc
    = acc ++ map (fun j => translate p (vscale (INR j) delta)) (seq (S k) n).
Proof.
  induction n as [| n IH]; intros k acc; simpl face_loop.
  - simpl. rewrite app_nil_r. reflexivity.
  - rewrite translate_scale_step, IH, <- app_assoc. reflexivity.
Qed.

Lemma addFaceGraspsHelper_eq (pose : Affine3d) (angles : R * R * R)
  (translation delta : Vector3d) (alignment_rotation : R) (n : Z)
  (acc : list Affine3d) :
  addFaceGraspsHelper pose angles translation delta alignment_rotation n acc
  = acc ++ face_row n (aligned_pose pose angles translation alignment_rotation) delta.
Proof.
  unfold addFaceGraspsHelper, face_row.
  pose proof (face_loop_eq (aligned_pose pose angles translation alignment_rotation)
                delta (Z.to_nat n) 0 acc) as H.
  rewrite translate_scale_0 in H. exact H.
Qed.

Lemma length_face_row (n : Z) (start : Affine3d) (delta : Vector3d) :
  length (face_row n start delta) = Z.to_nat n.
Proof. unfold face_row. rewrite length_map, length_seq. reflexivity. Qed.

(** Block 2 appends the four rows, each with the count computed for the
    extent along [b]. *)
Lemma add_face_grasps_eq (cuboid_pose : Affine3d) (depth width height : R)
  (axis : grasp_axis_t) (grasp_data : GraspData) (acc : list Affine3d) :
  add_face_grasps cuboid_pose depth width height axis grasp_data acc
  = acc
    ++ face_minus_a cuboid_pose depth width height axis grasp_data
    ++ face_plus_b cuboid_pose depth width height axis grasp_data
    ++ face_plus_a cuboid_pose depth width height axis grasp_data
    ++ face_minus_b cuboid_pose depth width height axis grasp_data.
Proof.
  unfold add_face_grasps. cbv zeta.
  rewrite !addFaceGraspsHelper_eq, <- !app_assoc. reflexivity.
Qed.

Lemma num_grasps_along_eq (length : R) (grasp_data : GraspData) :
  num_grasps_along length grasp_data
  = (if (Zfloor ((length - gripper_width_ grasp_data) / grasp_resolution_ grasp_data) + 1 <=? 0)%Z
     then 3
     else Zfloor ((length - gripper_width_ grasp_data) / grasp_resolution_ grasp_data) + 1)%Z.
Proof.
  unfold num_grasps_along. rewrite double_to_int_floor_plus_1. reflexivity.
Qed.

(** C2, the generator at the input where it departs from the claim.  Around
    the Z axis of a 0.5 x 1 x 2 box, with a gripper 0.25 wide and a linear
    resolution of 0.125, the extent along [a] gives a count of 3 and the
    extent along [b] a count of 7.  The rows on the [+b] and [-b] faces run
    along [a], so the claim gives them 3 poses each; the generator passes the
    count of the other pair of faces and puts 7 poses on each of them. *)
Theorem face_grasps_b_faces_take_count_of_a_faces :
  num_grasps_along (length_along_a Z_AXIS (1 / 2) 1 2) wide_grasp_data = 3%Z /\
  num_grasps_along (length_along_b Z_AXIS (1 / 2) 1 2) wide_grasp_data = 7%Z /\
  corner_face_poses Identity (1 / 2) 1 2 Z_AXIS wide_grasp_data
  = corner_poses Identity (1 / 2) 1 2 Z_AXIS wide_grasp_data
    ++ face_minus_a Identity (1 / 2) 1 2 Z_AXIS wide_grasp_data
    ++ face_plus_b Identity (1 / 2) 1 2 Z_AXIS wide_grasp_data
    ++ face_plus_a Identity (1 / 2) 1 2 Z_AXIS wide_grasp_data
    ++ face_minus_b Identity (1 / 2) 1 2 Z_AXIS wide_grasp_data /\
  length (face_minus_a Identity (1 / 2) 1 2 Z_AXIS wide_grasp_data) = 7%nat /\
  length (face_plus_b Identity (1 / 2) 1 2 Z_AXIS wide_grasp_data) = 7%nat /\
  length (face_plus_a Identity (1 / 2) 1 2 Z_AXIS wide_grasp_data) = 7%nat /\
  length (face_minus_b Identity (1 / 2) 1 2 Z_AXIS wide_grasp_data) = 7%nat.
Proof.
  assert (Ha : num_grasps_along (length_along_a Z_AXIS (1 / 2) 1 2) wide_grasp_data = 3%Z).
  { rewrite num_grasps_along_eq. simpl.
    rewrite (Zfloor_eq 2); [reflexivity |]. simpl. lra. }
  assert (Hb : num_grasps_along (length_along_b Z_AXIS (1 / 2) 1 2) wide_grasp_data = 7%Z).
  { rewrite num_grasps_along_eq. simpl.
    rewrite (Zfloor_eq 6); [reflexivity |]. simpl. lra. }
  split; [exact Ha |]. split; [exact Hb |].
  split; [apply add_face_grasps_eq |].
  unfold face_minus_a, face_plus_b, face_plus_a, face_minus_b. cbv zeta.
  rewrite !length_face_row, Hb. repeat split; reflexivity.
Qed.

(* ================================================================== *)
(** ** Block 4: grasps at variable angles *)

(** One [while] loop of block 4, entered with [iterations] on the counter,
    appends the run of intersecting poses that starts at [grasp_pose], at most
    [max(1, max_iterations + 1 - iterations)] of them. *)
Lemma angle_loop_eq (cuboid_pose : Affine3d) (depth width height : R)
  (grasp_data : GraspData) (angle : R) (max_it : Z)
  (iterations : Z) (grasp_pose : Affine3d) (grasp_poses : list Affine3d) :
  angle_loop cuboid_pose depth width height grasp_data angle max_it
    iterations grasp_pose grasp_poses
  = grasp_poses
    ++ sweep_run (fun p => graspIntersectionHelper cuboid_pose depth width height p grasp_data)
         angle (Z.to_nat (Z.max 1 (max_it + 1 - iterations))) grasp_pose.
Proof.
  funelim (angle_loop cuboid_pose depth width height grasp_data angle max_it
             iterations grasp_pose grasp_poses).
  - (* the helper reports no intersection *)
    destruct (Z.to_nat _) eqn:Hb; simpl; [| rewrite Heq];
      rewrite app_nil_r; reflexivity.
  - (* intersection, and the counter passes [max_iterations] *)
    match goal with
    | |- context [Z.to_nat ?e] => replace (Z.to_nat e) with 1%nat by lia
    end.
    simpl. rewrite Heq0. reflexivity.
  - (* intersection, and the loop goes on *)
    match goal with
    | |- context [Z.to_nat (Z.max 1 (?m + 1 - ?i))] =>
        replace (Z.to_nat (Z.max 1 (m + 1 - i)))
          with (S (Z.to_nat (Z.max 1 (m + 1 - (i + 1))))) by lia
    end.
    simpl. rewrite Heq0.
    match goal with
    | IH : angle_loop _ _ _ _ _ _ _ _ _ _ = _ ++ sweep_run _ _ _ _ |- _ => rewrite IH
    end.
    rewrite <- app_assoc. reflexivity.
Qed.

Lemma sweep_run_all_pass (test : Affine3d -> bool) (angle : R) :
  forall budget start p,
    In p (sweep_run test angle budget start) -> test p = true.
Proof.
  induction budget as [| b IH]; intros start p Hin; simpl in Hin; [contradiction |].
  destruct (test start) eqn:Ht; [| contradiction].
  destruct Hin as [<- | Hin]; [exact Ht | exact (IH _ _ Hin)].
Qed.

(** A run is the first [m] steps of the sweep: every one of them passes the
    test, and the run ends early only at a step that fails it. *)
Lemma sweep_run_shape (test : Affine3d -> bool) (angle : R) :
  forall budget start,
    exists m : nat,
      (m <= budget)%nat /\
      sweep_run test angle budget start
      = map (fun k => turned_y start (INR k * angle)) (seq 0 m) /\
      (forall k, (k < m)%nat -> test (turned_y start (INR k * angle)) = true) /\
      ((m < budget)%nat -> test (turned_y start (INR m * angle)) = false).
Proof.
  induction budget as [| b IH]; intros start; simpl.
  - exists 0%nat. split; [lia |]. split; [reflexivity |].
    split; [intros k Hk; lia | intros Hlt; lia].
  - destruct (test start) eqn:Ht.
    + destruct (IH (turned_y start angle)) as (m & Hm & Heq & Hpass & Hstop).
      assert (Hshift : forall k,
                 turned_y (turned_y start angle) (INR k * angle)
                 = turned_y start (INR (S k) * angle)).
      { intros k. rewrite turned_y_add, S_INR. f_equal. ring. }
      exists (S m). split; [lia |]. split; [| split].
      * simpl. rewrite Rmult_0_l, turned_y_0. f_equal.
        rewrite Heq, <- seq_shift, map_map.
        apply map_ext. exact Hshift.
      * intros [| k] Hk.
        -- simpl. rewrite Rmult_0_l, turned_y_0. exact Ht.
        -- rewrite <- Hshift. apply Hpass. lia.
      * intros Hlt. rewrite <- Hshift. apply Hstop. lia.
    + exists 0%nat. split; [lia |]. split; [reflexivity |]. split.
      * intros k Hk; lia.
      * intros _. simpl. rewrite Rmult_0_l, turned_y_0. exact Ht.
Qed.

(** The same, counted from the pose [base] that the sweep turns away from:
    the run holds the steps 1, ..., [m]. *)
Lemma sweep_run_from_base (test : Affine3d -> bool) (angle : R) (budget : nat)
  (base : Affine3d) :
  exists m : nat,
    (m <= budget)%nat /\
    sweep_run test angle budget (turned_y base angle)
    = map (fun k => turned_y base (INR k * angle)) (seq 1 m) /\
    (forall k, (1 <= k <= m)%nat -> test (turned_y base (INR k * angle)) = true) /\
    ((m < budget)%nat -> test (turned_y base (INR (S m) * angle)) = false).
Proof.
  destruct (sweep_run_shape test angle budget (turned_y base angle))
    as (m & Hm & Heq & Hpass & Hstop).
  assert (Hshift : forall k,
             turned_y (turned_y base angle) (INR k * angle)
             = turned_y base (INR (S k) * angle)).
  { intros k. rewrite turned_y_add, S_INR. f_equal. ring. }
  exists m. split; [exact Hm |]. split; [| split].
  - rewrite Heq, <- seq_shift, map_map. apply map_ext. exact Hshift.
  - intros [| k] Hk; [lia |]. rewrite <- Hshift. apply Hpass. lia.
  - intros Hlt. rewrite <- Hshift. apply Hstop. exact Hlt.
Qed.

Lemma add_angle_grasps_at_eq (cuboid_pose : Affine3d) (depth width height : R)
  (grasp_data : GraspData) (grasp_poses : list Affine3d) (i : nat) :
  add_angle_grasps_at cuboid_pose depth width height grasp_data grasp_poses i
  = grasp_poses
    ++ angle_sweep cuboid_pose depth width height grasp_data (nth i grasp_poses Identity).
Proof.
  unfold add_angle_grasps_at, angle_sweep, sweep_budget, max_iterations, turned_y.
  cbv zeta. rewrite !angle_loop_eq, <- app_assoc.
  rewrite Z.sub_0_r. reflexivity.
Qed.

Lemma add_angle_grasps_eq (cuboid_pose : Affine3d) (depth width height : R)
  (grasp_data : GraspData) (num_corner_grasps : nat) (grasp_poses : list Affine3d) :
  add_angle_grasps cuboid_pose depth width height grasp_data num_corner_grasps grasp_poses
  = grasp_poses
    ++ flat_map (angle_sweep cuboid_pose depth width height grasp_data)
         (skipn num_corner_grasps grasp_poses).
Proof.
  unfold add_angle_grasps.
  apply (fold_left_indexed_push Identity).
  intros l i. apply add_angle_grasps_at_eq.
Qed.

Lemma angle_sweep_all_intersect (cuboid_pose : Affine3d) (depth width height : R)
  (grasp_data : GraspData) (base p : Affine3d) :
  In p (angle_sweep cuboid_pose depth width height grasp_data base) ->
  graspIntersectionHelper cuboid_pose depth width height p grasp_data = true.
Proof.
  unfold angle_sweep. intros Hin. apply in_app_or in Hin.
  destruct Hin as [Hin | Hin];
    exact (sweep_run_all_pass
             (fun p => graspIntersectionHelper cuboid_pose depth width height p grasp_data)
             _ _ _ _ Hin).
Qed.

(** Half a turn over a resolution given in degrees, and the cap it gives. *)
Lemma half_turn_over_angle_res (grasp_data : GraspData) :
  angle_resolution_ grasp_data <> 0 ->
  PI / angle_res grasp_data = 180 / angle_resolution_ grasp_data.
Proof.
  intros Hres. unfold angle_res. field.
  split; [exact Hres | apply PI_neq0].
Qed.

Lemma max_iterations_eq (grasp_data : GraspData) :
  0 < angle_resolution_ grasp_data ->
  max_iterations grasp_data = (Zfloor (180 / angle_resolution_ grasp_data) + 1)%Z.
Proof.
  intros Hres. unfold max_iterations.
  rewrite half_turn_over_angle_res by lra.
  assert (Hq : 0 < 180 / angle_resolution_ grasp_data).
  { apply Rdiv_lt_0_compat; lra. }
  unfold double_to_int.
  destruct (Rlt_dec (180 / angle_resolution_ grasp_data + 1) 0) as [Hneg | _]; [lra |].
  apply (Zfloor_addz 1).
Qed.

Lemma sweep_budget_eq (grasp_data : GraspData) :
  0 < angle_resolution_ grasp_data ->
  sweep_budget grasp_data = Z.to_nat (Zfloor (180 / angle_resolution_ grasp_data) + 2).
Proof.
  intros Hres. unfold sweep_budget. rewrite max_iterations_eq by exact Hres.
  assert (Hq : 0 < 180 / angle_resolution_ grasp_data).
  { apply Rdiv_lt_0_compat; lra. }
  assert (H0 : (0 <= Zfloor (180 / angle_resolution_ grasp_data))%Z).
  { apply Zfloor_lub. simpl. lra. }
  f_equal. lia.
Qed.

Lemma skipn_length_app {A : Type} (l1 l2 : list A) :
  skipn (length l1) (l1 ++ l2) = l2.
Proof.
  rewrite skipn_app, skipn_all, Nat.sub_diag. reflexivity.
Qed.

(** C1 (as amended).  For a positive angular resolution, block 4 takes as
    base poses the poses of the face and depth blocks (the poses from index
    [num_corner_grasps] on: the corner poses at zero depth are left out).  It
    turns each base pose about its local Y axis by [+angle_res], then by
    [-angle_res], increment by increment, and appends the pose at an
    orientation while [graspIntersectionHelper] reports that the reach-in
    segment at that orientation DOES cross a face of the box.  Each direction
    stops at the first orientation whose segment misses the box, or after
    [floor(pi / angle_res) + 2] poses.  Consequently every pose emitted by
    the angular sweep has a reach-in segment that intersects the box. *)
Theorem angular_sweep_keeps_intersecting_poses (cuboid_pose : Affine3d)
  (depth width height : R) (axis : grasp_axis_t) (grasp_data : GraspData) :
  0 < angle_resolution_ grasp_data ->
  angle_poses cuboid_pose depth width height axis grasp_data
  = depth_poses cuboid_pose depth width height axis grasp_data
    ++ flat_map (angle_sweep cuboid_pose depth width height grasp_data)
         (skipn (length (corner_poses cuboid_pose depth width height axis grasp_data))
                (depth_poses cuboid_pose depth width height axis grasp_data)) /\
  (forall base : Affine3d,
     exists m_pos m_neg : nat,
       angle_sweep cuboid_pose depth width height grasp_data base
       = map (fun k => turned_y base (INR k * angle_res grasp_data)) (seq 1 m_pos)
         ++ map (fun k => turned_y base (INR k * - angle_res grasp_data)) (seq 1 m_neg) /\
       (m_pos <= sweep_budget grasp_data)%nat /\
       (m_neg <= sweep_budget grasp_data)%nat /\
       ((m_pos < sweep_budget grasp_data)%nat ->
        graspIntersectionHelper cuboid_pose depth width height
          (turned_y base (INR (S m_pos) * angle_res grasp_data)) grasp_data = false) /\
       ((m_neg < sweep_budget grasp_data)%nat ->
        graspIntersectionHelper cuboid_pose depth width height
          (turned_y base (INR (S m_neg) * - angle_res grasp_data)) grasp_data = false)) /\
  sweep_budget grasp_data = Z.to_nat (Zfloor (PI / angle_res grasp_data) + 2) /\
  (forall p : Affine3d,
     In p (skipn (length (depth_poses cuboid_pose depth width height axis grasp_data))
                 (angle_poses cuboid_pose depth width height axis grasp_data)) ->
     graspIntersectionHelper cuboid_pose depth width height p grasp_data = true).
Proof.
  intros Hres.
  assert (Heq := add_angle_grasps_eq cuboid_pose depth width height grasp_data
                   (length (corner_poses cuboid_pose depth width height axis grasp_data))
                   (depth_poses cuboid_pose depth width height axis grasp_data)).
  fold (angle_poses cuboid_pose depth width height axis grasp_data) in Heq.
  split; [exact Heq |]. split; [| split].
  - intros base. unfold angle_sweep.
    destruct (sweep_run_from_base
                (fun p => graspIntersectionHelper cuboid_pose depth width height p grasp_data)
                (angle_res grasp_data) (sweep_budget grasp_data) base)
      as (m_pos & Hle_pos & Heq_pos & _ & Hstop_pos).
    destruct (sweep_run_from_base
                (fun p => graspIntersectionHelper cuboid_pose depth width height p grasp_data)
                (- angle_res grasp_data) (sweep_budget grasp_data) base)
      as (m_neg & Hle_neg & Heq_neg & _ & Hstop_neg).
    exists m_pos, m_neg. rewrite Heq_pos, Heq_neg.
    repeat split; assumption.
  - rewrite sweep_budget_eq, half_turn_over_angle_res by lra. reflexivity.
  - intros p Hin. rewrite Heq, skipn_length_app in Hin.
    apply in_flat_map in Hin. destruct Hin as (base & _ & Hin).
    exact (angle_sweep_all_intersect _ _ _ _ _ _ _ Hin).
Qed.

(* ------------------------------------------------------------------ *)
(** *** A sweep that emits a pose, on the 4 x 6 x 8 cm box *)

Lemma inverse_Identity : inverse Identity = Identity.
Proof. eigen_cbv. eigen_field. Qed.

Lemma transform_Identity (p : Vector3d) : transform Identity p = p.
Proof. destruct p as [x y z]. eigen_cbv. eigen_eq. Qed.

Lemma normalized_unit (v : Vector3d) : squaredNorm v = 1 -> normalized v = v.
Proof.
  intros H. destruct v as [x y z]. unfold normalized, norm. rewrite H, sqrt_1.
  simpl. eigen_field.
Qed.

Lemma a_dir_Z_Identity : a_dir Z_AXIS Identity = UnitX.
Proof.
  unfold a_dir. rewrite normalized_unit; eigen_cbv; [eigen_eq | ring].
Qed.

Lemma b_dir_Z_Identity : b_dir Z_AXIS Identity = UnitY.
Proof.
  unfold b_dir. rewrite normalized_unit; eigen_cbv; [eigen_eq | ring].
Qed.

Lemma aligned_pose_Z_Identity (tr : Vector3d) :
  aligned_pose Identity (rotation_angles Z_AXIS) tr 0 = affine z_axis_frame tr.
Proof.
  destruct tr as [x y z]. unfold rotation_angles, z_axis_frame. eigen_cbv.
  rewrite cos_PI2, sin_PI2, cos_0, sin_0. eigen_eq.
Qed.

Lemma example_num_grasps_along_b :
  num_grasps_along (length_along_b Z_AXIS (4 / 100) (6 / 100) (8 / 100)) example_grasp_data
  = 4%Z.
Proof.
  rewrite num_grasps_along_eq. simpl.
  rewrite (Zfloor_eq 3); [reflexivity |]. simpl. lra.
Qed.

Lemma example_base_on_face :
  In example_base
     (face_minus_a Identity (4 / 100) (6 / 100) (8 / 100) Z_AXIS example_grasp_data).
Proof.
  unfold face_minus_a. cbv zeta.
  rewrite example_num_grasps_along_b. unfold face_row.
  change (seq 1 (Z.to_nat 4)) with [1; 2; 3; 4]%nat. cbn [map].
  left.
  rewrite aligned_pose_Z_Identity.
  unfold a_translation. cbv zeta.
  rewrite example_num_grasps_along_b, a_dir_Z_Identity, b_dir_Z_Identity.
  unfold example_base, face_delta, length_along_a, length_along_b, offset,
    example_grasp_data.
  cbn [gripper_width_ grasp_resolution_ INR]. eigen_cbv.
  change (4 =? 1)%Z with false. change (4 - 1)%Z with 3%Z. cbv iota.
  eigen_field.
Qed.

Lemma example_angle_res : angle_res example_grasp_data = PI / 4.
Proof. unfold angle_res. simpl. field. Qed.

(** [cos (pi/4) = sin (pi/4) = 1 / sqrt 2], a number between 1/2 and 1 whose
    square is 1/2. *)
Lemma inv_sqrt2_bounds :
  1 / 2 < 1 / sqrt 2 < 1 /\ (1 / sqrt 2) * (1 / sqrt 2) = 1 / 2.
Proof.
  assert (Hs : sqrt 2 * sqrt 2 = 2) by (apply sqrt_sqrt; lra).
  assert (Hpos : 0 < sqrt 2) by (apply sqrt_lt_R0; lra).
  assert (Hlo : 1 < sqrt 2) by nra.
  assert (Hhi : sqrt 2 < 2) by nra.
  assert (Hinv : 0 < / sqrt 2) by (apply Rinv_0_lt_compat; exact Hpos).
  assert (Hone : sqrt 2 * / sqrt 2 = 1) by (apply Rinv_r; lra).
  unfold Rdiv. rewrite !Rmult_1_l.
  split; [split; nra | nra].
Qed.

Lemma example_swept_pose :
  turned_y example_base (PI / 4)
  = affine (mat3 (vec3 (- (1 / sqrt 2)) 0 (1 / sqrt 2))
                 (vec3 (1 / sqrt 2) 0 (1 / sqrt 2))
                 (vec3 0 1 0))
           (vec3 (- (41 / 2000)) (- (15 / 1000)) 0).
Proof.
  unfold example_base, z_axis_frame. eigen_cbv. rewrite cos_PI4, sin_PI4. eigen_eq.
Qed.

(** A segment that crosses the face [x = +depth/2] is reported. *)
Lemma graspIntersectionHelper_plus_x_face (cuboid_pose : Affine3d)
  (depth width height : R) (grasp_pose : Affine3d) (grasp_data : GraspData) :
  let point_a := fst (reach_in_segment cuboid_pose grasp_pose grasp_data) in
  let point_b := snd (reach_in_segment cuboid_pose grasp_pose grasp_data) in
  fst (intersectionHelper (fdiv (depth / 2 - vx point_a) (vx point_b - vx point_a))
         (vy point_a) (vz point_a) (vy point_b) (vz point_b) width height) = true ->
  graspIntersectionHelper cuboid_pose depth width height grasp_pose grasp_data = true.
Proof.
  unfold reach_in_segment, graspIntersectionHelper. cbv zeta. cbn [fst snd].
  intros H. rewrite H.
  repeat match goal with
         | |- (if ?b then true else _) = true => destruct b; [reflexivity |]
         end.
  reflexivity.
Qed.

(** Turned by 45 degrees, the gripper at [example_base] reaches into the box
    through the face [x = -2 cm] and out of it through the face
    [x = +2 cm], 0.45 cm short of the box's edge. *)
Lemma example_swept_pose_intersects :
  graspIntersectionHelper Identity (4 / 100) (6 / 100) (8 / 100)
    (turned_y example_base (PI / 4)) example_grasp_data = true.
Proof.
  apply graspIntersectionHelper_plus_x_face. cbv zeta.
  unfold reach_in_segment. cbn [fst snd].
  rewrite inverse_Identity, !transform_Identity, example_swept_pose.
  destruct inv_sqrt2_bounds as [[Hlo Hhi] Hsq].
  set (r := 1 / sqrt 2) in *.
  eigen_cbv. cbn [finger_to_palm_depth_ example_grasp_data].
  apply intersectionHelper_true_iff.
  unfold fdiv.
  destruct (Req_dec_T _ 0) as [Hz | Hnz]; [exfalso; nra |].
  cbn [xbetween interpolated_in_rectangle].
  set (t := (4 / 100 / 2 - - (41 / 2000)) / _).
  assert (Ht : t * (8 / 100 * r) = 81 / 2000).
  { unfold t. field. nra. }
  assert (Ht01 : 0 <= t <= 1) by (split; nra).
  repeat split; nra.
Qed.

Lemma sweep_budget_pos (grasp_data : GraspData) :
  exists b : nat, sweep_budget grasp_data = S b.
Proof.
  unfold sweep_budget.
  exists (Z.to_nat (Z.max 1 (max_iterations grasp_data + 1) - 1)). lia.
Qed.

Lemma corner_face_poses_eq (cuboid_pose : Affine3d) (depth width height : R)
  (axis : grasp_axis_t) (grasp_data : GraspData) :
  corner_face_poses cuboid_pose depth width height axis grasp_data
  = corner_poses cuboid_pose depth width height axis grasp_data
    ++ face_minus_a cuboid_pose depth width height axis grasp_data
    ++ face_plus_b cuboid_pose depth width height axis grasp_data
    ++ face_plus_a cuboid_pose depth width height axis grasp_data
    ++ face_minus_b cuboid_pose depth width height axis grasp_data.
Proof. apply add_face_grasps_eq. Qed.

Lemma example_swept_pose_emitted :
  In (turned_y example_base (PI / 4))
     (skipn (length (depth_poses Identity (4 / 100) (6 / 100) (8 / 100) Z_AXIS
                       example_grasp_data))
            (angle_poses Identity (4 / 100) (6 / 100) (8 / 100) Z_AXIS
               example_grasp_data)).
Proof.
  unfold angle_poses. rewrite add_angle_grasps_eq, skipn_length_app.
  apply in_flat_map. exists example_base. split.
  - unfold depth_poses. rewrite add_depth_grasps_eq, corner_face_poses_eq.
    rewrite <- app_assoc, skipn_length_app.
    apply in_or_app. left. apply in_or_app. left. exact example_base_on_face.
  - unfold angle_sweep. apply in_or_app. left.
    destruct (sweep_budget_pos example_grasp_data) as [b ->].
    rewrite example_angle_res. simpl.
    rewrite example_swept_pose_intersects. left. reflexivity.
Qed.

(** Counterexample to C1 as stated.  Around the Z axis of the 4 x 6 x 8 cm
    box, with a resolution of 45 degrees, the angular sweep emits the first
    face grasp turned by 45 degrees, and the reach-in segment of that pose
    intersects the box. *)
Lemma angular_sweep_emits_intersecting_pose :
  In (turned_y example_base (PI / 4))
     (skipn (length (depth_poses Identity (4 / 100) (6 / 100) (8 / 100) Z_AXIS
                       example_grasp_data))
            (angle_poses Identity (4 / 100) (6 / 100) (8 / 100) Z_AXIS
               example_grasp_data)) /\
  graspIntersectionHelper Identity (4 / 100) (6 / 100) (8 / 100)
    (turned_y example_base (PI / 4)) example_grasp_data = true.
Proof.
  split; [exact example_swept_pose_emitted | exact example_swept_pose_intersects].
Qed.

(** The pose that the sweep emits on the 4 x 6 x 8 cm box intersects it. *)
Lemma angular_sweep_keeps_intersecting_poses_witness :
  0 < angle_resolution_ example_grasp_data /\
  graspIntersectionHelper Identity (4 / 100) (6 / 100) (8 / 100)
    (turned_y example_base (PI / 4)) example_grasp_data = true.
Proof.
  assert (Hres : 0 < angle_resolution_ example_grasp_data) by (simpl; lra).
  split; [exact Hres |].
  apply (angular_sweep_keeps_intersecting_poses Identity (4 / 100) (6 / 100) (8 / 100)
           Z_AXIS example_grasp_data Hres).
  exact example_swept_pose_emitted.
Defined.

(* ================================================================== *)
(** ** The grasp scorer *)

Lemma ideal_pose_linear : linear ideal_pose = z_axis_frame.
Proof.
  unfold ideal_pose, z_axis_frame. eigen_cbv.
  rewrite cos_PI2, sin_PI2. eigen_eq.
Qed.

(** What a call stores in the generator does not depend on the generator. *)
Lemma scoreGrasp_state (self : GraspGenerator) (pose : Affine3d)
  (grasp_data : GraspData) (object_pose : Affine3d) :
  snd (scoreGrasp self pose grasp_data object_pose)
  = set_ideal_grasp_pose_ self ideal_pose.
Proof. destruct self. reflexivity. Qed.

(** The score is the mean of the three components. *)
Lemma scoreGrasp_mean (self : GraspGenerator) (pose : Affine3d)
  (grasp_data : GraspData) (object_pose : Affine3d) :
  fst (scoreGrasp self pose grasp_data object_pose)
  = (score_A pose grasp_data object_pose + score_B pose grasp_data object_pose
     + score_C pose grasp_data object_pose) / 3.
Proof.
  destruct self.
  unfold scoreGrasp, score_A, score_B, score_C, individual_scores.
  cbn [fst set_ideal_grasp_pose_ ideal_grasp_pose_ repeat combine fold_left nth snd INR].
  fold ideal_pose.
  unfold Rdiv. f_equal; [ring | lra].
Qed.

Lemma score_C_eq (pose : Affine3d) (grasp_data : GraspData) (object_pose : Affine3d) :
  score_C pose grasp_data object_pose
  = if Rltb (finger_length grasp_data) (palm_distance pose object_pose) then 0
    else (finger_length grasp_data - palm_distance pose object_pose)
         / finger_length grasp_data.
Proof. reflexivity. Qed.

Lemma scores_at_ideal_orientation (pose : Affine3d) (grasp_data : GraspData)
  (object_pose : Affine3d) :
  linear pose = linear ideal_pose ->
  score_A pose grasp_data object_pose = 1 /\ score_B pose grasp_data object_pose = 1.
Proof.
  intros Hlin. unfold score_A, score_B, individual_scores, rotation.
  cbn [nth]. rewrite Hlin, ideal_pose_linear. unfold z_axis_frame.
  assert (HA : dot (mvmul (mat3 (vec3 0 0 1) (vec3 1 0 0) (vec3 0 1 0)) UnitZ)
                   (mvmul (mat3 (vec3 0 0 1) (vec3 1 0 0) (vec3 0 1 0)) UnitZ) = 1)
    by (eigen_cbv; ring).
  assert (HB : dot (mvmul (mat3 (vec3 0 0 1) (vec3 1 0 0) (vec3 0 1 0)) UnitY)
                   (mvmul (mat3 (vec3 0 0 1) (vec3 1 0 0) (vec3 0 1 0)) UnitY) = 1)
    by (eigen_cbv; ring).
  rewrite HA, HB, acos_1.
  split; field; apply PI_neq0.
Qed.

(** C4 (as amended).  For a positive usable finger length: the score is the
    mean of the three components; component C is 0 when the palm-to-centroid
    distance exceeds the usable finger length, and also when it equals it;
    when the candidate has the ideal orientation, A and B are 1, so the score
    is exactly 2/3 at a distance of one finger length and exactly 1 at
    distance 0 (palm on the centroid). *)
Theorem scoreGrasp_ideal_and_far (self : GraspGenerator) (pose : Affine3d)
  (grasp_data : GraspData) (object_pose : Affine3d) :
  0 < finger_to_palm_depth_ grasp_data - grasp_min_depth_ grasp_data ->
  fst (scoreGrasp self pose grasp_data object_pose)
  = (score_A pose grasp_data object_pose + score_B pose grasp_data object_pose
     + score_C pose grasp_data object_pose) / 3 /\
  (finger_to_palm_depth_ grasp_data - grasp_min_depth_ grasp_data
   < palm_distance pose object_pose ->
   score_C pose grasp_data object_pose = 0) /\
  (palm_distance pose object_pose
   = finger_to_palm_depth_ grasp_data - grasp_min_depth_ grasp_data ->
   score_C pose grasp_data object_pose = 0) /\
  (linear pose = linear ideal_pose ->
   score_A pose grasp_data object_pose = 1 /\
   score_B pose grasp_data object_pose = 1) /\
  (linear pose = linear ideal_pose ->
   palm_distance pose object_pose
   = finger_to_palm_depth_ grasp_data - grasp_min_depth_ grasp_data ->
   fst (scoreGrasp self pose grasp_data object_pose) = 2 / 3) /\
  (linear pose = linear ideal_pose ->
   palm_distance pose object_pose = 0 ->
   fst (scoreGrasp self pose grasp_data object_pose) = 1).
Proof.
  intros Hfl. fold (finger_length grasp_data) in *.
  assert (Hfar : finger_length grasp_data < palm_distance pose object_pose ->
                 score_C pose grasp_data object_pose = 0).
  { intros Hd. rewrite score_C_eq.
    apply Rltb_true in Hd. rewrite Hd. reflexivity. }
  assert (Hat : palm_distance pose object_pose = finger_length grasp_data ->
                score_C pose grasp_data object_pose = 0).
  { intros Hd. rewrite score_C_eq, Hd.
    assert (Hb : Rltb (finger_length grasp_data) (finger_length grasp_data) = false)
      by (apply Rltb_false; lra).
    rewrite Hb. field. lra. }
  assert (Hzero : palm_distance pose object_pose = 0 ->
                  score_C pose grasp_data object_pose = 1).
  { intros Hd. rewrite score_C_eq, Hd.
    assert (Hb : Rltb (finger_length grasp_data) 0 = false)
      by (apply Rltb_false; lra).
    rewrite Hb. field. lra. }
  split; [apply scoreGrasp_mean |].
  split; [exact Hfar |]. split; [exact Hat |].
  split; [apply scores_at_ideal_orientation |].
  split.
  - intros Hlin Hd.
    destruct (scores_at_ideal_orientation pose grasp_data object_pose Hlin) as [HA HB].
    rewrite scoreGrasp_mean, HA, HB, (Hat Hd). lra.
  - intros Hlin Hd.
    destruct (scores_at_ideal_orientation pose grasp_data object_pose Hlin) as [HA HB].
    rewrite scoreGrasp_mean, HA, HB, (Hzero Hd). lra.
Qed.

Lemma palm_distance_along_x (l m : Matrix3d) (x : R) :
  0 <= x -> palm_distance (affine l Zero) (affine m (vec3 x 0 0)) = x.
Proof.
  intros Hx. unfold palm_distance, norm, squaredNorm. eigen_cbv.
  replace ((0 - x) * (0 - x) + (0 - 0) * (0 - 0) + (0 - 0) * (0 - 0)) with (x * x)
    by ring.
  apply sqrt_square. exact Hx.
Qed.

Lemma example_distance_is_finger_length :
  palm_distance ideal_pose (affine MIdentity (vec3 (6 / 100) 0 0))
  = finger_length example_grasp_data.
Proof.
  unfold ideal_pose, rotate. cbn [translation Identity].
  rewrite palm_distance_along_x by lra.
  unfold finger_length. simpl. lra.
Qed.

(** Counterexample to C4 as stated.  The candidate is the ideal pose itself
    and the box centroid lies exactly one usable finger length (6 cm) from
    the palm: component C is 0 and the score is 2/3, not 1. *)
Lemma scoreGrasp_at_finger_length_counterexample :
  palm_distance ideal_pose (affine MIdentity (vec3 (6 / 100) 0 0))
  = finger_to_palm_depth_ example_grasp_data - grasp_min_depth_ example_grasp_data /\
  score_C ideal_pose example_grasp_data (affine MIdentity (vec3 (6 / 100) 0 0)) = 0 /\
  fst (scoreGrasp fresh_generator ideal_pose example_grasp_data
         (affine MIdentity (vec3 (6 / 100) 0 0))) = 2 / 3.
Proof.
  assert (Hd := example_distance_is_finger_length).
  assert (HC : score_C ideal_pose example_grasp_data
                 (affine MIdentity (vec3 (6 / 100) 0 0)) = 0).
  { rewrite score_C_eq, Hd.
    assert (Hb : Rltb (finger_length example_grasp_data)
                      (finger_length example_grasp_data) = false)
      by (apply Rltb_false; lra).
    rewrite Hb. unfold finger_length. simpl. lra. }
  split; [exact Hd |]. split; [exact HC |].
  destruct (scores_at_ideal_orientation ideal_pose example_grasp_data
              (affine MIdentity (vec3 (6 / 100) 0 0)) eq_refl) as [HA HB].
  rewrite scoreGrasp_mean, HA, HB, HC. lra.
Qed.

(** The ideal pose, one finger length (6 cm) from the centroid: 2/3. *)
Lemma scoreGrasp_ideal_and_far_witness :
  0 < finger_to_palm_depth_ example_grasp_data - grasp_min_depth_ example_grasp_data /\
  fst (scoreGrasp fresh_generator ideal_pose example_grasp_data
         (affine MIdentity (vec3 (6 / 100) 0 0))) = 2 / 3.
Proof.
  assert (Hfl : 0 < finger_to_palm_depth_ example_grasp_data
                    - grasp_min_depth_ example_grasp_data) by (simpl; lra).
  split; [exact Hfl |].
  apply (scoreGrasp_ideal_and_far fresh_generator ideal_pose example_grasp_data
           (affine MIdentity (vec3 (6 / 100) 0 0)) Hfl).
  - reflexivity.
  - exact example_distance_is_finger_length.
Defined.

(** C7 (as amended).  Every call of [scoreGrasp] overwrites the member
    [ideal_grasp_pose_] with the same fixed pose, the quarter turns
    [AngleAxis(pi/2, Y) * AngleAxis(pi/2, Z)], and changes no other member of
    the generator; the score does not depend on the state the generator was
    in; a generator that already holds that pose, as after any earlier call,
    is left unchanged. *)
Theorem scoreGrasp_overwrites_ideal_pose_only (self : GraspGenerator)
  (pose : Affine3d) (grasp_data : GraspData) (object_pose : Affine3d) :
  snd (scoreGrasp self pose grasp_data object_pose)
  = mkGraspGenerator (verbose_ self) (m_between_grasps_ self)
      (m_between_depth_grasps_ self) (show_grasp_arrows_ self)
      (show_grasp_arrows_speed_ self) (show_prefiltered_grasps_ self)
      (show_prefiltered_grasps_speed_ self)
      (rotate Identity (mmul (AngleAxisY (PI / 2)) (AngleAxisZ (PI / 2))))
      (grasp_id self) /\
  (forall other : GraspGenerator,
     fst (scoreGrasp other pose grasp_data object_pose)
     = fst (scoreGrasp self pose grasp_data object_pose)) /\
  (ideal_grasp_pose_ self
   = rotate Identity (mmul (AngleAxisY (PI / 2)) (AngleAxisZ (PI / 2))) ->
   snd (scoreGrasp self pose grasp_data object_pose) = self) /\
  (forall (pose' : Affine3d) (grasp_data' : GraspData) (object_pose' : Affine3d),
     snd (scoreGrasp (snd (scoreGrasp self pose grasp_data object_pose))
            pose' grasp_data' object_pose')
     = snd (scoreGrasp self pose grasp_data object_pose)).
Proof.
  split; [destruct self; reflexivity |].
  split; [intros other; destruct self, other; reflexivity |].
  split.
  - intros Hideal. destruct self. simpl in Hideal. subst. reflexivity.
  - intros pose' grasp_data' object_pose'. destruct self. reflexivity.
Qed.

(** Counterexample to C7 as stated.  A generator whose [ideal_grasp_pose_]
    is the identity comes out of a scoring call with another
    [ideal_grasp_pose_]: the local X axis of the stored pose was [(1, 0, 0)]
    before the call and is [(0, 1, 0)] after it. *)
Lemma scoreGrasp_mutates_generator_counterexample :
  col0 (linear (ideal_grasp_pose_ fresh_generator)) = vec3 1 0 0 /\
  col0 (linear (ideal_grasp_pose_
                  (snd (scoreGrasp fresh_generator ideal_pose example_grasp_data
                          Identity)))) = vec3 0 1 0.
Proof.
  split; [reflexivity |].
  rewrite scoreGrasp_state. cbn [set_ideal_grasp_pose_ ideal_grasp_pose_].
  rewrite ideal_pose_linear. reflexivity.
Qed.

(* ================================================================== *)
(** ** Entry points *)

(** C10.  The box overload of [generateGrasps] returns true for every input.
    It runs [generateCuboidAxisGrasps] once for each axis whose extent is at
    most [max_grasp_size], in the order X, Y, Z, and for no other axis; when
    no axis qualifies, no candidate is added, [possible_grasps] and the
    generator are as before the call, and the call still returns true. *)
Theorem generateGrasps_always_succeeds (self : GraspGenerator) (cuboid_pose : Affine3d)
  (depth width height max_grasp_size : R) (grasp_data : GraspData)
  (possible_grasps : list moveit_msgs.Grasp) :
  fst (generateGrasps self cuboid_pose depth width height max_grasp_size grasp_data
         possible_grasps) = true /\
  snd (generateGrasps self cuboid_pose depth width height max_grasp_size grasp_data
         possible_grasps)
  = fold_left
      (fun st axis =>
         generateCuboidAxisGrasps (snd st) cuboid_pose depth width height axis
           grasp_data (fst st))
      (attempted_axes depth width height max_grasp_size) (possible_grasps, self) /\
  (forall axis : grasp_axis_t,
     In axis (attempted_axes depth width height max_grasp_size) <->
     axis_extent axis depth width height <= max_grasp_size) /\
  (max_grasp_size < depth -> max_grasp_size < width -> max_grasp_size < height ->
   generateGrasps self cuboid_pose depth width height max_grasp_size grasp_data
     possible_grasps = (true, (possible_grasps, self))).
Proof.
  split; [reflexivity |]. split; [| split].
  - unfold generateGrasps, attempted_axes. cbn [snd fst filter axis_extent].
    destruct (Rleb depth max_grasp_size), (Rleb width max_grasp_size),
      (Rleb height max_grasp_size); reflexivity.
  - intros axis. unfold attempted_axes. rewrite filter_In, Rleb_true.
    split; [intros [_ H]; exact H |].
    intros H. split; [| exact H].
    destruct axis; simpl; auto.
  - intros Hd Hw Hh. unfold generateGrasps.
    apply Rleb_false in Hd, Hw, Hh. rewrite Hd, Hw, Hh. reflexivity.
Qed.

(* ================================================================== *)
(** ** Bounding box of a mesh *)

Section BoundingBoxProperties.

Variable eigenvectors : Matrix3d -> Matrix3d.

Lemma getBoundingBoxFromMesh_flag (mesh_msg : shape_msgs.Mesh) :
  fst (getBoundingBoxFromMesh eigenvectors mesh_msg) = true.
Proof.
  unfold getBoundingBoxFromMesh. cbv zeta.
  destruct (fold_left _ _ _) as [min max]. reflexivity.
Qed.

Lemma getBoundingBoxFromMesh_empty_extents (mesh_msg : shape_msgs.Mesh) :
  shape_msgs.vertices mesh_msg = [] ->
  snd (snd (getBoundingBoxFromMesh eigenvectors mesh_msg)) = DBL_MIN - DBL_MAX /\
  snd (fst (snd (getBoundingBoxFromMesh eigenvectors mesh_msg))) = DBL_MIN - DBL_MAX /\
  snd (fst (fst (snd (getBoundingBoxFromMesh eigenvectors mesh_msg)))) = DBL_MIN - DBL_MAX.
Proof.
  intros Hv. unfold getBoundingBoxFromMesh. rewrite Hv. cbn [fold_left].
  repeat split; reflexivity.
Qed.

Lemma generateGrasps_mesh_eq (self : GraspGenerator) (mesh_msg : shape_msgs.Mesh)
  (cuboid_pose : Affine3d) (max_grasp_size : R) (grasp_data : GraspData)
  (possible_grasps : list moveit_msgs.Grasp) :
  generateGrasps_mesh eigenvectors self mesh_msg cuboid_pose max_grasp_size grasp_data
    possible_grasps
  = generateGrasps self cuboid_pose
      (snd (fst (fst (snd (getBoundingBoxFromMesh eigenvectors mesh_msg)))))
      (snd (fst (snd (getBoundingBoxFromMesh eigenvectors mesh_msg))))
      (snd (snd (getBoundingBoxFromMesh eigenvectors mesh_msg)))
      max_grasp_size grasp_data possible_grasps.
Proof.
  unfold generateGrasps_mesh.
  pose proof (getBoundingBoxFromMesh_flag mesh_msg) as Hflag.
  destruct (getBoundingBoxFromMesh eigenvectors mesh_msg)
    as [ok [[[mesh_pose depth] width] height]].
  cbn [fst snd] in *. subst ok. reflexivity.
Qed.

End BoundingBoxProperties.

Lemma DBL_MIN_lt_DBL_MAX : DBL_MIN - DBL_MAX < 0.
Proof.
  unfold DBL_MIN, DBL_MAX.
  assert (H1 : 1 <= IZR (2 ^ 1022)) by (apply IZR_le; lia).
  assert (H2 : 1 < IZR (2 ^ 1024 - 2 ^ 971)) by (apply IZR_lt; lia).
  assert (H3 : / IZR (2 ^ 1022) <= 1).
  { rewrite <- Rinv_1. apply Rinv_le_contravar; lra. }
  lra.
Qed.

(** C5, a defect of the code.  The claim has the extractor fail on a mesh
    without vertices and the failure reach the caller, whose error branch
    ("Unable to get bounding box from mesh") is there to pass it on.
    [getBoundingBoxFromMesh] never fails: its only [return] is
    [return true], for every mesh and every eigen solver.  On a mesh without
    vertices it does not look at the vertex count: the bounds keep their
    initial values, [min] at the largest double and [max] at the smallest
    positive double, so that depth, width and height are all
    [DBL_MIN - DBL_MAX], a negative number, and the flag is true.  The mesh
    overload of [generateGrasps] does not take its error branch: it runs the
    box overload on these extents and returns true. *)
Theorem getBoundingBoxFromMesh_accepts_empty_mesh (eigenvectors : Matrix3d -> Matrix3d)
  (self : GraspGenerator) (triangles : list (nat * nat * nat)) (cuboid_pose : Affine3d)
  (max_grasp_size : R) (grasp_data : GraspData)
  (possible_grasps : list moveit_msgs.Grasp) :
  let no_vertices := shape_msgs.mkMesh [] triangles in
  let r := getBoundingBoxFromMesh eigenvectors no_vertices in
  (forall mesh_msg : shape_msgs.Mesh,
     fst (getBoundingBoxFromMesh eigenvectors mesh_msg) = true) /\
  fst r = true /\
  box_depth r = DBL_MIN - DBL_MAX /\
  box_width r = DBL_MIN - DBL_MAX /\
  box_height r = DBL_MIN - DBL_MAX /\
  DBL_MIN - DBL_MAX < 0 /\
  generateGrasps_mesh eigenvectors self no_vertices cuboid_pose max_grasp_size grasp_data
    possible_grasps
  = generateGrasps self cuboid_pose (DBL_MIN - DBL_MAX) (DBL_MIN - DBL_MAX)
      (DBL_MIN - DBL_MAX) max_grasp_size grasp_data possible_grasps /\
  fst (generateGrasps_mesh eigenvectors self no_vertices cuboid_pose max_grasp_size
         grasp_data possible_grasps) = true.
Proof.
  intros no_vertices r.
  destruct (getBoundingBoxFromMesh_empty_extents eigenvectors no_vertices eq_refl)
    as (Hh & Hw & Hd).
  split; [intros mesh_msg; apply getBoundingBoxFromMesh_flag |].
  split; [apply getBoundingBoxFromMesh_flag |].
  split; [exact Hd |]. split; [exact Hw |]. split; [exact Hh |].
  split; [exact DBL_MIN_lt_DBL_MAX |].
  assert (Heq : generateGrasps_mesh eigenvectors self no_vertices cuboid_pose
                  max_grasp_size grasp_data possible_grasps
                = generateGrasps self cuboid_pose (DBL_MIN - DBL_MAX) (DBL_MIN - DBL_MAX)
                    (DBL_MIN - DBL_MAX) max_grasp_size grasp_data possible_grasps).
  { rewrite generateGrasps_mesh_eq, Hh, Hw, Hd. reflexivity. }
  split; [exact Heq |]. rewrite Heq. reflexivity.
Qed.

(* ================================================================== *)
(** ** Further properties *)

Lemma fraction_range (x y : R) : 0 <= x <= y -> 0 < y -> 0 <= x / y <= 1.
Proof.
  intros [Hx Hxy] Hy.
  assert (Hinv : 0 < / y) by (apply Rinv_0_lt_compat; exact Hy).
  unfold Rdiv. split.
  - apply Rmult_le_pos; lra.
  - apply (Rmult_le_reg_r y); [exact Hy |].
    rewrite Rmult_assoc, Rinv_l by lra. lra.
Qed.

(** The score lies in [[0, 1]] whenever the usable finger length is
    positive: each of the three components does. *)
Theorem scoreGrasp_range (self : GraspGenerator) (pose : Affine3d)
  (grasp_data : GraspData) (object_pose : Affine3d) :
  0 < finger_to_palm_depth_ grasp_data - grasp_min_depth_ grasp_data ->
  0 <= fst (scoreGrasp self pose grasp_data object_pose) <= 1.
Proof.
  intros Hfl. fold (finger_length grasp_data) in Hfl.
  assert (Hangle : forall x, 0 <= (PI - acos x) / PI <= 1).
  { intros x. pose proof (acos_bound x) as [Hlo Hhi]. pose proof PI_RGT_0 as Hpi.
    apply fraction_range; lra. }
  assert (HA : 0 <= score_A pose grasp_data object_pose <= 1) by apply Hangle.
  assert (HB : 0 <= score_B pose grasp_data object_pose <= 1) by apply Hangle.
  assert (HC : 0 <= score_C pose grasp_data object_pose <= 1).
  { rewrite score_C_eq.
    assert (Hd : 0 <= palm_distance pose object_pose) by apply sqrt_pos.
    destruct (Rltb (finger_length grasp_data) (palm_distance pose object_pose)) eqn:Hcmp;
      [lra |].
    apply Rltb_false in Hcmp.
    apply fraction_range; lra. }
  rewrite scoreGrasp_mean. lra.
Qed.

(** The score of the first face grasp of the 4 x 6 x 8 cm box. *)
Lemma scoreGrasp_range_witness :
  0 < finger_to_palm_depth_ example_grasp_data - grasp_min_depth_ example_grasp_data /\
  0 <= fst (scoreGrasp fresh_generator example_base example_grasp_data Identity) <= 1.
Proof.
  assert (Hfl : 0 < finger_to_palm_depth_ example_grasp_data
                    - grasp_min_depth_ example_grasp_data) by (simpl; lra).
  split; [exact Hfl |].
  exact (scoreGrasp_range fresh_generator example_base example_grasp_data Identity Hfl).
Defined.

Lemma addGrasp_eq (self : GraspGenerator) (grasp_pose : Affine3d)
  (grasp_data : GraspData) (possible_grasps : list moveit_msgs.Grasp)
  (object_pose : Affine3d) :
  addGrasp self grasp_pose grasp_data possible_grasps object_pose
  = (possible_grasps ++ [grasp_message (grasp_id self) grasp_pose grasp_data object_pose],
     set_grasp_id (set_ideal_grasp_pose_ self ideal_pose) (grasp_id self + 1)).
Proof. destruct self. reflexivity. Qed.

Lemma addGrasp_fold (grasp_data : GraspData) (object_pose : Affine3d) :
  forall (poses : list Affine3d) (self : GraspGenerator)
         (possible_grasps : list moveit_msgs.Grasp),
    poses <> [] ->
    fold_left (fun st pose => addGrasp (snd st) pose grasp_data (fst st) object_pose)
      poses (possible_grasps, self)
    = (possible_grasps ++ grasp_messages (grasp_id self) poses grasp_data object_pose,
       set_grasp_id (set_ideal_grasp_pose_ self ideal_pose)
         (grasp_id self + Z.of_nat (length poses))).
Proof.
  induction poses as [| pose rest IH]; intros self possible_grasps Hne;
    [contradiction |].
  cbn [fold_left fst snd]. rewrite addGrasp_eq.
  destruct rest as [| pose' rest'].
  - cbn [fold_left grasp_messages length]. reflexivity.
  - rewrite IH by discriminate.
    cbn [grasp_messages]. rewrite <- app_assoc. cbn [app].
    f_equal.
    destruct self.
    cbv [set_grasp_id set_ideal_grasp_pose_ grasp_id verbose_ m_between_grasps_
         m_between_depth_grasps_ show_grasp_arrows_ show_grasp_arrows_speed_
         show_prefiltered_grasps_ show_prefiltered_grasps_speed_ ideal_grasp_pose_].
    f_equal. cbn [length]. lia.
Qed.

Lemma num_radial_grasps_pos (grasp_data : GraspData) :
  (1 <= num_radial_grasps grasp_data)%Z.
Proof. rewrite num_radial_grasps_eq. lia. Qed.

Lemma corner_poses_length (cuboid_pose : Affine3d) (depth width height : R)
  (axis : grasp_axis_t) (grasp_data : GraspData) :
  length (corner_poses cuboid_pose depth width height axis grasp_data)
  = (4 * Z.to_nat (num_radial_grasps grasp_data))%nat.
Proof.
  unfold corner_poses. rewrite add_corner_grasps_eq. simpl.
  rewrite !length_app, !length_corner_fan. lia.
Qed.

Lemma cuboid_axis_grasp_poses_length (cuboid_pose : Affine3d) (depth width height : R)
  (axis : grasp_axis_t) (grasp_data : GraspData) :
  (8 <= length (cuboid_axis_grasp_poses cuboid_pose depth width height axis
                  grasp_data))%nat.
Proof.
  assert (Hall : cuboid_axis_grasp_poses cuboid_pose depth width height axis grasp_data
                 = add_bidirectional_grasps
                     (angle_poses cuboid_pose depth width height axis grasp_data))
    by reflexivity.
  rewrite Hall, add_bidirectional_grasps_eq, length_app, length_map.
  unfold angle_poses. rewrite add_angle_grasps_eq, length_app.
  unfold depth_poses. rewrite add_depth_grasps_eq, length_app.
  rewrite corner_face_poses_eq, length_app, corner_poses_length.
  pose proof (num_radial_grasps_pos grasp_data). lia.
Qed.

(** The poses of one axis, in the order in which they are generated: the
    four corner fans, the four face rows, the depth steps behind every
    corner and face pose, the angular sweeps of every pose but the corner
    poses at zero depth, and then a copy of all of them turned by half a
    turn about the local Z axis.  Their number is even and at least 8. *)
Theorem cuboid_axis_grasp_poses_order (cuboid_pose : Affine3d) (depth width height : R)
  (axis : grasp_axis_t) (grasp_data : GraspData) :
  angle_poses cuboid_pose depth width height axis grasp_data
  = (corner_poses cuboid_pose depth width height axis grasp_data
     ++ face_minus_a cuboid_pose depth width height axis grasp_data
     ++ face_plus_b cuboid_pose depth width height axis grasp_data
     ++ face_plus_a cuboid_pose depth width height axis grasp_data
     ++ face_minus_b cuboid_pose depth width height axis grasp_data)
    ++ flat_map (depth_fan grasp_data)
         (corner_face_poses cuboid_pose depth width height axis grasp_data)
    ++ flat_map (angle_sweep cuboid_pose depth width height grasp_data)
         (skipn (length (corner_poses cuboid_pose depth width height axis grasp_data))
                (depth_poses cuboid_pose depth width height axis grasp_data)) /\
  cuboid_axis_grasp_poses cuboid_pose depth width height axis grasp_data
  = angle_poses cuboid_pose depth width height axis grasp_data
    ++ map flipped_z (angle_poses cuboid_pose depth width height axis grasp_data) /\
  Nat.Even (length (cuboid_axis_grasp_poses cuboid_pose depth width height axis
                      grasp_data)) /\
  (8 <= length (cuboid_axis_grasp_poses cuboid_pose depth width height axis
                  grasp_data))%nat.
Proof.
  assert (Hpre : angle_poses cuboid_pose depth width height axis grasp_data
                 = (corner_poses cuboid_pose depth width height axis grasp_data
                    ++ face_minus_a cuboid_pose depth width height axis grasp_data
                    ++ face_plus_b cuboid_pose depth width height axis grasp_data
                    ++ face_plus_a cuboid_pose depth width height axis grasp_data
                    ++ face_minus_b cuboid_pose depth width height axis grasp_data)
                   ++ flat_map (depth_fan grasp_data)
                        (corner_face_poses cuboid_pose depth width height axis grasp_data)
                   ++ flat_map (angle_sweep cuboid_pose depth width height grasp_data)
                        (skipn (length (corner_poses cuboid_pose depth width height axis
                                          grasp_data))
                               (depth_poses cuboid_pose depth width height axis
                                  grasp_data))).
  { unfold angle_poses. rewrite add_angle_grasps_eq.
    unfold depth_poses at 1. rewrite add_depth_grasps_eq.
    rewrite corner_face_poses_eq at 1. rewrite <- !app_assoc. reflexivity. }
  assert (Hall : cuboid_axis_grasp_poses cuboid_pose depth width height axis grasp_data
                 = angle_poses cuboid_pose depth width height axis grasp_data
                   ++ map flipped_z
                        (angle_poses cuboid_pose depth width height axis grasp_data))
    by apply add_bidirectional_grasps_eq.
  split; [exact Hpre |]. split; [exact Hall |].
  assert (Hlen : length (cuboid_axis_grasp_poses cuboid_pose depth width height axis
                           grasp_data)
                 = (2 * length (angle_poses cuboid_pose depth width height axis
                                  grasp_data))%nat).
  { rewrite Hall, length_app, length_map. lia. }
  split.
  - exists (length (angle_poses cuboid_pose depth width height axis grasp_data)).
    exact Hlen.
  - apply cuboid_axis_grasp_poses_length.
Qed.

(** [generateCuboidAxisGrasps] appends one message for every pose of the
    axis, in the order of the poses: numbered consecutively from the value
    of the counter [grasp_id], scored by [scoreGrasp], with the pose
    composed with [grasp_pose_to_eef_pose_]; the grasps already in
    [possible_grasps] stay in front, and the counter advances by the number
    of poses. *)
Theorem generateCuboidAxisGrasps_output (self : GraspGenerator) (cuboid_pose : Affine3d)
  (depth width height : R) (axis : grasp_axis_t) (grasp_data : GraspData)
  (possible_grasps : list moveit_msgs.Grasp) :
  fst (generateCuboidAxisGrasps self cuboid_pose depth width height axis grasp_data
         possible_grasps)
  = possible_grasps
    ++ grasp_messages (grasp_id self)
         (cuboid_axis_grasp_poses cuboid_pose depth width height axis grasp_data)
         grasp_data cuboid_pose /\
  grasp_id (snd (generateCuboidAxisGrasps self cuboid_pose depth width height axis
                   grasp_data possible_grasps))
  = (grasp_id self
     + Z.of_nat (length (cuboid_axis_grasp_poses cuboid_pose depth width height axis
                           grasp_data)))%Z /\
  (forall (n : Z) (pose : Affine3d),
     moveit_msgs.id (grasp_message n pose grasp_data cuboid_pose) = n /\
     moveit_msgs.grasp_quality (grasp_message n pose grasp_data cuboid_pose)
     = fst (scoreGrasp self pose grasp_data cuboid_pose) /\
     moveit_msgs.grasp_pose (grasp_message n pose grasp_data cuboid_pose)
     = compose pose (grasp_pose_to_eef_pose_ grasp_data)).
Proof.
  assert (Hne : cuboid_axis_grasp_poses cuboid_pose depth width height axis grasp_data
                <> []).
  { intros Hnil.
    pose proof (cuboid_axis_grasp_poses_length cuboid_pose depth width height axis
                  grasp_data) as Hlen.
    rewrite Hnil in Hlen. simpl in Hlen. lia. }
  unfold generateCuboidAxisGrasps.
  rewrite (addGrasp_fold grasp_data cuboid_pose _ self possible_grasps Hne).
  split; [reflexivity |].
  split; [destruct self; reflexivity |].
  intros n pose. split; [reflexivity |]. split; [| reflexivity].
  destruct self. reflexivity.
Qed.

(** The examples of the intersection test on the unit square: a crossing at
    [t = 0.5] with in-plane point (0, 0) is inside, the same crossing with
    in-plane point (0.6, 0) is outside, and a crossing outside [[0, 1]] is
    refused even with in-plane point (0, 0). *)
Theorem intersectionHelper_unit_square :
  fst (intersectionHelper (Fin (1 / 2)) 0 0 0 0 1 1) = true /\
  fst (intersectionHelper (Fin (1 / 2)) (6 / 10) 0 (6 / 10) 0 1 1) = false /\
  fst (intersectionHelper (Fin (3 / 2)) 0 0 0 0 1 1) = false /\
  fst (intersectionHelper (Fin (- (1 / 2))) 0 0 0 0 1 1) = false.
Proof.
  assert (Hfalse : forall t u1 v1 u2 v2 a b,
             ~ (xbetween 0 1 t /\ interpolated_in_rectangle t u1 v1 u2 v2 a b) ->
             fst (intersectionHelper t u1 v1 u2 v2 a b) = false).
  { intros t u1 v1 u2 v2 a b Hn.
    destruct (fst (intersectionHelper t u1 v1 u2 v2 a b)) eqn:Hr; [| reflexivity].
    apply intersectionHelper_true_iff in Hr. contradiction. }
  split; [| split; [| split]].
  - apply intersectionHelper_true_iff. simpl. lra.
  - apply Hfalse. simpl. lra.
  - apply Hfalse. simpl. lra.
  - apply Hfalse. simpl. lra.
Qed.

Lemma fold_left_permutation {A B : Type} (f : A -> B -> A) :
  (forall a x y, f (f a x) y = f (f a y) x) ->
  forall l l' : list B, Permutation l l' ->
  forall a : A, fold_left f l a = fold_left f l' a.
Proof.
  intros Hcomm l l' Hperm.
  induction Hperm as [| x l l' _ IH | x y l | l l' l'' _ IH1 _ IH2]; intros a; simpl.
  - reflexivity.
  - apply IH.
  - rewrite Hcomm. reflexivity.
  - rewrite IH1. apply IH2.
Qed.

Lemma accumulate_comm (m : Moments) (p q : Vector3d) :
  accumulate (accumulate m p) q = accumulate (accumulate m q) p.
Proof.
  destruct m as [[cx cy cz] ixx iyy izz ixy ixz iyz].
  destruct p as [px py pz]. destruct q as [qx qy qz].
  unfold accumulate, vadd; simpl. f_equal; try ring. eigen_eq.
Qed.

Lemma min_step_comm (m x y : R) :
  (if Rltb y (if Rltb x m then x else m) then y else if Rltb x m then x else m)
  = (if Rltb x (if Rltb y m then y else m) then x else if Rltb y m then y else m).
Proof.
  destruct (Rltb x m) eqn:Hxm, (Rltb y m) eqn:Hym; cbv iota;
    repeat (match goal with
            | |- context [Rltb ?a ?b] => destruct (Rltb a b) eqn:?
            end; cbv iota);
    repeat match goal with
           | H : Rltb _ _ = true |- _ => apply Rltb_true in H
           | H : Rltb _ _ = false |- _ => apply Rltb_false in H
           end;
    try reflexivity; lra.
Qed.

Lemma max_step_comm (m x y : R) :
  (if Rltb (if Rltb m x then x else m) y then y else if Rltb m x then x else m)
  = (if Rltb (if Rltb m y then y else m) x then x else if Rltb m y then y else m).
Proof.
  destruct (Rltb m x) eqn:Hxm, (Rltb m y) eqn:Hym; cbv iota;
    repeat (match goal with
            | |- context [Rltb ?a ?b] => destruct (Rltb a b) eqn:?
            end; cbv iota);
    repeat match goal with
           | H : Rltb _ _ = true |- _ => apply Rltb_true in H
           | H : Rltb _ _ = false |- _ => apply Rltb_false in H
           end;
    try reflexivity; lra.
Qed.

Lemma update_bounds_comm (bounds : Vector3d * Vector3d) (p q : Vector3d) :
  update_bounds (update_bounds bounds p) q = update_bounds (update_bounds bounds q) p.
Proof.
  destruct bounds as [[ax ay az] [bx by' bz]].
  destruct p as [px py pz]. destruct q as [qx qy qz].
  unfold update_bounds; simpl.
  f_equal; f_equal; first [apply min_step_comm | apply max_step_comm].
Qed.

(** The bounding box does not depend on the order in which the vertices of
    the mesh are listed (nor on its triangles): centroid, second moments and
    bounds are sums, minima and maxima over the vertices. *)
Theorem getBoundingBoxFromMesh_permutation (eigenvectors : Matrix3d -> Matrix3d)
  (mesh_1 mesh_2 : shape_msgs.Mesh) :
  Permutation (shape_msgs.vertices mesh_1) (shape_msgs.vertices mesh_2) ->
  getBoundingBoxFromMesh eigenvectors mesh_1
  = getBoundingBoxFromMesh eigenvectors mesh_2.
Proof.
  intros Hperm.
  unfold getBoundingBoxFromMesh. cbv zeta.
  rewrite (Permutation_length Hperm).
  rewrite (fold_left_permutation accumulate accumulate_comm _ _ Hperm).
  match goal with
  | |- context [fold_left ?f (shape_msgs.vertices mesh_1) ?init] =>
      rewrite (fold_left_permutation f
                 (fun a x y => update_bounds_comm a _ _) _ _ Hperm init)
  end.
  reflexivity.
Qed.

(** Two vertices, listed in either order. *)
Lemma getBoundingBoxFromMesh_permutation_witness :
  getBoundingBoxFromMesh (fun _ => MIdentity) mesh_ab
  = getBoundingBoxFromMesh (fun _ => MIdentity) mesh_ba.
Proof.
  apply (getBoundingBoxFromMesh_permutation (fun _ => MIdentity) mesh_ab mesh_ba).
  apply perm_swap.
Defined.

(* ================================================================== *)
(** ** Invariants of the generated poses *)

Ltac destruct_mat m :=
  let a := fresh "a" in let b := fresh "b" in let c := fresh "c" in
  let d := fresh "d" in let e := fresh "e" in let f := fresh "f" in
  let g := fresh "g" in let h := fresh "h" in let i := fresh "i" in
  destruct m as [[a b c] [d e f] [g h i]].

Lemma mmul_assoc (a b c : Matrix3d) : mmul (mmul a b) c = mmul a (mmul b c).
Proof. destruct_mat a. destruct_mat b. destruct_mat c. eigen_cbv. eigen_eq. Qed.

Lemma mmul_Identity_r (a : Matrix3d) : mmul a MIdentity = a.
Proof. destruct_mat a. eigen_cbv. eigen_eq. Qed.

Lemma mmul_Identity_l (a : Matrix3d) : mmul MIdentity a = a.
Proof. destruct_mat a. eigen_cbv. eigen_eq. Qed.

Lemma transpose_mmul (a b : Matrix3d) :
  transpose (mmul a b) = mmul (transpose b) (transpose a).
Proof. destruct_mat a. destruct_mat b. unfold transpose. eigen_cbv. eigen_eq. Qed.

Lemma determinant_mmul (a b : Matrix3d) :
  determinant (mmul a b) = determinant a * determinant b.
Proof. destruct_mat a. destruct_mat b. eigen_cbv. ring. Qed.

Lemma is_rotation_mmul (a b : Matrix3d) :
  is_rotation a -> is_rotation b -> is_rotation (mmul a b).
Proof.
  intros [Ha Da] [Hb Db]. split.
  - rewrite transpose_mmul, mmul_assoc, <- (mmul_assoc (transpose a)), Ha,
      mmul_Identity_l. exact Hb.
  - rewrite determinant_mmul, Da, Db. ring.
Qed.

Lemma sin_cos_square (x : R) : sin x * sin x + cos x * cos x = 1.
Proof. pose proof (sin2_cos2 x) as H. unfold Rsqr in H. exact H. Qed.

(** Componentwise equalities that need [sin^2 + cos^2 = 1]. *)
Ltac eigen_trig x :=
  pose proof (sin_cos_square x);
  repeat match goal with
         | |- mat3 _ _ _ = mat3 _ _ _ => f_equal
         | |- vec3 _ _ _ = vec3 _ _ _ => f_equal
         end;
  try nra.

Lemma is_rotation_AngleAxisX (x : R) : is_rotation (AngleAxisX x).
Proof. split; unfold transpose; eigen_cbv; eigen_trig x. Qed.
Lemma is_rotation_AngleAxisY (x : R) : is_rotation (AngleAxisY x).
Proof. split; unfold transpose; eigen_cbv; eigen_trig x. Qed.
Lemma is_rotation_AngleAxisZ (x : R) : is_rotation (AngleAxisZ x).
Proof. split; unfold transpose; eigen_cbv; eigen_trig x. Qed.

(** A property kept by a turn about the local Y axis holds along a run. *)
Lemma sweep_run_preserves (P : Affine3d -> Prop) (test : Affine3d -> bool) (angle : R) :
  (forall p, P p -> P (turned_y p angle)) ->
  forall budget start q, P start -> In q (sweep_run test angle budget start) -> P q.
Proof.
  intros Hstep. induction budget as [| b IH]; intros start q Hs Hin; simpl in Hin;
    [contradiction |].
  destruct (test start); [| contradiction].
  destruct Hin as [<- | Hin]; [exact Hs |].
  exact (IH _ _ (Hstep _ Hs) Hin).
Qed.

(** An induction principle for the enumeration: what holds of the aligned
    poses and is kept by the three moves of blocks 1 to 4 holds of every
    pose before the last block. *)
Section Closure.

Variables (cuboid_pose : Affine3d) (depth width height : R) (axis : grasp_axis_t)
  (grasp_data : GraspData).
Variable P : Affine3d -> Prop.
Hypothesis P_aligned :
  forall tr rot, P (aligned_pose cuboid_pose (rotation_angles axis) tr rot).
Hypothesis P_turned : forall p angle, P p -> P (turned_y p angle).
Hypothesis P_translate : forall p v, P p -> P (translate p v).
Hypothesis P_backed : forall p x, P p -> P (backed_off p x).

Lemma corner_face_poses_closure (p : Affine3d) :
  In p (corner_face_poses cuboid_pose depth width height axis grasp_data) -> P p.
Proof.
  rewrite corner_face_poses_eq. unfold corner_poses. rewrite add_corner_grasps_eq.
  cbn [app]. rewrite !in_app_iff.
  unfold corner_fan, face_minus_a, face_plus_b, face_plus_a, face_minus_b, face_row.
  cbv zeta. rewrite !in_map_iff.
  intros H.
  repeat match goal with
         | H : _ \/ _ |- _ => destruct H as [H | H]
         end;
    destruct H as (k & <- & _); auto.
Qed.

Lemma depth_poses_closure (p : Affine3d) :
  In p (depth_poses cuboid_pose depth width height axis grasp_data) -> P p.
Proof.
  unfold depth_poses. rewrite add_depth_grasps_eq, in_app_iff, in_flat_map.
  intros [H | (q & Hq & H)].
  - exact (corner_face_poses_closure p H).
  - unfold depth_fan in H. apply in_map_iff in H. destruct H as (k & <- & _).
    apply P_backed. exact (corner_face_poses_closure q Hq).
Qed.

Lemma angle_poses_closure (p : Affine3d) :
  In p (angle_poses cuboid_pose depth width height axis grasp_data) -> P p.
Proof.
  unfold angle_poses. rewrite add_angle_grasps_eq, in_app_iff, in_flat_map.
  intros [H | (q & Hq & H)].
  - exact (depth_poses_closure p H).
  - assert (Hbase : P q).
    { apply depth_poses_closure.
      rewrite <- (firstn_skipn
                    (length (corner_poses cuboid_pose depth width height axis grasp_data))).
      apply in_or_app. right. exact Hq. }
    unfold angle_sweep in H. apply in_app_or in H.
    destruct H as [H | H];
      refine (sweep_run_preserves P _ _ (fun p Hp => P_turned p _ Hp) _ _ _ _ H);
      apply P_turned; exact Hbase.
Qed.

End Closure.

Lemma rigid_turned_y (p : Affine3d) (angle : R) : rigid p -> rigid (turned_y p angle).
Proof. intros H. apply is_rotation_mmul; [exact H | apply is_rotation_AngleAxisY]. Qed.

Lemma rigid_flipped_z (p : Affine3d) : rigid p -> rigid (flipped_z p).
Proof. intros H. apply is_rotation_mmul; [exact H | apply is_rotation_AngleAxisZ]. Qed.

Lemma rigid_aligned_pose (pose : Affine3d) (angles : R * R * R) (tr : Vector3d) (rot : R) :
  rigid pose -> rigid (aligned_pose pose angles tr rot).
Proof.
  intros H. destruct angles as [[ax ay] az]. unfold rigid, aligned_pose.
  cbn [linear translate rotate].
  repeat apply is_rotation_mmul;
    auto using is_rotation_AngleAxisX, is_rotation_AngleAxisY, is_rotation_AngleAxisZ.
Qed.

Lemma rigid_compose (a b : Affine3d) : rigid a -> rigid b -> rigid (compose a b).
Proof. intros Ha Hb. apply is_rotation_mmul; assumption. Qed.

Lemma col1_turned_y (p : Affine3d) (angle : R) :
  col1 (linear (turned_y p angle)) = col1 (linear p).
Proof. destruct p as [l t]. destruct_mat l. eigen_cbv. eigen_eq. Qed.

Lemma col1_flipped_z (p : Affine3d) :
  col1 (linear (flipped_z p)) = vneg (col1 (linear p)).
Proof. apply flipped_z_axes. Qed.

Lemma neg_half_pi : - PI / 2 = - (PI / 2).
Proof. field. Qed.

Lemma col1_aligned_pose (pose : Affine3d) (axis : grasp_axis_t) (tr : Vector3d) (rot : R) :
  col1 (linear (aligned_pose pose (rotation_angles axis) tr rot))
  = mvmul (linear pose) (grasp_y_axis axis).
Proof.
  destruct pose as [l t]. destruct_mat l.
  destruct axis; unfold rotation_angles, grasp_y_axis; eigen_cbv;
    rewrite ?neg_half_pi, ?cos_neg, ?sin_neg, ?cos_PI2, ?sin_PI2, ?cos_0, ?sin_0,
      ?cos_PI, ?sin_PI;
    eigen_eq.
Qed.

(** The columns of a rotation matrix are orthonormal. *)
Lemma rotation_columns (m : Matrix3d) :
  is_rotation m ->
  dot (col0 m) (col0 m) = 1 /\ dot (col1 m) (col1 m) = 1 /\ dot (col2 m) (col2 m) = 1 /\
  dot (col0 m) (col1 m) = 0 /\ dot (col0 m) (col2 m) = 0 /\ dot (col1 m) (col2 m) = 0.
Proof.
  intros [H _]. destruct_mat m. unfold transpose in H. revert H. eigen_cbv.
  intros H. injection H as H00 H01 H02 H10 H11 H12 H20 H21 H22.
  repeat split; lra.
Qed.

Lemma cuboid_axis_grasp_poses_closure (cuboid_pose : Affine3d) (depth width height : R)
  (axis : grasp_axis_t) (grasp_data : GraspData) (P : Affine3d -> Prop) :
  (forall tr rot, P (aligned_pose cuboid_pose (rotation_angles axis) tr rot)) ->
  (forall p angle, P p -> P (turned_y p angle)) ->
  (forall p v, P p -> P (translate p v)) ->
  (forall p x, P p -> P (backed_off p x)) ->
  (forall p, P p -> P (flipped_z p)) ->
  Forall P (cuboid_axis_grasp_poses cuboid_pose depth width height axis grasp_data).
Proof.
  intros Ha Ht Hv Hb Hf. apply Forall_forall. intros p Hin.
  assert (Hall : cuboid_axis_grasp_poses cuboid_pose depth width height axis grasp_data
                 = add_bidirectional_grasps
                     (angle_poses cuboid_pose depth width height axis grasp_data))
    by reflexivity.
  rewrite Hall, add_bidirectional_grasps_eq, in_app_iff, in_map_iff in Hin.
  destruct Hin as [Hin | (q & <- & Hin)]; [| apply Hf];
    exact (angle_poses_closure cuboid_pose depth width height axis grasp_data P
             Ha Ht Hv Hb _ Hin).
Qed.

Lemma Forall_grasp_messages (Q : moveit_msgs.Grasp -> Prop) (grasp_data : GraspData)
  (object_pose : Affine3d) :
  forall (poses : list Affine3d) (n : Z),
    (forall p m, In p poses -> Q (grasp_message m p grasp_data object_pose)) ->
    Forall Q (grasp_messages n poses grasp_data object_pose).
Proof.
  induction poses as [| p rest IH]; intros n H; simpl; constructor.
  - apply H. left. reflexivity.
  - apply IH. intros q m Hq. apply H. right. exact Hq.
Qed.

(** For a rigid box pose, every pose that [generateCuboidAxisGrasps]
    generates is rigid (the blocks only turn and move poses); when
    [grasp_pose_to_eef_pose_] is rigid too, so is the pose of every grasp
    message that the function appends. *)
Theorem generated_poses_are_rigid (self : GraspGenerator) (cuboid_pose : Affine3d)
  (depth width height : R) (axis : grasp_axis_t) (grasp_data : GraspData) :
  rigid cuboid_pose ->
  rigid (grasp_pose_to_eef_pose_ grasp_data) ->
  Forall rigid (cuboid_axis_grasp_poses cuboid_pose depth width height axis grasp_data) /\
  Forall (fun g => rigid (moveit_msgs.grasp_pose g))
    (fst (generateCuboidAxisGrasps self cuboid_pose depth width height axis grasp_data [])).
Proof.
  intros Hc He.
  assert (Hposes : Forall rigid
                     (cuboid_axis_grasp_poses cuboid_pose depth width height axis
                        grasp_data)).
  { apply cuboid_axis_grasp_poses_closure.
    - intros tr rot. apply rigid_aligned_pose. exact Hc.
    - exact rigid_turned_y.
    - intros p v H. exact H.
    - intros p x H. exact H.
    - exact rigid_flipped_z. }
  split; [exact Hposes |].
  unfold generateCuboidAxisGrasps.
  rewrite addGrasp_fold.
  - cbn [fst app]. apply Forall_grasp_messages.
    intros p m Hp. cbn [grasp_message moveit_msgs.grasp_pose].
    apply rigid_compose; [| exact He].
    rewrite Forall_forall in Hposes. exact (Hposes p Hp).
  - intros Hnil.
    pose proof (cuboid_axis_grasp_poses_length cuboid_pose depth width height axis
                  grasp_data) as Hlen.
    rewrite Hnil in Hlen. simpl in Hlen. lia.
Qed.

Lemma rigid_Identity : rigid Identity.
Proof. split; unfold transpose; eigen_cbv; eigen_eq. Qed.

(** The poses around the Z axis of the unrotated 4 x 6 x 8 cm box. *)
Lemma generated_poses_are_rigid_witness :
  rigid Identity /\
  Forall rigid (cuboid_axis_grasp_poses Identity (4 / 100) (6 / 100) (8 / 100) Z_AXIS
                  example_grasp_data).
Proof.
  split; [exact rigid_Identity |].
  apply (generated_poses_are_rigid fresh_generator Identity (4 / 100) (6 / 100) (8 / 100)
           Z_AXIS example_grasp_data rigid_Identity rigid_Identity).
Defined.

(** The grasps around an axis have their local Y axis along that axis of the
    box: every pose before the last block has it equal to the box's X axis,
    the opposite of its Y axis, or its Z axis, for [X_AXIS], [Y_AXIS] and
    [Z_AXIS]; the last block adds the poses with the opposite Y axis.  For a
    rigid box pose the approach direction (the local Z axis) of every
    generated pose is therefore perpendicular to the chosen axis. *)
Theorem grasp_y_axis_along_box_axis (cuboid_pose : Affine3d) (depth width height : R)
  (axis : grasp_axis_t) (grasp_data : GraspData) :
  Forall (fun p => col1 (linear p) = mvmul (linear cuboid_pose) (grasp_y_axis axis))
    (angle_poses cuboid_pose depth width height axis grasp_data) /\
  Forall (fun p => col1 (linear p) = mvmul (linear cuboid_pose) (grasp_y_axis axis) \/
                   col1 (linear p) = vneg (mvmul (linear cuboid_pose) (grasp_y_axis axis)))
    (cuboid_axis_grasp_poses cuboid_pose depth width height axis grasp_data) /\
  (rigid cuboid_pose ->
   Forall (fun p => dot (mvmul (linear p) UnitZ)
                        (mvmul (linear cuboid_pose) (grasp_y_axis axis)) = 0)
     (cuboid_axis_grasp_poses cuboid_pose depth width height axis grasp_data)).
Proof.
  assert (Hpre : Forall (fun p => col1 (linear p)
                                  = mvmul (linear cuboid_pose) (grasp_y_axis axis))
                   (angle_poses cuboid_pose depth width height axis grasp_data)).
  { apply Forall_forall. intros p Hin.
    apply (angle_poses_closure cuboid_pose depth width height axis grasp_data
             (fun p => col1 (linear p) = mvmul (linear cuboid_pose) (grasp_y_axis axis)));
      try exact Hin.
    - intros tr rot. apply col1_aligned_pose.
    - intros q angle Hq. rewrite col1_turned_y. exact Hq.
    - intros q v Hq. exact Hq.
    - intros q x Hq. exact Hq. }
  assert (Hall : Forall (fun p =>
                    col1 (linear p) = mvmul (linear cuboid_pose) (grasp_y_axis axis) \/
                    col1 (linear p)
                    = vneg (mvmul (linear cuboid_pose) (grasp_y_axis axis)))
                   (cuboid_axis_grasp_poses cuboid_pose depth width height axis
                      grasp_data)).
  { assert (Heq : cuboid_axis_grasp_poses cuboid_pose depth width height axis grasp_data
                  = add_bidirectional_grasps
                      (angle_poses cuboid_pose depth width height axis grasp_data))
      by reflexivity.
    rewrite Heq, add_bidirectional_grasps_eq. apply Forall_app. split.
    - eapply Forall_impl; [| exact Hpre]. intros p Hp. left. exact Hp.
    - apply Forall_map. eapply Forall_impl; [| exact Hpre].
      intros p Hp. right. rewrite col1_flipped_z, Hp. reflexivity. }
  split; [exact Hpre |]. split; [exact Hall |].
  intros Hc.
  assert (Hrigid : Forall rigid
                     (cuboid_axis_grasp_poses cuboid_pose depth width height axis
                        grasp_data)).
  { apply cuboid_axis_grasp_poses_closure.
    - intros tr rot. apply rigid_aligned_pose. exact Hc.
    - exact rigid_turned_y.
    - intros p v H. exact H.
    - intros p x H. exact H.
    - exact rigid_flipped_z. }
  rewrite Forall_forall in *. intros p Hin.
  destruct (rotation_columns (linear p) (Hrigid p Hin)) as (_ & _ & _ & _ & _ & H12).
  assert (Hz : mvmul (linear p) UnitZ = col2 (linear p)).
  { destruct p as [l t]. destruct_mat l. eigen_cbv. eigen_eq. }
  rewrite Hz.
  pose proof (Hall p Hin) as Hy. revert H12 Hy.
  generalize (mvmul (linear cuboid_pose) (grasp_y_axis axis)) (col1 (linear p))
    (col2 (linear p)).
  intros [vx' vy' vz'] [x y z] [x' y' z']. eigen_cbv.
  intros H12 [Hy | Hy]; injection Hy as -> -> ->; nra.
Qed.

(* ================================================================== *)
(** ** What [graspIntersectionHelper] decides *)

Lemma fdiv_between (n den : R) :
  xbetween 0 1 (fdiv n den) <-> den <> 0 /\ 0 <= n / den <= 1.
Proof.
  unfold fdiv. destruct (Req_dec_T den 0) as [Hz | Hnz].
  - split.
    + destruct (Rlt_dec 0 n); [| destruct (Rlt_dec n 0)]; simpl; contradiction.
    + intros [H _]. contradiction.
  - simpl. tauto.
Qed.

(** One face test of [graspIntersectionHelper], for the face at [c] along
    the coordinate [n], with [u] and [v] the two other coordinates. *)
Lemma face_test_iff (c an bn au av bu bv ea eb : R) :
  fst (intersectionHelper (fdiv (c - an) (bn - an)) au av bu bv ea eb) = true <->
  an <> bn /\
  exists t : R, 0 <= t <= 1 /\ an + t * (bn - an) = c /\
    - ea / 2 <= au + t * (bu - au) <= ea / 2 /\
    - eb / 2 <= av + t * (bv - av) <= eb / 2.
Proof.
  rewrite intersectionHelper_true_iff, fdiv_between. split.
  - intros [[Hden Ht] Hin].
    unfold fdiv in Hin. destruct (Req_dec_T (bn - an) 0) as [Hz | _]; [contradiction |].
    simpl in Hin.
    split; [lra |].
    exists ((c - an) / (bn - an)). split; [exact Ht |]. split; [field; exact Hden |].
    exact Hin.
  - intros [Hne (t & Ht & Hc & Hu & Hv)].
    assert (Hden : bn - an <> 0) by lra.
    assert (Heq : (c - an) / (bn - an) = t).
    { rewrite <- Hc. field. exact Hden. }
    split; [split; [exact Hden | rewrite Heq; exact Ht] |].
    unfold fdiv. destruct (Req_dec_T (bn - an) 0) as [Hz | _]; [contradiction |].
    simpl. rewrite Heq. split; assumption.
Qed.

(** The six face tests of [graspIntersectionHelper] on the segment from [a]
    to [b] in the cuboid frame. *)
Lemma graspIntersectionHelper_faces (cuboid_pose : Affine3d) (depth width height : R)
  (grasp_pose : Affine3d) (grasp_data : GraspData) :
  graspIntersectionHelper cuboid_pose depth width height grasp_pose grasp_data
  = face_tests (fst (reach_in_segment cuboid_pose grasp_pose grasp_data))
               (snd (reach_in_segment cuboid_pose grasp_pose grasp_data))
               depth width height.
Proof.
  unfold reach_in_segment, graspIntersectionHelper, face_tests. cbv zeta. cbn [fst snd].
  repeat match goal with
         | |- (if ?b then true else _) = _ => destruct b; [reflexivity |]
         end.
  reflexivity.
Qed.

Lemma face_tests_iff (a b : Vector3d) (depth width height : R) :
  face_tests a b depth width height = true <-> crosses_face a b depth width height.
Proof.
  destruct a as [ax ay az]. destruct b as [bx by' bz].
  unfold face_tests. cbn [vx vy vz].
  rewrite !orb_true_iff, !face_test_iff.
  unfold crosses_face, on_crossed_face, segment_point. eigen_cbv.
  split.
  - intros [[[[[H | H] | H] | H] | H] | H];
      destruct H as [Hne (t & Ht & Hc & Hu & Hv)];
      exists t; (split; [exact Ht |]).
    + left. repeat split; first [lra | left; lra | right; lra].
    + left. repeat split; first [lra | left; lra | right; lra].
    + right. left. repeat split; first [lra | left; lra | right; lra].
    + right. left. repeat split; first [lra | left; lra | right; lra].
    + right. right. repeat split; first [lra | left; lra | right; lra].
    + right. right. repeat split; first [lra | left; lra | right; lra].
  - intros (t & Ht & [H | [H | H]]);
      destruct H as (Hne & [Hc | Hc] & Hu & Hv).
    + left. left. left. left. left. split; [exact Hne |]. exists t. repeat split; lra.
    + left. left. left. left. right. split; [exact Hne |]. exists t. repeat split; lra.
    + left. left. left. right. split; [exact Hne |]. exists t. repeat split; lra.
    + left. left. right. split; [exact Hne |]. exists t. repeat split; lra.
    + left. right. split; [exact Hne |]. exists t. repeat split; lra.
    + right. split; [exact Hne |]. exists t. repeat split; lra.
Qed.

(** [graspIntersectionHelper] answers true exactly when the segment from the
    grasp point to the fingertip, expressed in the cuboid frame, meets one of
    the six faces of the box at a point of that face, the segment not being
    parallel to the face. *)
Theorem graspIntersectionHelper_crosses_face (cuboid_pose : Affine3d)
  (depth width height : R) (grasp_pose : Affine3d) (grasp_data : GraspData) :
  graspIntersectionHelper cuboid_pose depth width height grasp_pose grasp_data = true <->
  crosses_face (fst (reach_in_segment cuboid_pose grasp_pose grasp_data))
               (snd (reach_in_segment cuboid_pose grasp_pose grasp_data))
               depth width height.
Proof. rewrite graspIntersectionHelper_faces. apply face_tests_iff. Qed.

(** Along one coordinate, a segment that starts strictly between [-B] and
    [B] stays between them up to an exit parameter [e]: [e = 1] when it ends
    between them, and otherwise [e < 1] and the segment is at [B] or [-B]
    at [e]. *)
Lemma axis_exit (a b B : R) :
  - B < a < B ->
  exists e : R,
    0 < e <= 1 /\
    (forall t, 0 <= t <= e -> - B <= a + t * (b - a) <= B) /\
    ((- B <= b <= B /\ e = 1) \/
     (a <> b /\ e < 1 /\ (a + e * (b - a) = B \/ a + e * (b - a) = - B))).
Proof.
  intros Ha.
  destruct (Rlt_dec B b) as [Hup | Hup].
  - assert (Hden : 0 < b - a) by lra.
    exists ((B - a) / (b - a)).
    assert (He : (B - a) / (b - a) * (b - a) = B - a) by (field; lra).
    assert (Hinv : 0 < / (b - a)) by (apply Rinv_0_lt_compat; exact Hden).
    assert (Hpos : 0 < (B - a) / (b - a)).
    { unfold Rdiv. apply Rmult_lt_0_compat; lra. }
    assert (Hlt : (B - a) / (b - a) < 1).
    { apply (Rmult_lt_reg_r (b - a)); [exact Hden |]. lra. }
    split; [lra |]. split.
    + intros t Ht. split; nra.
    + right. split; [lra |]. split; [exact Hlt |]. left. lra.
  - destruct (Rlt_dec b (- B)) as [Hdown | Hdown].
    + assert (Hden : 0 < a - b) by lra.
      exists ((a + B) / (a - b)).
      assert (He : (a + B) / (a - b) * (a - b) = a + B) by (field; lra).
      assert (Hinv : 0 < / (a - b)) by (apply Rinv_0_lt_compat; exact Hden).
      assert (Hpos : 0 < (a + B) / (a - b)).
      { unfold Rdiv. apply Rmult_lt_0_compat; lra. }
      assert (Hlt : (a + B) / (a - b) < 1).
      { apply (Rmult_lt_reg_r (a - b)); [exact Hden |]. lra. }
      split; [lra |]. split.
      * intros t Ht. split; nra.
      * right. split; [lra |]. split; [exact Hlt |]. right. lra.
    + exists 1. split; [lra |]. split.
      * intros t Ht. split; nra.
      * left. lra.
Qed.

Ltac cross_at Hs Hw1 Hw2 e :=
  let H1 := fresh in let Hne := fresh in let Hf := fresh in
  let G1 := fresh in let G2 := fresh in
  destruct Hs as [[_ H1] | (Hne & _ & [Hf | Hf])]; [lra | |];
  (assert (G1 := Hw1 e); assert (G2 := Hw2 e);
   split; [exact Hne |]; split; [first [left; lra | right; lra] |];
   lapply G1; [clear G1; intro G1 | lra]; lapply G2; [clear G2; intro G2 | lra];
   lra).

Lemma inside_outside_crosses (m b : Vector3d) (depth width height : R) :
  strictly_in_box depth width height m ->
  ~ in_box depth width height b ->
  crosses_face m b depth width height.
Proof.
  destruct m as [mx my mz]. destruct b as [bx by' bz].
  unfold strictly_in_box, in_box, crosses_face, on_crossed_face, segment_point.
  eigen_cbv. intros (Hx & Hy & Hz) Hout.
  destruct (axis_exit mx bx (depth / 2)) as (ex & Hex & Hwx & Hsx); [lra |].
  destruct (axis_exit my by' (width / 2)) as (ey & Hey & Hwy & Hsy); [lra |].
  destruct (axis_exit mz bz (height / 2)) as (ez & Hez & Hwz & Hsz); [lra |].
  assert (Hone : ex < 1 \/ ey < 1 \/ ez < 1).
  { destruct Hsx as [[Hbx _] | (_ & H & _)]; [| lra].
    destruct Hsy as [[Hby _] | (_ & H & _)]; [| lra].
    destruct Hsz as [[Hbz _] | (_ & H & _)]; [| lra].
    exfalso. apply Hout. lra. }
  destruct (Rle_dec ex ey) as [Hxy | Hxy], (Rle_dec ex ez) as [Hxz | Hxz],
    (Rle_dec ey ez) as [Hyz | Hyz]; try lra.
  - exists ex. split; [lra |]. right. right. cross_at Hsx Hwy Hwz ex.
  - exists ex. split; [lra |]. right. right. cross_at Hsx Hwy Hwz ex.
  - exists ez. split; [lra |]. left. cross_at Hsz Hwx Hwy ez.
  - exists ey. split; [lra |]. right. left. cross_at Hsy Hwx Hwz ey.
  - exists ey. split; [lra |]. right. left. cross_at Hsy Hwx Hwz ey.
  - exists ez. split; [lra |]. left. cross_at Hsz Hwx Hwy ez.
Qed.

(** A face crossed by a part of a segment is crossed by the segment. *)
Lemma crosses_face_sub (a b : Vector3d) (s s' : R) (depth width height : R) :
  0 <= s <= 1 -> 0 <= s' <= 1 ->
  crosses_face (segment_point a b s) (segment_point a b s') depth width height ->
  crosses_face a b depth width height.
Proof.
  destruct a as [ax ay az]. destruct b as [bx by' bz].
  unfold crosses_face, on_crossed_face, segment_point. eigen_cbv.
  intros Hs Hs' (t & Ht & H).
  exists (s + t * (s' - s)). split; [split; nra |].
  replace (ax + (s + t * (s' - s)) * (bx - ax))
    with (ax + s * (bx - ax) + t * (ax + s' * (bx - ax) - (ax + s * (bx - ax))))
    by ring.
  replace (ay + (s + t * (s' - s)) * (by' - ay))
    with (ay + s * (by' - ay) + t * (ay + s' * (by' - ay) - (ay + s * (by' - ay))))
    by ring.
  replace (az + (s + t * (s' - s)) * (bz - az))
    with (az + s * (bz - az) + t * (az + s' * (bz - az) - (az + s * (bz - az))))
    by ring.
  destruct H as [(Hne & H) | [(Hne & H) | (Hne & H)]].
  - left. split; [| exact H]. intros Heq. apply Hne. rewrite Heq. ring.
  - right. left. split; [| exact H]. intros Heq. apply Hne. rewrite Heq. ring.
  - right. right. split; [| exact H]. intros Heq. apply Hne. rewrite Heq. ring.
Qed.

Lemma segment_point_0 (a b : Vector3d) : segment_point a b 0 = a.
Proof. destruct a, b. unfold segment_point. eigen_cbv. eigen_eq. Qed.

Lemma segment_point_1 (a b : Vector3d) : segment_point a b 1 = b.
Proof. destruct a, b. unfold segment_point. eigen_cbv. eigen_eq. Qed.

(** A segment with a point strictly inside the box and an end outside it
    crosses a face. *)
Lemma through_box_crosses (a b : Vector3d) (t0 : R) (depth width height : R) :
  0 <= t0 <= 1 ->
  strictly_in_box depth width height (segment_point a b t0) ->
  ~ in_box depth width height a \/ ~ in_box depth width height b ->
  crosses_face a b depth width height.
Proof.
  intros Ht0 Hin [Hout | Hout].
  - apply (crosses_face_sub a b t0 0); [exact Ht0 | lra |].
    rewrite segment_point_0. apply inside_outside_crosses; assumption.
  - apply (crosses_face_sub a b t0 1); [exact Ht0 | lra |].
    rewrite segment_point_1. apply inside_outside_crosses; assumption.
Qed.

Lemma convex_strict (lo hi a b t : R) :
  lo < a < hi -> lo < b < hi -> 0 <= t <= 1 -> lo < a + t * (b - a) < hi.
Proof.
  intros Ha Hb Ht.
  assert (H1 : 0 <= (1 - t) * (a - lo)) by (apply Rmult_le_pos; lra).
  assert (H2 : 0 <= t * (b - lo)) by (apply Rmult_le_pos; lra).
  assert (H3 : 0 <= (1 - t) * (hi - a)) by (apply Rmult_le_pos; lra).
  assert (H4 : 0 <= t * (hi - b)) by (apply Rmult_le_pos; lra).
  destruct (Rle_dec t (1 / 2)) as [Hh | Hh].
  - assert (H5 : (1 / 2) * (a - lo) <= (1 - t) * (a - lo))
      by (apply Rmult_le_compat_r; lra).
    assert (H6 : (1 / 2) * (hi - a) <= (1 - t) * (hi - a))
      by (apply Rmult_le_compat_r; lra).
    split; lra.
  - assert (H5 : (1 / 2) * (b - lo) <= t * (b - lo))
      by (apply Rmult_le_compat_r; lra).
    assert (H6 : (1 / 2) * (hi - b) <= t * (hi - b))
      by (apply Rmult_le_compat_r; lra).
    split; lra.
Qed.

(** A segment between two points strictly inside the box crosses no face. *)
Lemma inside_never_crosses (a b : Vector3d) (depth width height : R) :
  strictly_in_box depth width height a ->
  strictly_in_box depth width height b ->
  ~ crosses_face a b depth width height.
Proof.
  destruct a as [ax ay az]. destruct b as [bx by' bz].
  unfold strictly_in_box, crosses_face, on_crossed_face, segment_point. eigen_cbv.
  intros (Hax & Hay & Haz) (Hbx & Hby & Hbz) (t & Ht & H).
  pose proof (convex_strict _ _ _ _ t Hax Hbx Ht).
  pose proof (convex_strict _ _ _ _ t Hay Hby Ht).
  pose proof (convex_strict _ _ _ _ t Haz Hbz Ht).
  destruct H as [(_ & [H | H] & _) | [(_ & [H | H] & _) | (_ & [H | H] & _)]]; lra.
Qed.

(** A segment of length zero crosses no face. *)
Lemma point_never_crosses (a : Vector3d) (depth width height : R) :
  ~ crosses_face a a depth width height.
Proof.
  unfold crosses_face, on_crossed_face.
  intros (t & _ & [(H & _) | [(H & _) | (H & _)]]); apply H; reflexivity.
Qed.

Lemma not_true_false (b : bool) : ~ b = true -> b = false.
Proof. destruct b; [intros H; exfalso; apply H; reflexivity | reflexivity]. Qed.

(** [graspIntersectionHelper] misses no grasp that reaches through the box:
    when the segment from the grasp point to the fingertip, in the cuboid
    frame, has a point strictly inside the box and one of its two ends
    outside the closed box, the answer is true. *)
Theorem graspIntersectionHelper_through_box (cuboid_pose : Affine3d)
  (depth width height : R) (grasp_pose : Affine3d) (grasp_data : GraspData) (t0 : R) :
  let a := fst (reach_in_segment cuboid_pose grasp_pose grasp_data) in
  let b := snd (reach_in_segment cuboid_pose grasp_pose grasp_data) in
  0 <= t0 <= 1 ->
  strictly_in_box depth width height (segment_point a b t0) ->
  ~ in_box depth width height a \/ ~ in_box depth width height b ->
  graspIntersectionHelper cuboid_pose depth width height grasp_pose grasp_data = true.
Proof.
  intros a b Ht0 Hin Hout.
  rewrite graspIntersectionHelper_faces. apply face_tests_iff.
  apply (through_box_crosses _ _ t0); assumption.
Qed.

Lemma example_base_segment :
  reach_in_segment Identity example_base example_grasp_data
  = (vec3 (- (41 / 2000)) (- (15 / 1000)) 0, vec3 (119 / 2000) (- (15 / 1000)) 0).
Proof.
  unfold reach_in_segment. rewrite inverse_Identity, !transform_Identity.
  unfold example_base, example_grasp_data, z_axis_frame.
  cbn [finger_to_palm_depth_ translation]. eigen_cbv. f_equal; eigen_field.
Qed.

Lemma graspIntersectionHelper_through_box_witness :
  0 <= 1 / 2 <= 1 /\
  graspIntersectionHelper Identity (4 / 100) (6 / 100) (8 / 100) example_base
    example_grasp_data = true.
Proof.
  split; [lra |].
  apply (graspIntersectionHelper_through_box Identity (4 / 100) (6 / 100) (8 / 100)
           example_base example_grasp_data (1 / 2)).
  - lra.
  - rewrite example_base_segment. cbn [fst snd].
    unfold strictly_in_box, segment_point. eigen_cbv. lra.
  - left. rewrite example_base_segment. cbn [fst snd]. unfold in_box. eigen_cbv. lra.
Defined.

(** [graspIntersectionHelper] answers false when the grasp point and the
    fingertip are both strictly inside the box: the fingers then reach no
    face. *)
Theorem graspIntersectionHelper_inside_box (cuboid_pose : Affine3d)
  (depth width height : R) (grasp_pose : Affine3d) (grasp_data : GraspData) :
  strictly_in_box depth width height
    (fst (reach_in_segment cuboid_pose grasp_pose grasp_data)) ->
  strictly_in_box depth width height
    (snd (reach_in_segment cuboid_pose grasp_pose grasp_data)) ->
  graspIntersectionHelper cuboid_pose depth width height grasp_pose grasp_data = false.
Proof.
  intros Ha Hb. apply not_true_false. intros H.
  rewrite graspIntersectionHelper_faces in H. apply face_tests_iff in H.
  exact (inside_never_crosses _ _ _ _ _ Ha Hb H).
Qed.

Lemma graspIntersectionHelper_inside_box_witness :
  strictly_in_box 1 1 1 (fst (reach_in_segment Identity Identity example_grasp_data)) /\
  strictly_in_box 1 1 1 (snd (reach_in_segment Identity Identity example_grasp_data)) /\
  graspIntersectionHelper Identity 1 1 1 Identity example_grasp_data = false.
Proof.
  assert (Hseg : reach_in_segment Identity Identity example_grasp_data
                 = (Zero, vec3 0 0 (8 / 100))).
  { unfold reach_in_segment. rewrite inverse_Identity, !transform_Identity.
    unfold example_grasp_data. cbn [finger_to_palm_depth_]. eigen_cbv.
    f_equal; eigen_field. }
  assert (Ha : strictly_in_box 1 1 1
                 (fst (reach_in_segment Identity Identity example_grasp_data))).
  { rewrite Hseg. unfold strictly_in_box. eigen_cbv. cbn [fst]. cbn [vx vy vz]. lra. }
  assert (Hb : strictly_in_box 1 1 1
                 (snd (reach_in_segment Identity Identity example_grasp_data))).
  { rewrite Hseg. unfold strictly_in_box. cbn [snd vx vy vz]. lra. }
  split; [exact Ha |]. split; [exact Hb |].
  exact (graspIntersectionHelper_inside_box Identity 1 1 1 Identity example_grasp_data
           Ha Hb).
Defined.

(** With a finger-to-palm depth of zero the segment has no length, each of
    the six face tests divides by zero, and [graspIntersectionHelper]
    answers false wherever the grasp point is, on a face included. *)
Theorem graspIntersectionHelper_zero_reach (cuboid_pose : Affine3d)
  (depth width height : R) (grasp_pose : Affine3d) (grasp_data : GraspData) :
  finger_to_palm_depth_ grasp_data = 0 ->
  graspIntersectionHelper cuboid_pose depth width height grasp_pose grasp_data = false.
Proof.
  intros H0. apply not_true_false. intros H.
  rewrite graspIntersectionHelper_faces in H. apply face_tests_iff in H.
  assert (Heq : snd (reach_in_segment cuboid_pose grasp_pose grasp_data)
                = fst (reach_in_segment cuboid_pose grasp_pose grasp_data)).
  { unfold reach_in_segment. cbn [fst snd]. rewrite H0. f_equal.
    destruct (translation grasp_pose). eigen_cbv. eigen_eq. }
  rewrite Heq in H. exact (point_never_crosses _ _ _ _ H).
Qed.

(** [graspIntersectionHelper] depends on the grasp pose and the cuboid pose
    only through the grasp pose expressed in the cuboid frame. *)
Theorem graspIntersectionHelper_relative_pose (cuboid_pose : Affine3d)
  (depth width height : R) (grasp_pose : Affine3d) (grasp_data : GraspData) :
  graspIntersectionHelper cuboid_pose depth width height grasp_pose grasp_data
  = graspIntersectionHelper Identity depth width height
      (compose (inverse cuboid_pose) grasp_pose) grasp_data.
Proof.
  assert (Hseg : reach_in_segment Identity (compose (inverse cuboid_pose) grasp_pose)
                   grasp_data
                 = reach_in_segment cuboid_pose grasp_pose grasp_data).
  { unfold reach_in_segment. rewrite inverse_Identity, !transform_Identity.
    generalize (inverse cuboid_pose). intros [[[a b c] [d e f] [g h i]] [x y z]].
    destruct grasp_pose as [[[a' b' c'] [d' e' f'] [g' h' i']] [x' y' z']].
    eigen_cbv. f_equal; eigen_eq. }
  rewrite !graspIntersectionHelper_faces, Hseg. reflexivity.
Qed.

Lemma graspIntersectionHelper_zero_reach_witness :
  finger_to_palm_depth_ flat_grasp_data = 0 /\
  graspIntersectionHelper Identity (4 / 100) (6 / 100) (8 / 100)
    (affine z_axis_frame (vec3 (- (2 / 100)) 0 0)) flat_grasp_data = false.
Proof.
  split; [reflexivity |].
  apply graspIntersectionHelper_zero_reach. reflexivity.
Defined.

(* ================================================================== *)
(** ** The bounding box of a mesh *)

Lemma getBoundingBoxFromMesh_eq (eigenvectors : Matrix3d -> Matrix3d)
  (mesh_msg : shape_msgs.Mesh) :
  getBoundingBoxFromMesh eigenvectors mesh_msg
  = let W := world_to_mesh_transform eigenvectors mesh_msg in
    let min := fst (mesh_bounds eigenvectors mesh_msg) in
    let max := snd (mesh_bounds eigenvectors mesh_msg) in
    (true,
     (set_translation W
        (transform W (vec3 ((vx min + vx max) / 2) ((vy min + vy max) / 2)
                           ((vz min + vz max) / 2))),
      vx max - vx min, vy max - vy min, vz max - vz min)).
Proof.
  unfold getBoundingBoxFromMesh, mesh_bounds, world_to_mesh_transform, right_handed,
    mesh_centroid, inertia_axis_aligned, mesh_sums. cbv zeta.
  destruct (fold_left _ _ _) as [min max]. reflexivity.
Qed.

(** *** The bounds loop *)

Section Bounds.

Variable f : Vector3d -> Vector3d.

Lemma update_bounds_step (bounds : Vector3d * Vector3d) (p : Vector3d) :
  le3 (fst (update_bounds bounds p)) (fst bounds) /\
  le3 (snd bounds) (snd (update_bounds bounds p)) /\
  le3 (fst (update_bounds bounds p)) p /\
  le3 p (snd (update_bounds bounds p)).
Proof.
  destruct bounds as [[a b c] [d e g]]. destruct p as [x y z].
  unfold update_bounds, le3. cbn [fst snd vx vy vz].
  repeat match goal with
         | |- context [Rltb ?u ?v] =>
             let H := fresh in
             destruct (Rltb u v) eqn:H;
             [apply Rltb_true in H | apply Rltb_false in H]
         end;
  repeat split; lra.
Qed.

Lemma bounds_monotone (l : list Vector3d) (bounds : Vector3d * Vector3d) :
  let r := fold_left (fun b p => update_bounds b (f p)) l bounds in
  le3 (fst r) (fst bounds) /\ le3 (snd bounds) (snd r).
Proof.
  revert bounds. induction l as [| p l IH]; intros bounds; cbn [fold_left].
  - unfold le3. repeat split; lra.
  - specialize (IH (update_bounds bounds (f p))). cbv zeta in IH.
    destruct IH as [IH1 IH2].
    destruct (update_bounds_step bounds (f p)) as (S1 & S2 & _).
    unfold le3 in *. repeat split; lra.
Qed.

Lemma bounds_contain (l : list Vector3d) (bounds : Vector3d * Vector3d) (v : Vector3d) :
  In v l ->
  let r := fold_left (fun b p => update_bounds b (f p)) l bounds in
  le3 (fst r) (f v) /\ le3 (f v) (snd r).
Proof.
  revert bounds. induction l as [| p l IH]; intros bounds Hin; [destruct Hin |].
  cbn [fold_left]. destruct Hin as [-> | Hin].
  - pose proof (bounds_monotone l (update_bounds bounds (f v))) as [M1 M2].
    destruct (update_bounds_step bounds (f v)) as (_ & _ & S3 & S4).
    unfold le3 in *. repeat split; lra.
  - apply IH. exact Hin.
Qed.

End Bounds.

(** *** The frame of the box *)

Lemma mvmul_minverse_l (m : Matrix3d) (c : Vector3d) :
  determinant m <> 0 -> mvmul (minverse m) (mvmul m c) = c.
Proof.
  destruct_mat m. destruct c as [x y z]. eigen_cbv. intros Hd.
  f_equal; field; exact Hd.
Qed.

Lemma determinant_right_handed (es : Matrix3d) :
  determinant (right_handed es) = determinant es \/
  determinant (right_handed es) = - determinant es.
Proof.
  destruct_mat es. unfold right_handed. cbv zeta.
  destruct (negb _); [right | left]; eigen_cbv; ring.
Qed.

Lemma determinant_right_handed_nonzero (es : Matrix3d) :
  determinant es <> 0 -> determinant (right_handed es) <> 0.
Proof. intros H. destruct (determinant_right_handed es) as [-> | ->]; lra. Qed.

(** A point in the frame of the box: its coordinates in
    [world_to_mesh_transform], from the centre of the bounds. *)
Lemma in_box_frame (W : Affine3d) (c v : Vector3d) :
  determinant (linear W) <> 0 ->
  transform (inverse (set_translation W (transform W c))) v
  = vsub (transform (inverse W) v) c.
Proof.
  intros Hd. destruct W as [L t].
  pose proof (mvmul_minverse_l L c Hd) as Hc.
  cbn [linear] in Hd.
  unfold transform, inverse, set_translation. cbv zeta. cbn [linear translation].
  revert Hc. generalize (minverse L). intros Li Hc.
  destruct_mat Li. destruct_mat L. destruct c as [cx cy cz]. destruct t as [tx ty tz].
  destruct v as [x y z]. revert Hc. eigen_cbv. intros Hc.
  injection Hc as H1 H2 H3.
  f_equal; lra.
Qed.

(** The bounding box contains the mesh: expressed in the returned
    [cuboid_pose], every vertex lies within half the returned depth, width
    and height of the origin.  The eigenvectors must be linearly
    independent, for the frame to have an inverse. *)
Theorem getBoundingBoxFromMesh_contains_vertices (eigenvectors : Matrix3d -> Matrix3d)
  (mesh_msg : shape_msgs.Mesh) (v : Vector3d) :
  determinant (eigenvectors (inertia_axis_aligned mesh_msg)) <> 0 ->
  In v (shape_msgs.vertices mesh_msg) ->
  let r := getBoundingBoxFromMesh eigenvectors mesh_msg in
  in_box (box_depth r) (box_width r) (box_height r)
    (transform (inverse (box_pose r)) v).
Proof.
  intros Hd Hin r. unfold r. rewrite getBoundingBoxFromMesh_eq. cbv zeta.
  unfold box_depth, box_width, box_height, box_pose. cbn [fst snd].
  rewrite in_box_frame
    by (apply determinant_right_handed_nonzero; exact Hd).
  pose proof (bounds_contain
                (transform (inverse (world_to_mesh_transform eigenvectors mesh_msg)))
                (shape_msgs.vertices mesh_msg)
                (vec3 DBL_MAX DBL_MAX DBL_MAX, vec3 DBL_MIN DBL_MIN DBL_MIN) v Hin)
    as [Hlo Hhi].
  cbv zeta in Hlo, Hhi. fold (mesh_bounds eigenvectors mesh_msg) in Hlo, Hhi.
  destruct (mesh_bounds eigenvectors mesh_msg) as [min max].
  cbn [fst snd] in *.
  destruct (transform _ v) as [x y z].
  destruct min as [a b c]. destruct max as [d e g].
  unfold le3, in_box in *. cbn [vsub vx vy vz] in *. lra.
Qed.

(** *** The centroid is the origin of the frame *)

Lemma accumulate_centroid (l : list Vector3d) (m : Moments) :
  m_centroid (fold_left accumulate l m) = vadd (m_centroid m) (vsum l).
Proof.
  revert m. induction l as [| p l IH]; intros m; cbn [fold_left vsum fold_right].
  - destruct (m_centroid m). eigen_cbv. eigen_eq.
  - rewrite IH. cbn [accumulate m_centroid]. fold (vsum l).
    destruct (m_centroid m), p, (vsum l). eigen_cbv. eigen_eq.
Qed.

Lemma vsum_transform (T : Affine3d) (l : list Vector3d) :
  vsum (map (transform T) l)
  = vadd (mvmul (linear T) (vsum l)) (vscale (INR (length l)) (translation T)).
Proof.
  induction l as [| p l IH].
  - cbn [map vsum fold_right length INR]. destruct T as [L t]. destruct_mat L.
    destruct t. eigen_cbv. eigen_eq.
  - cbn [map vsum fold_right]. fold (vsum l). fold (vsum (map (transform T) l)).
    rewrite IH. cbn [length]. rewrite S_INR.
    destruct T as [L t]. destruct_mat L. destruct t, p, (vsum l).
    eigen_cbv. eigen_eq.
Qed.

(** The vertices, expressed in [world_to_mesh_transform], sum to zero. *)
Lemma vertices_centred (eigenvectors : Matrix3d -> Matrix3d) (mesh_msg : shape_msgs.Mesh) :
  shape_msgs.vertices mesh_msg <> [] ->
  vsum (map (transform (inverse (world_to_mesh_transform eigenvectors mesh_msg)))
            (shape_msgs.vertices mesh_msg)) = Zero.
Proof.
  intros Hne. rewrite vsum_transform.
  unfold world_to_mesh_transform, inverse. cbv zeta. cbn [linear translation].
  generalize (minverse (right_handed (eigenvectors (inertia_axis_aligned mesh_msg)))).
  intros Li. unfold mesh_centroid, mesh_sums. cbv zeta.
  rewrite accumulate_centroid. cbn [m_centroid].
  rewrite <- INR_IZR_INZ.
  assert (Hn : INR (length (shape_msgs.vertices mesh_msg)) <> 0).
  { apply not_0_INR. destruct (shape_msgs.vertices mesh_msg); [congruence | discriminate]. }
  revert Hn. generalize (INR (length (shape_msgs.vertices mesh_msg))).
  generalize (vsum (shape_msgs.vertices mesh_msg)).
  intros [sx sy sz] n Hn. destruct_mat Li. eigen_cbv.
  f_equal; field; exact Hn.
Qed.

Lemma vsum_lower_bound (g : Vector3d -> Vector3d) (l : list Vector3d) (m : Vector3d) :
  (forall v, In v l -> le3 m (g v)) ->
  le3 (vscale (INR (length l)) m) (vsum (map g l)).
Proof.
  induction l as [| p l IH]; intros H.
  - cbn [map vsum fold_right length INR]. destruct m. unfold le3. eigen_cbv.
    repeat split; lra.
  - cbn [map vsum fold_right]. fold (vsum (map g l)). cbn [length]. rewrite S_INR.
    assert (Hp := H p (or_introl eq_refl)).
    assert (Hl := IH (fun v Hv => H v (or_intror Hv))).
    destruct m, (g p), (vsum (map g l)). unfold le3 in *. revert Hp Hl. eigen_cbv.
    intros Hp Hl. repeat split; lra.
Qed.

Lemma DBL_MIN_pos : 0 < DBL_MIN.
Proof. unfold DBL_MIN. apply Rinv_0_lt_compat. apply IZR_lt. lia. Qed.

(** After the bounds loop on a mesh with a vertex, [min] is at most zero and
    [max] at least [DBL_MIN] in each coordinate. *)
Lemma mesh_bounds_around_origin (eigenvectors : Matrix3d -> Matrix3d)
  (mesh_msg : shape_msgs.Mesh) :
  shape_msgs.vertices mesh_msg <> [] ->
  le3 (fst (mesh_bounds eigenvectors mesh_msg)) Zero /\
  le3 (vec3 DBL_MIN DBL_MIN DBL_MIN) (snd (mesh_bounds eigenvectors mesh_msg)).
Proof.
  intros Hne. split.
  - pose proof (vsum_lower_bound
                  (transform (inverse (world_to_mesh_transform eigenvectors mesh_msg)))
                  (shape_msgs.vertices mesh_msg)
                  (fst (mesh_bounds eigenvectors mesh_msg))) as Hlow.
    rewrite vertices_centred in Hlow by exact Hne.
    assert (Hn : 0 < INR (length (shape_msgs.vertices mesh_msg))).
    { apply lt_0_INR. destruct (shape_msgs.vertices mesh_msg); [congruence | cbn; lia]. }
    assert (H : le3 (vscale (INR (length (shape_msgs.vertices mesh_msg)))
                       (fst (mesh_bounds eigenvectors mesh_msg))) Zero).
    { apply Hlow. intros v Hv. unfold mesh_bounds.
      apply (bounds_contain _ _ _ v Hv). }
    revert H Hn. generalize (INR (length (shape_msgs.vertices mesh_msg))).
    destruct (fst (mesh_bounds eigenvectors mesh_msg)) as [a b c].
    unfold le3. eigen_cbv. intros n (H1 & H2 & H3) Hn. repeat split; nra.
  - unfold mesh_bounds.
    apply (bounds_monotone _ (shape_msgs.vertices mesh_msg)
             (vec3 DBL_MAX DBL_MAX DBL_MAX, vec3 DBL_MIN DBL_MIN DBL_MIN)).
Qed.

(** The extents tell whether the mesh had a vertex.  With a vertex, each
    vertex lies between [min] and [max] once the bounds loop has seen it, so
    that depth, width and height are not negative; without one they are the
    negative difference of the initial bounds.  This rests only on the
    comparisons of the bounds loop, not on where the centroid lies.  The
    eigenvectors are linearly independent, as the inverse of the frame
    requires. *)
Theorem getBoundingBoxFromMesh_extents_nonnegative (eigenvectors : Matrix3d -> Matrix3d)
  (mesh_msg : shape_msgs.Mesh) :
  determinant (eigenvectors (inertia_axis_aligned mesh_msg)) <> 0 ->
  let r := getBoundingBoxFromMesh eigenvectors mesh_msg in
  shape_msgs.vertices mesh_msg <> [] <->
  0 <= box_depth r /\ 0 <= box_width r /\ 0 <= box_height r.
Proof.
  intros _ r. split.
  - intros Hne. unfold r. rewrite getBoundingBoxFromMesh_eq. cbv zeta.
    unfold box_depth, box_width, box_height. cbn [fst snd].
    destruct (shape_msgs.vertices mesh_msg) as [| v rest] eqn:Hv; [congruence |].
    pose proof (bounds_contain
                  (transform (inverse (world_to_mesh_transform eigenvectors mesh_msg)))
                  (shape_msgs.vertices mesh_msg)
                  (vec3 DBL_MAX DBL_MAX DBL_MAX, vec3 DBL_MIN DBL_MIN DBL_MIN) v)
      as Hin.
    rewrite Hv in Hin at 1. specialize (Hin (or_introl eq_refl)).
    cbv zeta in Hin. fold (mesh_bounds eigenvectors mesh_msg) in Hin.
    destruct Hin as [Hlo Hhi].
    destruct (mesh_bounds eigenvectors mesh_msg) as [[a b c] [d e g]].
    destruct (transform _ v) as [x y z].
    unfold le3 in *. cbn [fst snd vx vy vz] in *. lra.
  - intros (Hd & _) Hv.
    destruct (getBoundingBoxFromMesh_empty_extents eigenvectors mesh_msg Hv)
      as (_ & _ & He).
    pose proof DBL_MIN_lt_DBL_MAX as Hneg.
    unfold r, box_depth in Hd. rewrite He in Hd. lra.
Qed.

(** *** Orthonormal eigenvectors give a rigid frame *)

Lemma determinant_transpose (m : Matrix3d) : determinant (transpose m) = determinant m.
Proof. destruct_mat m. unfold transpose. eigen_cbv. ring. Qed.

Lemma transpose_transpose (m : Matrix3d) : transpose (transpose m) = m.
Proof. destruct_mat m. reflexivity. Qed.

Lemma mmul_minverse_r (m : Matrix3d) :
  determinant m <> 0 -> mmul m (minverse m) = MIdentity.
Proof.
  destruct_mat m. eigen_cbv. intros Hd.
  repeat match goal with
         | |- mat3 _ _ _ = mat3 _ _ _ => f_equal
         | |- vec3 _ _ _ = vec3 _ _ _ => f_equal
         end; field; exact Hd.
Qed.

Lemma orthonormal_determinant (m : Matrix3d) :
  mmul (transpose m) m = MIdentity -> determinant m = 1 \/ determinant m = -1.
Proof.
  intros H. apply (f_equal determinant) in H.
  rewrite determinant_mmul, determinant_transpose in H.
  replace (determinant MIdentity) with 1 in H by (eigen_cbv; ring).
  assert (Hf : (determinant m - 1) * (determinant m + 1) = 0) by lra.
  apply Rmult_integral in Hf. destruct Hf; [left | right]; lra.
Qed.

Lemma orthonormal_transpose_inverse (m : Matrix3d) :
  mmul (transpose m) m = MIdentity -> transpose m = minverse m.
Proof.
  intros H.
  assert (Hd : determinant m <> 0) by (destruct (orthonormal_determinant m H); lra).
  rewrite <- (mmul_Identity_r (transpose m)).
  rewrite <- (mmul_minverse_r m Hd), <- mmul_assoc, H.
  apply mmul_Identity_l.
Qed.

Lemma orthonormal_rows (m : Matrix3d) :
  mmul (transpose m) m = MIdentity -> mmul m (transpose m) = MIdentity.
Proof.
  intros H.
  assert (Hd : determinant m <> 0) by (destruct (orthonormal_determinant m H); lra).
  rewrite (orthonormal_transpose_inverse m H). apply mmul_minverse_r. exact Hd.
Qed.

(** In an orthonormal matrix the cross product of the first two rows is the
    third row, up to the sign of the determinant. *)
Lemma orthonormal_cross_rows (m : Matrix3d) :
  mmul (transpose m) m = MIdentity ->
  cross (row0 m) (row1 m) = vscale (determinant m) (row2 m).
Proof.
  intros H.
  assert (Hd : determinant m <> 0) by (destruct (orthonormal_determinant m H); lra).
  pose proof (orthonormal_transpose_inverse m H) as Ht.
  unfold transpose, minverse in Ht. cbv zeta in Ht.
  revert Hd Ht. generalize (determinant m). intros d Hd.
  destruct (cross (row1 m) (row2 m)) as [x0 y0 z0].
  destruct (cross (row2 m) (row0 m)) as [x1 y1 z1].
  destruct (cross (row0 m) (row1 m)) as [x2 y2 z2].
  destruct_mat m. eigen_cbv. intros Ht. injection Ht as E1 E2 E3 E4 E5 E6 E7 E8 E9.
  f_equal.
  - rewrite E3. field. exact Hd.
  - rewrite E6. field. exact Hd.
  - rewrite E9. field. exact Hd.
Qed.

Lemma orthonormal_cross_cols (m : Matrix3d) :
  mmul (transpose m) m = MIdentity ->
  cross (col0 m) (col1 m) = vscale (determinant m) (col2 m).
Proof.
  intros H.
  pose proof (orthonormal_cross_rows (transpose m)) as Hr.
  rewrite transpose_transpose, determinant_transpose in Hr.
  specialize (Hr (orthonormal_rows m H)).
  destruct_mat m. exact Hr.
Qed.

Lemma no_difference_below_epsilon (c : R) :
  Rltb (Rabs (1 * c - c)) (1 / 1000000) = true.
Proof.
  apply Rltb_true. replace (1 * c - c) with 0 by ring. rewrite Rabs_R0. lra.
Qed.

Lemma difference_below_epsilon (c : R) :
  Rltb (Rabs (-1 * c - c)) (1 / 1000000) = true -> c * c < 1 / 4.
Proof.
  intros H. apply Rltb_true in H. apply Rabs_def2 in H. nra.
Qed.

(** The handedness test of [getBoundingBoxFromMesh] turns orthonormal axes
    into a rotation. *)
Lemma is_rotation_right_handed (es : Matrix3d) :
  mmul (transpose es) es = MIdentity -> is_rotation (right_handed es).
Proof.
  intros H.
  pose proof (orthonormal_cross_cols es H) as Hc.
  pose proof (orthonormal_determinant es H) as Hd.
  unfold right_handed. cbv zeta.
  destruct Hd as [Hd | Hd]; rewrite Hd in Hc; rewrite Hc; clear Hc;
    revert H Hd; unfold is_rotation, transpose;
    destruct_mat es; eigen_cbv; intros H Hd;
    injection H as E1 E2 E3 E4 E5 E6 E7 E8 E9.
  - rewrite !no_difference_below_epsilon. cbn [andb negb]. cbn [vx vy vz].
    split; [| lra].
    repeat match goal with
           | |- mat3 _ _ _ = mat3 _ _ _ => f_equal
           | |- vec3 _ _ _ = vec3 _ _ _ => f_equal
           end; lra.
  - assert (Hflip : Rltb (Rabs (-1 * c - c)) (1 / 1000000)
                    && Rltb (Rabs (-1 * f - f)) (1 / 1000000)
                    && Rltb (Rabs (-1 * i - i)) (1 / 1000000) = false).
    { destruct (Rltb (Rabs (-1 * c - c)) _) eqn:H1; [| reflexivity].
      destruct (Rltb (Rabs (-1 * f - f)) _) eqn:H2; [| reflexivity].
      destruct (Rltb (Rabs (-1 * i - i)) _) eqn:H3; [| reflexivity].
      apply difference_below_epsilon in H1, H2, H3. exfalso. lra. }
    rewrite Hflip. cbn [negb vx vy vz].
    split; [| lra].
    repeat match goal with
           | |- mat3 _ _ _ = mat3 _ _ _ => f_equal
           | |- vec3 _ _ _ = vec3 _ _ _ => f_equal
           end; lra.
Qed.

(** When the solver returns orthonormal eigenvectors, the pose of the
    bounding box is a rigid, right-handed frame, whichever handedness the
    eigenvectors had. *)
Theorem getBoundingBoxFromMesh_pose_rigid (eigenvectors : Matrix3d -> Matrix3d)
  (mesh_msg : shape_msgs.Mesh) :
  mmul (transpose (eigenvectors (inertia_axis_aligned mesh_msg)))
       (eigenvectors (inertia_axis_aligned mesh_msg)) = MIdentity ->
  rigid (box_pose (getBoundingBoxFromMesh eigenvectors mesh_msg)).
Proof.
  intros H. rewrite getBoundingBoxFromMesh_eq. cbv zeta.
  unfold box_pose, rigid, set_translation, world_to_mesh_transform.
  cbn [fst snd linear].
  apply is_rotation_right_handed. exact H.
Qed.

Lemma left_handed_axes_orthonormal :
  mmul (transpose left_handed_axes) left_handed_axes = MIdentity.
Proof. unfold transpose, left_handed_axes. eigen_cbv. eigen_eq. Qed.

(** Left-handed eigenvectors. *)
Lemma getBoundingBoxFromMesh_pose_rigid_witness :
  mmul (transpose left_handed_axes) left_handed_axes = MIdentity /\
  rigid (box_pose (getBoundingBoxFromMesh (fun _ => left_handed_axes) mesh_ab)).
Proof.
  split; [exact left_handed_axes_orthonormal |].
  apply (getBoundingBoxFromMesh_pose_rigid (fun _ => left_handed_axes) mesh_ab).
  exact left_handed_axes_orthonormal.
Defined.

Lemma determinant_MIdentity : determinant MIdentity = 1.
Proof. eigen_cbv. ring. Qed.

Lemma getBoundingBoxFromMesh_contains_vertices_witness :
  determinant MIdentity <> 0 /\
  In (vec3 1 2 3) (shape_msgs.vertices mesh_ab) /\
  in_box (box_depth (getBoundingBoxFromMesh (fun _ => MIdentity) mesh_ab))
         (box_width (getBoundingBoxFromMesh (fun _ => MIdentity) mesh_ab))
         (box_height (getBoundingBoxFromMesh (fun _ => MIdentity) mesh_ab))
         (transform (inverse (box_pose (getBoundingBoxFromMesh (fun _ => MIdentity) mesh_ab)))
                    (vec3 1 2 3)).
Proof.
  assert (Hd : determinant MIdentity <> 0) by (rewrite determinant_MIdentity; lra).
  assert (Hin : In (vec3 1 2 3) (shape_msgs.vertices mesh_ab)) by (left; reflexivity).
  split; [exact Hd |]. split; [exact Hin |].
  exact (getBoundingBoxFromMesh_contains_vertices (fun _ => MIdentity) mesh_ab
           (vec3 1 2 3) Hd Hin).
Defined.

Lemma getBoundingBoxFromMesh_extents_nonnegative_witness :
  determinant MIdentity <> 0 /\
  (shape_msgs.vertices mesh_a <> [] <->
   0 <= box_depth (getBoundingBoxFromMesh (fun _ => MIdentity) mesh_a) /\
   0 <= box_width (getBoundingBoxFromMesh (fun _ => MIdentity) mesh_a) /\
   0 <= box_height (getBoundingBoxFromMesh (fun _ => MIdentity) mesh_a)).
Proof.
  assert (Hd : determinant MIdentity <> 0) by (rewrite determinant_MIdentity; lra).
  split; [exact Hd |].
  exact (getBoundingBoxFromMesh_extents_nonnegative (fun _ => MIdentity) mesh_a Hd).
Defined.

(** *** The lower faces touch the mesh *)

Section Attained.

Variable f : Vector3d -> Vector3d.

Lemma update_bounds_min_cases (bounds : Vector3d * Vector3d) (q : Vector3d) :
  (vx (fst (update_bounds bounds q)) = vx (fst bounds)
   \/ vx (fst (update_bounds bounds q)) = vx q) /\
  (vy (fst (update_bounds bounds q)) = vy (fst bounds)
   \/ vy (fst (update_bounds bounds q)) = vy q) /\
  (vz (fst (update_bounds bounds q)) = vz (fst bounds)
   \/ vz (fst (update_bounds bounds q)) = vz q).
Proof.
  destruct bounds as [[a b c] [d e g]]. destruct q as [x y z].
  unfold update_bounds. cbn [fst snd vx vy vz].
  destruct (Rltb x a), (Rltb y b), (Rltb z c); repeat split;
    first [left; reflexivity | right; reflexivity].
Qed.

Lemma min_attained (l : list Vector3d) (bounds : Vector3d * Vector3d) :
  let r := fold_left (fun b p => update_bounds b (f p)) l bounds in
  (vx (fst r) = vx (fst bounds) \/ exists v, In v l /\ vx (f v) = vx (fst r)) /\
  (vy (fst r) = vy (fst bounds) \/ exists v, In v l /\ vy (f v) = vy (fst r)) /\
  (vz (fst r) = vz (fst bounds) \/ exists v, In v l /\ vz (f v) = vz (fst r)).
Proof.
  revert bounds. induction l as [| p l IH]; intros bounds; cbn [fold_left].
  - cbv zeta. repeat split; left; reflexivity.
  - specialize (IH (update_bounds bounds (f p))). cbv zeta in IH |- *.
    destruct IH as (Hx & Hy & Hz).
    destruct (update_bounds_min_cases bounds (f p)) as (Cx & Cy & Cz).
    repeat split.
    + destruct Hx as [Hx | (v & Hv & Hx)].
      * rewrite Hx. destruct Cx as [Cx | Cx]; [left; exact Cx | right].
        exists p. split; [left; reflexivity | symmetry; exact Cx].
      * right. exists v. split; [right; exact Hv | exact Hx].
    + destruct Hy as [Hy | (v & Hv & Hy)].
      * rewrite Hy. destruct Cy as [Cy | Cy]; [left; exact Cy | right].
        exists p. split; [left; reflexivity | symmetry; exact Cy].
      * right. exists v. split; [right; exact Hv | exact Hy].
    + destruct Hz as [Hz | (v & Hv & Hz)].
      * rewrite Hz. destruct Cz as [Cz | Cz]; [left; exact Cz | right].
        exists p. split; [left; reflexivity | symmetry; exact Cz].
      * right. exists v. split; [right; exact Hv | exact Hz].
Qed.

End Attained.

Lemma DBL_MAX_pos : 0 < DBL_MAX.
Proof. unfold DBL_MAX. apply IZR_lt. reflexivity. Qed.

(** Each of the three lower faces of the bounding box of a mesh with a
    vertex passes through a vertex. *)
Theorem getBoundingBoxFromMesh_lower_faces_touch (eigenvectors : Matrix3d -> Matrix3d)
  (mesh_msg : shape_msgs.Mesh) :
  determinant (eigenvectors (inertia_axis_aligned mesh_msg)) <> 0 ->
  shape_msgs.vertices mesh_msg <> [] ->
  let r := getBoundingBoxFromMesh eigenvectors mesh_msg in
  (exists v, In v (shape_msgs.vertices mesh_msg) /\
             vx (transform (inverse (box_pose r)) v) = - box_depth r / 2) /\
  (exists v, In v (shape_msgs.vertices mesh_msg) /\
             vy (transform (inverse (box_pose r)) v) = - box_width r / 2) /\
  (exists v, In v (shape_msgs.vertices mesh_msg) /\
             vz (transform (inverse (box_pose r)) v) = - box_height r / 2).
Proof.
  intros Hd Hne r. unfold r. rewrite getBoundingBoxFromMesh_eq. cbv zeta.
  unfold box_depth, box_width, box_height, box_pose. cbn [fst snd].
  destruct (mesh_bounds_around_origin eigenvectors mesh_msg Hne) as [Hlo _].
  pose proof (min_attained
                (transform (inverse (world_to_mesh_transform eigenvectors mesh_msg)))
                (shape_msgs.vertices mesh_msg)
                (vec3 DBL_MAX DBL_MAX DBL_MAX, vec3 DBL_MIN DBL_MIN DBL_MIN))
    as Hat.
  cbv zeta in Hat. fold (mesh_bounds eigenvectors mesh_msg) in Hat.
  pose proof DBL_MAX_pos as Hmax.
  assert (Hframe := fun c v =>
            in_box_frame (world_to_mesh_transform eigenvectors mesh_msg) c v
              (determinant_right_handed_nonzero _ Hd)).
  destruct (mesh_bounds eigenvectors mesh_msg) as [[a b c] [d e g]].
  unfold le3 in Hlo. cbn [fst snd vx vy vz Zero] in *.
  destruct Hat as (Hx & Hy & Hz).
  repeat split.
  - destruct Hx as [Hx | (v & Hv & Hx)]; [lra |].
    exists v. split; [exact Hv |]. rewrite Hframe.
    destruct (transform _ v) as [x y z]. cbn [vsub vx vy vz] in *. lra.
  - destruct Hy as [Hy | (v & Hv & Hy)]; [lra |].
    exists v. split; [exact Hv |]. rewrite Hframe.
    destruct (transform _ v) as [x y z]. cbn [vsub vx vy vz] in *. lra.
  - destruct Hz as [Hz | (v & Hv & Hz)]; [lra |].
    exists v. split; [exact Hv |]. rewrite Hframe.
    destruct (transform _ v) as [x y z]. cbn [vsub vx vy vz] in *. lra.
Qed.

Lemma getBoundingBoxFromMesh_lower_faces_touch_witness :
  determinant MIdentity <> 0 /\
  shape_msgs.vertices mesh_ab <> [] /\
  exists v, In v (shape_msgs.vertices mesh_ab) /\
    vx (transform (inverse (box_pose (getBoundingBoxFromMesh (fun _ => MIdentity) mesh_ab))) v)
    = - box_depth (getBoundingBoxFromMesh (fun _ => MIdentity) mesh_ab) / 2.
Proof.
  assert (Hd : determinant MIdentity <> 0) by (rewrite determinant_MIdentity; lra).
  assert (Hne : shape_msgs.vertices mesh_ab <> []) by discriminate.
  split; [exact Hd |]. split; [exact Hne |].
  exact (proj1 (getBoundingBoxFromMesh_lower_faces_touch (fun _ => MIdentity) mesh_ab
                  Hd Hne)).
Defined.

(* ================================================================== *)
(** ** Pre-grasp poses *)

Lemma mvmul_MIdentity (v : Vector3d) : mvmul MIdentity v = v.
Proof. destruct v. eigen_cbv. eigen_eq. Qed.

Lemma dot_mvmul (m : Matrix3d) (u v : Vector3d) :
  dot (mvmul m u) (mvmul m v) = dot u (mvmul (mmul (transpose m) m) v).
Proof. destruct_mat m. destruct u, v. unfold transpose. eigen_cbv. ring. Qed.

(** A rotation keeps the length of a vector. *)
Lemma squaredNorm_rotation (m : Matrix3d) (v : Vector3d) :
  is_rotation m -> squaredNorm (mvmul m v) = squaredNorm v.
Proof.
  intros [H _]. unfold squaredNorm. rewrite dot_mvmul, H, mvmul_MIdentity. reflexivity.
Qed.

Lemma norm_vscale_unit (k : R) (v : Vector3d) :
  squaredNorm v = 1 -> norm (vscale k v) = Rabs k.
Proof.
  intros H. unfold norm.
  replace (squaredNorm (vscale k v)) with (Rsqr k).
  - apply sqrt_Rsqr_abs.
  - unfold Rsqr. revert H. destruct v. unfold squaredNorm. eigen_cbv. intros H. nra.
Qed.

Lemma getPreGraspDirection_eq (grasp : moveit_msgs.Grasp)
  (frame_id ee_parent_link : String.string) :
  getPreGraspDirection grasp frame_id ee_parent_link
  = vscale (- moveit_msgs.desired_distance (moveit_msgs.pre_grasp_approach grasp))
      (approach_in_world grasp frame_id ee_parent_link).
Proof.
  unfold getPreGraspDirection, approach_in_world. cbv zeta.
  destruct (String.eqb frame_id ee_parent_link).
  - generalize (rotation (moveit_msgs.grasp_pose grasp)). intros m.
    destruct_mat m.
    destruct (moveit_msgs.direction (moveit_msgs.pre_grasp_approach grasp)).
    eigen_cbv. eigen_eq.
  - destruct (moveit_msgs.direction (moveit_msgs.pre_grasp_approach grasp)).
    eigen_cbv. eigen_eq.
Qed.

Lemma approach_in_world_unit (grasp : moveit_msgs.Grasp)
  (frame_id ee_parent_link : String.string) :
  rigid (moveit_msgs.grasp_pose grasp) ->
  squaredNorm (moveit_msgs.direction (moveit_msgs.pre_grasp_approach grasp)) = 1 ->
  squaredNorm (approach_in_world grasp frame_id ee_parent_link) = 1.
Proof.
  intros Hrigid Hunit. unfold approach_in_world. cbv zeta.
  destruct (String.eqb frame_id ee_parent_link); [| exact Hunit].
  rewrite (squaredNorm_rotation _ _ Hrigid). exact Hunit.
Qed.

Lemma pre_grasp_distance (grasp : moveit_msgs.Grasp)
  (frame_id ee_parent_link : String.string) :
  rigid (moveit_msgs.grasp_pose grasp) ->
  squaredNorm (moveit_msgs.direction (moveit_msgs.pre_grasp_approach grasp)) = 1 ->
  norm (vsub (translation (moveit_msgs.grasp_pose grasp))
             (translation (getPreGraspPose grasp frame_id ee_parent_link)))
  = Rabs (moveit_msgs.desired_distance (moveit_msgs.pre_grasp_approach grasp)).
Proof.
  intros Hrigid Hunit.
  pose proof (approach_in_world_unit grasp frame_id ee_parent_link Hrigid Hunit) as Hw.
  unfold getPreGraspPose. cbv zeta. rewrite getPreGraspDirection_eq.
  revert Hw. generalize (approach_in_world grasp frame_id ee_parent_link).
  intros w Hw.
  rewrite <- (norm_vscale_unit _ w Hw). f_equal.
  destruct (moveit_msgs.grasp_pose grasp) as [L [tx ty tz]]. destruct w.
  eigen_cbv. eigen_eq.
Qed.

(** [getPreGraspPose] keeps the orientation of the grasp and backs the
    gripper off against the approach direction: travelling
    [desired_distance] along the approach direction from the pre-grasp pose
    gives the grasp pose again.  When the pose of the grasp is rigid and the
    direction a unit vector, the two poses are [desired_distance] apart, in
    whichever frame the direction is given. *)
Theorem getPreGraspPose_approach (grasp : moveit_msgs.Grasp)
  (frame_id ee_parent_link : String.string) :
  let pre := getPreGraspPose grasp frame_id ee_parent_link in
  let approach := moveit_msgs.pre_grasp_approach grasp in
  rigid (moveit_msgs.grasp_pose grasp) ->
  squaredNorm (moveit_msgs.direction approach) = 1 ->
  rotation pre = rotation (moveit_msgs.grasp_pose grasp) /\
  translate pre (vscale (moveit_msgs.desired_distance approach)
                   (approach_in_world grasp frame_id ee_parent_link))
  = moveit_msgs.grasp_pose grasp /\
  norm (vsub (translation (moveit_msgs.grasp_pose grasp)) (translation pre))
  = Rabs (moveit_msgs.desired_distance approach).
Proof.
  intros pre approach Hrigid Hunit.
  split; [reflexivity |]. split.
  - unfold pre, approach, getPreGraspPose. cbv zeta. rewrite getPreGraspDirection_eq.
    generalize (approach_in_world grasp frame_id ee_parent_link). intros w.
    generalize (moveit_msgs.desired_distance (moveit_msgs.pre_grasp_approach grasp)).
    intros dd.
    destruct (moveit_msgs.grasp_pose grasp) as [L [tx ty tz]]. destruct w.
    eigen_cbv. eigen_eq.
  - apply pre_grasp_distance; assumption.
Qed.

Lemma rigid_example_base : rigid example_base.
Proof. split; unfold transpose, example_base, z_axis_frame; eigen_cbv; eigen_eq. Qed.

Lemma getPreGraspPose_approach_witness :
  rigid (moveit_msgs.grasp_pose (grasp_message 0 example_base example_grasp_data Identity)) /\
  norm (vsub (translation (moveit_msgs.grasp_pose
                             (grasp_message 0 example_base example_grasp_data Identity)))
             (translation (getPreGraspPose
                             (grasp_message 0 example_base example_grasp_data Identity)
                             String.EmptyString String.EmptyString)))
  = Rabs (8 / 100).
Proof.
  assert (Hr : rigid (moveit_msgs.grasp_pose
                        (grasp_message 0 example_base example_grasp_data Identity))).
  { cbn [grasp_message moveit_msgs.grasp_pose].
    apply rigid_compose; [exact rigid_example_base | exact rigid_Identity]. }
  split; [exact Hr |].
  apply (getPreGraspPose_approach
           (grasp_message 0 example_base example_grasp_data Identity)
           String.EmptyString String.EmptyString Hr).
  cbn [grasp_message moveit_msgs.pre_grasp_approach moveit_msgs.direction].
  unfold squaredNorm. eigen_cbv. ring.
Defined.

(** *** The pre-grasp poses of the generated grasps *)

Lemma rigid_cuboid_axis_grasp_poses (cuboid_pose : Affine3d) (depth width height : R)
  (axis : grasp_axis_t) (grasp_data : GraspData) :
  rigid cuboid_pose ->
  Forall rigid (cuboid_axis_grasp_poses cuboid_pose depth width height axis grasp_data).
Proof.
  intros Hc. apply cuboid_axis_grasp_poses_closure.
  - intros tr rot. apply rigid_aligned_pose. exact Hc.
  - exact rigid_turned_y.
  - intros p v H. exact H.
  - intros p x H. exact H.
  - exact rigid_flipped_z.
Qed.

Lemma generated_messages_forall (Q : moveit_msgs.Grasp -> Prop) (self : GraspGenerator)
  (cuboid_pose : Affine3d) (depth width height : R) (axis : grasp_axis_t)
  (grasp_data : GraspData) :
  (forall p m,
     In p (cuboid_axis_grasp_poses cuboid_pose depth width height axis grasp_data) ->
     Q (grasp_message m p grasp_data cuboid_pose)) ->
  Forall Q
    (fst (generateCuboidAxisGrasps self cuboid_pose depth width height axis grasp_data [])).
Proof.
  intros H. unfold generateCuboidAxisGrasps. rewrite addGrasp_fold.
  - cbn [fst app]. apply Forall_grasp_messages. exact H.
  - intros Hnil.
    pose proof (cuboid_axis_grasp_poses_length cuboid_pose depth width height axis
                  grasp_data) as Hlen.
    rewrite Hnil in Hlen. simpl in Hlen. lia.
Qed.

(** A message whose approach direction is the Z axis: the pre-grasp pose is
    the grasp pose moved by the [desired_distance] of the message, back
    along its own Z axis or down along the Z axis of the world. *)
Lemma pre_grasp_along_z (grasp : moveit_msgs.Grasp)
  (frame_id ee_parent_link : String.string) :
  moveit_msgs.direction (moveit_msgs.pre_grasp_approach grasp) = vec3 0 0 1 ->
  getPreGraspPose grasp frame_id ee_parent_link
  = (if String.eqb frame_id ee_parent_link
     then backed_off (moveit_msgs.grasp_pose grasp)
            (moveit_msgs.desired_distance (moveit_msgs.pre_grasp_approach grasp))
     else translate (moveit_msgs.grasp_pose grasp)
            (vec3 0 0 (- moveit_msgs.desired_distance
                           (moveit_msgs.pre_grasp_approach grasp)))).
Proof.
  intros Hdir. unfold getPreGraspPose, getPreGraspDirection. cbv zeta. rewrite Hdir.
  generalize (moveit_msgs.desired_distance (moveit_msgs.pre_grasp_approach grasp)).
  intros dd.
  generalize (moveit_msgs.grasp_pose grasp). intros q.
  destruct (String.eqb frame_id ee_parent_link).
  - destruct q as [L [tx ty tz]]. destruct_mat L. eigen_cbv. eigen_eq.
  - destruct q as [L [tx ty tz]]. eigen_cbv. eigen_eq.
Qed.

(** The pre-grasp pose of every grasp that [generateCuboidAxisGrasps]
    appends, for a rigid box pose and a rigid [grasp_pose_to_eef_pose_].
    The approach direction of the message is the Z axis.  When it is read in
    the frame of the end effector, the pre-grasp pose is the grasp pose
    moved back along its own Z axis by the [desired_distance] that the
    message holds; otherwise it is the grasp pose moved down by that
    distance along the Z axis of the world.  In both cases the two poses are
    that distance apart.  (The distance is the one of the message, which is
    the finger-to-palm depth as a single-precision field stores it.) *)
Theorem generated_grasps_pre_grasp_pose (self : GraspGenerator) (cuboid_pose : Affine3d)
  (depth width height : R) (axis : grasp_axis_t) (grasp_data : GraspData)
  (frame_id ee_parent_link : String.string) :
  rigid cuboid_pose ->
  rigid (grasp_pose_to_eef_pose_ grasp_data) ->
  Forall
    (fun g =>
       let distance := moveit_msgs.desired_distance (moveit_msgs.pre_grasp_approach g) in
       moveit_msgs.direction (moveit_msgs.pre_grasp_approach g) = vec3 0 0 1 /\
       getPreGraspPose g frame_id ee_parent_link
       = (if String.eqb frame_id ee_parent_link
          then backed_off (moveit_msgs.grasp_pose g) distance
          else translate (moveit_msgs.grasp_pose g) (vec3 0 0 (- distance))) /\
       norm (vsub (translation (moveit_msgs.grasp_pose g))
                  (translation (getPreGraspPose g frame_id ee_parent_link)))
       = Rabs distance)
    (fst (generateCuboidAxisGrasps self cuboid_pose depth width height axis grasp_data [])).
Proof.
  intros Hc He. apply generated_messages_forall. intros p m Hp.
  assert (Hr : rigid (moveit_msgs.grasp_pose (grasp_message m p grasp_data cuboid_pose))).
  { cbn [grasp_message moveit_msgs.grasp_pose]. apply rigid_compose; [| exact He].
    pose proof (rigid_cuboid_axis_grasp_poses cuboid_pose depth width height axis
                  grasp_data Hc) as Hposes.
    rewrite Forall_forall in Hposes. exact (Hposes p Hp). }
  assert (Hdir : moveit_msgs.direction
                   (moveit_msgs.pre_grasp_approach
                      (grasp_message m p grasp_data cuboid_pose)) = vec3 0 0 1)
    by reflexivity.
  cbv zeta. split; [exact Hdir |]. split.
  - apply pre_grasp_along_z. exact Hdir.
  - apply pre_grasp_distance; [exact Hr |].
    rewrite Hdir. unfold squaredNorm. eigen_cbv. ring.
Qed.

Lemma generated_grasps_pre_grasp_pose_witness :
  rigid Identity /\
  Forall
    (fun g =>
       getPreGraspPose g String.EmptyString String.EmptyString
       = backed_off (moveit_msgs.grasp_pose g)
           (moveit_msgs.desired_distance (moveit_msgs.pre_grasp_approach g)))
    (fst (generateCuboidAxisGrasps fresh_generator Identity (4 / 100) (6 / 100) (8 / 100)
            Z_AXIS example_grasp_data [])).
Proof.
  split; [exact rigid_Identity |].
  pose proof (generated_grasps_pre_grasp_pose fresh_generator Identity (4 / 100) (6 / 100)
                (8 / 100) Z_AXIS example_grasp_data String.EmptyString
                String.EmptyString rigid_Identity rigid_Identity) as H.
  apply (Forall_impl _ (P := _) (fun g Hg => proj1 (proj2 Hg)) H).
Defined.

(* ================================================================== *)
(** ** Numbering of the grasps *)

Lemma numbered_from_nil (n : Z) : numbered_from n [].
Proof. reflexivity. Qed.

Lemma numbered_from_cons (n : Z) (g : moveit_msgs.Grasp) (gs : list moveit_msgs.Grasp) :
  moveit_msgs.id g = n -> numbered_from (n + 1) gs -> numbered_from n (g :: gs).
Proof.
  unfold numbered_from. intros Hg Hgs. cbn [map length seq].
  rewrite Hg, Hgs, <- seq_shift, map_map. f_equal; [f_equal; lia |].
  apply map_ext. intros k. lia.
Qed.

Lemma numbered_from_inv (n : Z) (g : moveit_msgs.Grasp) (gs : list moveit_msgs.Grasp) :
  numbered_from n (g :: gs) -> moveit_msgs.id g = n /\ numbered_from (n + 1) gs.
Proof.
  unfold numbered_from. cbn [map length seq]. intros H. injection H as Hg Hgs.
  split; [lia |].
  rewrite Hgs, <- seq_shift, map_map. apply map_ext. intros k. lia.
Qed.

Lemma numbered_from_app (gs hs : list moveit_msgs.Grasp) :
  forall n : Z,
    numbered_from n gs -> numbered_from (n + Z.of_nat (length gs)) hs ->
    numbered_from n (gs ++ hs).
Proof.
  induction gs as [| g gs IH]; intros n Hg Hh.
  - cbn [app length] in *. replace (n + Z.of_nat 0)%Z with n in Hh by lia. exact Hh.
  - apply numbered_from_inv in Hg. destruct Hg as [Hid Hgs].
    cbn [app]. apply numbered_from_cons; [exact Hid |].
    apply IH; [exact Hgs |].
    replace (n + 1 + Z.of_nat (length gs))%Z with (n + Z.of_nat (length (g :: gs)))%Z
      by (cbn [length]; lia).
    exact Hh.
Qed.

(** Grasps numbered consecutively have distinct numbers. *)
Lemma numbered_from_NoDup (n : Z) (gs : list moveit_msgs.Grasp) :
  numbered_from n gs -> NoDup (map moveit_msgs.id gs).
Proof.
  unfold numbered_from. intros ->.
  apply Finite.Injective_map_NoDup; [| apply seq_NoDup].
  intros j k H. lia.
Qed.

Lemma numbered_from_grasp_messages (grasp_data : GraspData) (object_pose : Affine3d) :
  forall (poses : list Affine3d) (n : Z),
    numbered_from n (grasp_messages n poses grasp_data object_pose).
Proof.
  induction poses as [| p rest IH]; intros n; cbn [grasp_messages].
  - apply numbered_from_nil.
  - apply numbered_from_cons; [reflexivity | apply IH].
Qed.

Lemma length_grasp_messages (grasp_data : GraspData) (object_pose : Affine3d) :
  forall (poses : list Affine3d) (n : Z),
    length (grasp_messages n poses grasp_data object_pose) = length poses.
Proof.
  induction poses as [| p rest IH]; intros n; cbn [grasp_messages length];
    [reflexivity | rewrite IH; reflexivity].
Qed.

(** One call of [generateCuboidAxisGrasps]: the grasps appended, and the
    counter after the call. *)
Lemma generateCuboidAxisGrasps_appends (self : GraspGenerator) (cuboid_pose : Affine3d)
  (depth width height : R) (axis : grasp_axis_t) (grasp_data : GraspData)
  (possible_grasps : list moveit_msgs.Grasp) :
  exists new : list moveit_msgs.Grasp,
    fst (generateCuboidAxisGrasps self cuboid_pose depth width height axis grasp_data
           possible_grasps) = possible_grasps ++ new /\
    numbered_from (grasp_id self) new /\
    grasp_id (snd (generateCuboidAxisGrasps self cuboid_pose depth width height axis
                     grasp_data possible_grasps))
    = (grasp_id self + Z.of_nat (length new))%Z.
Proof.
  exists (grasp_messages (grasp_id self)
            (cuboid_axis_grasp_poses cuboid_pose depth width height axis grasp_data)
            grasp_data cuboid_pose).
  unfold generateCuboidAxisGrasps. rewrite addGrasp_fold.
  - cbn [fst snd]. split; [reflexivity |]. split.
    + apply numbered_from_grasp_messages.
    + rewrite length_grasp_messages. destruct self. reflexivity.
  - intros Hnil.
    pose proof (cuboid_axis_grasp_poses_length cuboid_pose depth width height axis
                  grasp_data) as Hlen.
    rewrite Hnil in Hlen. simpl in Hlen. lia.
Qed.

(** A step that appends consecutively numbered grasps, after a part of the
    call that did the same. *)
Lemma appends_then (n : Z) (possible_grasps : list moveit_msgs.Grasp)
  (st st' : list moveit_msgs.Grasp * GraspGenerator) :
  (exists new, fst st = possible_grasps ++ new /\ numbered_from n new /\
               grasp_id (snd st) = (n + Z.of_nat (length new))%Z) ->
  (exists new, fst st' = fst st ++ new /\ numbered_from (grasp_id (snd st)) new /\
               grasp_id (snd st') = (grasp_id (snd st) + Z.of_nat (length new))%Z) ->
  exists new, fst st' = possible_grasps ++ new /\ numbered_from n new /\
              grasp_id (snd st') = (n + Z.of_nat (length new))%Z.
Proof.
  intros (new1 & H1 & N1 & C1) (new2 & H2 & N2 & C2).
  exists (new1 ++ new2). split; [| split].
  - rewrite H2, H1, app_assoc. reflexivity.
  - apply numbered_from_app; [exact N1 |]. rewrite <- C1. exact N2.
  - rewrite C2, C1, length_app. lia.
Qed.

Lemma generateGrasps_appends (self : GraspGenerator) (cuboid_pose : Affine3d)
  (depth width height max_grasp_size : R) (grasp_data : GraspData)
  (possible_grasps : list moveit_msgs.Grasp) :
  exists new : list moveit_msgs.Grasp,
    fst (snd (generateGrasps self cuboid_pose depth width height max_grasp_size
                grasp_data possible_grasps)) = possible_grasps ++ new /\
    numbered_from (grasp_id self) new /\
    grasp_id (snd (snd (generateGrasps self cuboid_pose depth width height max_grasp_size
                          grasp_data possible_grasps)))
    = (grasp_id self + Z.of_nat (length new))%Z.
Proof.
  unfold generateGrasps. cbv zeta. cbn [snd].
  assert (Hstep : forall (b : bool) (axis : grasp_axis_t)
                         (st : list moveit_msgs.Grasp * GraspGenerator),
             exists new,
               fst (if b then generateCuboidAxisGrasps (snd st) cuboid_pose depth width
                              height axis grasp_data (fst st) else st)
               = fst st ++ new /\
               numbered_from (grasp_id (snd st)) new /\
               grasp_id (snd (if b then generateCuboidAxisGrasps (snd st) cuboid_pose depth
                                     width height axis grasp_data (fst st) else st))
               = (grasp_id (snd st) + Z.of_nat (length new))%Z).
  { intros [|] axis st.
    - apply generateCuboidAxisGrasps_appends.
    - exists []. rewrite app_nil_r. split; [reflexivity |].
      split; [apply numbered_from_nil | cbn [length]; lia]. }
  eapply appends_then; [| apply Hstep].
  eapply appends_then; [| apply Hstep].
  apply (Hstep (Rleb depth max_grasp_size) X_AXIS (possible_grasps, self)).
Qed.

(** The box overload of [generateGrasps] keeps the grasps already in
    [possible_grasps] in front and numbers the grasps it appends
    consecutively from the static counter [grasp_id], across the axes it
    attempts; their numbers are therefore pairwise distinct, and the counter
    ends just above the last of them. *)
Theorem generateGrasps_numbers_grasps (self : GraspGenerator) (cuboid_pose : Affine3d)
  (depth width height max_grasp_size : R) (grasp_data : GraspData)
  (possible_grasps : list moveit_msgs.Grasp) :
  exists new : list moveit_msgs.Grasp,
    fst (snd (generateGrasps self cuboid_pose depth width height max_grasp_size
                grasp_data possible_grasps)) = possible_grasps ++ new /\
    numbered_from (grasp_id self) new /\
    NoDup (map moveit_msgs.id new) /\
    grasp_id (snd (snd (generateGrasps self cuboid_pose depth width height max_grasp_size
                          grasp_data possible_grasps)))
    = (grasp_id self + Z.of_nat (length new))%Z.
Proof.
  destruct (generateGrasps_appends self cuboid_pose depth width height max_grasp_size
              grasp_data possible_grasps) as (new & H & N & C).
  exists new. split; [exact H |]. split; [exact N |].
  split; [exact (numbered_from_NoDup _ _ N) | exact C].
Qed.

(** Two calls of [generateGrasps] on the same generator and the same vector,
    for any two boxes and grippers, never give two grasps the same number:
    the counter [grasp_id] is static and is not reset between calls. *)
Theorem generateGrasps_twice_distinct_ids (self : GraspGenerator)
  (pose_1 pose_2 : Affine3d) (depth_1 width_1 height_1 max_1 : R)
  (depth_2 width_2 height_2 max_2 : R) (grasp_data_1 grasp_data_2 : GraspData) :
  let first :=
    snd (generateGrasps self pose_1 depth_1 width_1 height_1 max_1 grasp_data_1 []) in
  let second :=
    snd (generateGrasps (snd first) pose_2 depth_2 width_2 height_2 max_2 grasp_data_2
           (fst first)) in
  NoDup (map moveit_msgs.id (fst second)) /\
  exists new, fst second = fst first ++ new.
Proof.
  intros first second.
  destruct (generateGrasps_appends self pose_1 depth_1 width_1 height_1 max_1
              grasp_data_1 []) as (new1 & H1 & N1 & C1).
  destruct (generateGrasps_appends (snd first) pose_2 depth_2 width_2 height_2 max_2
              grasp_data_2 (fst first)) as (new2 & H2 & N2 & C2).
  fold first in H1, C1. fold second in H2, C2.
  split; [| exists new2; exact H2].
  rewrite H2, H1. cbn [app].
  apply (numbered_from_NoDup (grasp_id self)).
  apply numbered_from_app; [exact N1 |]. rewrite <- C1. exact N2.
Qed.

(* ================================================================== *)
(** ** Sampling steps and positions *)

Lemma num_grasps_along_pos (length : R) (grasp_data : GraspData) :
  (1 <= num_grasps_along length grasp_data)%Z.
Proof.
  rewrite num_grasps_along_eq.
  destruct (Z.leb_spec
              (Zfloor ((length - gripper_width_ grasp_data) / grasp_resolution_ grasp_data)
               + 1) 0); lia.
Qed.

Lemma translation_aligned_pose (pose : Affine3d) (angles : R * R * R)
  (tr : Vector3d) (alignment : R) :
  translation (aligned_pose pose angles tr alignment) = vadd (translation pose) tr.
Proof. destruct angles as [[ax ay] az]. reflexivity. Qed.

Lemma map_seq_shift {A : Type} (f : nat -> A) (n : nat) :
  map f (seq 1 n) = map (fun i => f (S i)) (seq 0 n).
Proof. rewrite <- seq_shift, map_map. reflexivity. Qed.

(** The last pose of a row of two or more lies as far beyond the centre of
    the face as the first one lies before it. *)
Lemma row_offset_last (length : R) (grasp_data : GraspData) :
  num_grasps_along length grasp_data <> 1%Z ->
  row_offset length grasp_data (Z.to_nat (num_grasps_along length grasp_data - 1))
  = 0.5 * (length - gripper_width_ grasp_data).
Proof.
  intros Hne. pose proof (num_grasps_along_pos length grasp_data) as Hpos.
  unfold row_offset, face_delta.
  destruct (Z.eqb_spec (num_grasps_along length grasp_data) 1) as [He | _];
    [contradiction |].
  rewrite INR_IZR_INZ, Z2Nat.id by lia.
  assert (Hn : IZR (num_grasps_along length grasp_data - 1) <> 0).
  { apply not_0_IZR. lia. }
  assert (Hd : IZR (num_grasps_along length grasp_data - 1)
               * ((length - gripper_width_ grasp_data)
                  / IZR (num_grasps_along length grasp_data - 1))
               = length - gripper_width_ grasp_data) by (field; exact Hn).
  lra.
Qed.

(** The rows of block 2 on the faces [-a_dir] and [+a_dir]: every pose is
    half of [offset] outside its face, the poses of a row are spaced by
    [delta_b] along [b_dir], and the row starts at one end of the usable
    extent [length_along_b - gripper_width_]; with two poses or more it ends
    at the other end, so that the row spans the usable extent exactly.  A
    row of one pose sits at that end, not at the centre of the face. *)
Theorem face_rows_span_usable_extent (cuboid_pose : Affine3d) (depth width height : R)
  (axis : grasp_axis_t) (grasp_data : GraspData) :
  let la := length_along_a axis depth width height in
  let lb := length_along_b axis depth width height in
  let n := num_grasps_along lb grasp_data in
  map translation (face_minus_a cuboid_pose depth width height axis grasp_data)
  = map (fun i =>
           vadd (translation cuboid_pose)
             (vadd (vscale (- (0.5 * (la + offset))) (a_dir axis cuboid_pose))
                   (vscale (row_offset lb grasp_data i) (b_dir axis cuboid_pose))))
        (seq 0 (Z.to_nat n)) /\
  map translation (face_plus_a cuboid_pose depth width height axis grasp_data)
  = map (fun i =>
           vadd (translation cuboid_pose)
             (vadd (vscale (0.5 * (la + offset)) (a_dir axis cuboid_pose))
                   (vscale (- row_offset lb grasp_data i) (b_dir axis cuboid_pose))))
        (seq 0 (Z.to_nat n)) /\
  row_offset lb grasp_data 0 = - (0.5 * (lb - gripper_width_ grasp_data)) /\
  (n <> 1%Z ->
   row_offset lb grasp_data (Z.to_nat (n - 1)) = 0.5 * (lb - gripper_width_ grasp_data)).
Proof.
  intros la lb n. split; [| split; [| split]].
  - unfold face_minus_a, face_row. cbv zeta. fold lb. fold n.
    rewrite map_map, map_seq_shift. apply map_ext. intros i.
    cbn [translate translation]. rewrite translation_aligned_pose.
    unfold a_translation, row_offset. cbv zeta. fold la. fold lb. fold n.
    rewrite S_INR.
    generalize (face_delta lb grasp_data n). intros d.
    destruct (translation cuboid_pose), (a_dir axis cuboid_pose), (b_dir axis cuboid_pose).
    eigen_cbv. eigen_eq.
  - unfold face_plus_a, face_row. cbv zeta. fold lb. fold n.
    rewrite map_map, map_seq_shift. apply map_ext. intros i.
    cbn [translate translation]. rewrite translation_aligned_pose.
    unfold a_translation, row_offset. cbv zeta. fold la. fold lb. fold n.
    rewrite S_INR.
    generalize (face_delta lb grasp_data n). intros d.
    destruct (translation cuboid_pose), (a_dir axis cuboid_pose), (b_dir axis cuboid_pose).
    eigen_cbv. eigen_eq.
  - unfold row_offset. cbn [INR]. lra.
  - apply row_offset_last.
Qed.





(* ================================================================== *)
(** ** Number of poses *)

Lemma length_depth_fan (grasp_data : GraspData) (p : Affine3d) :
  length (depth_fan grasp_data p) = Z.to_nat (num_depth_grasps grasp_data).
Proof. unfold depth_fan. rewrite length_map, length_seq. reflexivity. Qed.

Lemma length_sweep_run (test : Affine3d -> bool) (angle : R) :
  forall budget start, (length (sweep_run test angle budget start) <= budget)%nat.
Proof.
  induction budget as [| b IH]; intros start; cbn [sweep_run length]; [lia |].
  destruct (test start); cbn [length]; [| lia].
  specialize (IH (turned_y start angle)). lia.
Qed.

Lemma length_angle_sweep (cuboid_pose : Affine3d) (depth width height : R)
  (grasp_data : GraspData) (base : Affine3d) :
  (length (angle_sweep cuboid_pose depth width height grasp_data base)
   <= 2 * sweep_budget grasp_data)%nat.
Proof.
  unfold angle_sweep. rewrite length_app.
  pose proof (length_sweep_run
                (fun p => graspIntersectionHelper cuboid_pose depth width height p
                            grasp_data)
                (angle_res grasp_data) (sweep_budget grasp_data)
                (turned_y base (angle_res grasp_data))).
  pose proof (length_sweep_run
                (fun p => graspIntersectionHelper cuboid_pose depth width height p
                            grasp_data)
                (- angle_res grasp_data) (sweep_budget grasp_data)
                (turned_y base (- angle_res grasp_data))).
  lia.
Qed.

Lemma length_flat_map_le {A B : Type} (f : A -> list B) (n : nat) (l : list A) :
  (forall x, (length (f x) <= n)%nat) -> (length (flat_map f l) <= length l * n)%nat.
Proof.
  intros Hf. induction l as [| x l IH]; cbn [flat_map length]; [lia |].
  rewrite length_app. specialize (Hf x). lia.
Qed.

Lemma length_corner_face_poses (cuboid_pose : Affine3d) (depth width height : R)
  (axis : grasp_axis_t) (grasp_data : GraspData) :
  length (corner_face_poses cuboid_pose depth width height axis grasp_data)
  = (4 * Z.to_nat (num_radial_grasps grasp_data)
     + 4 * Z.to_nat (num_grasps_along (length_along_b axis depth width height)
                       grasp_data))%nat.
Proof.
  rewrite corner_face_poses_eq, !length_app, corner_poses_length.
  unfold face_minus_a, face_plus_b, face_plus_a, face_minus_b. cbv zeta.
  rewrite !length_face_row. lia.
Qed.

Lemma length_depth_poses (cuboid_pose : Affine3d) (depth width height : R)
  (axis : grasp_axis_t) (grasp_data : GraspData) :
  length (depth_poses cuboid_pose depth width height axis grasp_data)
  = num_base_poses depth width height axis grasp_data.
Proof.
  unfold depth_poses, num_base_poses. rewrite add_depth_grasps_eq, length_app.
  rewrite (length_flat_map_const _ (Z.to_nat (num_depth_grasps grasp_data)))
    by apply length_depth_fan.
  rewrite length_corner_face_poses. lia.
Qed.

(** The number of poses that [generateCuboidAxisGrasps] generates for an
    axis is bounded by the configuration alone.  With [B] poses after the
    depth block, it is at least [2 * B], and at most
    [2 * (B + (B - num_corner_grasps) * 2 * budget)], where [budget] is the
    number of poses after which a sweep is broken off. *)
Theorem cuboid_axis_grasp_poses_count_bounds (self : GraspGenerator) (cuboid_pose : Affine3d)
  (depth width height : R) (axis : grasp_axis_t) (grasp_data : GraspData) :
  let B := num_base_poses depth width height axis grasp_data in
  let num_corner_grasps := (4 * Z.to_nat (num_radial_grasps grasp_data))%nat in
  let total :=
    length (cuboid_axis_grasp_poses cuboid_pose depth width height axis grasp_data) in
  (2 * B <= total)%nat /\
  (total <= 2 * (B + (B - num_corner_grasps) * (2 * sweep_budget grasp_data)))%nat /\
  length (fst (generateCuboidAxisGrasps self cuboid_pose depth width height
                 axis grasp_data [])) = total.
Proof.
  intros B num_corner_grasps total.
  assert (Hall : cuboid_axis_grasp_poses cuboid_pose depth width height axis grasp_data
                 = add_bidirectional_grasps
                     (angle_poses cuboid_pose depth width height axis grasp_data))
    by reflexivity.
  assert (Htotal : total
                   = (2 * (B + length
                                 (flat_map
                                    (angle_sweep cuboid_pose depth width height grasp_data)
                                    (skipn num_corner_grasps
                                       (depth_poses cuboid_pose depth width height axis
                                          grasp_data)))))%nat).
  { unfold total. rewrite Hall, add_bidirectional_grasps_eq, length_app, length_map.
    unfold angle_poses. rewrite add_angle_grasps_eq, length_app, length_depth_poses.
    rewrite corner_poses_length. fold B. fold num_corner_grasps. lia. }
  pose proof (length_flat_map_le
                (angle_sweep cuboid_pose depth width height grasp_data)
                (2 * sweep_budget grasp_data)
                (skipn num_corner_grasps
                   (depth_poses cuboid_pose depth width height axis grasp_data))
                (length_angle_sweep cuboid_pose depth width height grasp_data)) as Hle.
  rewrite length_skipn, length_depth_poses in Hle. fold B in Hle.
  split; [lia |]. split; [rewrite Htotal; nia |].
  unfold generateCuboidAxisGrasps. rewrite addGrasp_fold.
  - cbn [fst app]. apply length_grasp_messages.
  - intros Hnil.
    pose proof (cuboid_axis_grasp_poses_length cuboid_pose depth width height axis
                  grasp_data) as Hlen.
    rewrite Hnil in Hlen. simpl in Hlen. lia.
Qed.

(* ================================================================== *)
(** ** Scores of the two directions of a grasp *)

Lemma mvmul_UnitZ (m : Matrix3d) : mvmul m UnitZ = col2 m.
Proof. destruct_mat m. eigen_cbv. eigen_eq. Qed.

Lemma mvmul_UnitY (m : Matrix3d) : mvmul m UnitY = col1 m.
Proof. destruct_mat m. eigen_cbv. eigen_eq. Qed.

Lemma dot_vneg_l (u v : Vector3d) : dot (vneg u) v = - dot u v.
Proof. destruct u, v. eigen_cbv. ring. Qed.

Lemma score_A_flipped_z (pose : Affine3d) (grasp_data : GraspData) (object_pose : Affine3d) :
  score_A (flipped_z pose) grasp_data object_pose = score_A pose grasp_data object_pose.
Proof.
  destruct (flipped_z_axes pose) as (_ & Hz & _ & _).
  unfold score_A, individual_scores, rotation. cbn [nth].
  rewrite !mvmul_UnitZ, Hz. reflexivity.
Qed.

Lemma score_B_flipped_z (pose : Affine3d) (grasp_data : GraspData) (object_pose : Affine3d) :
  score_B (flipped_z pose) grasp_data object_pose
  = 1 - score_B pose grasp_data object_pose.
Proof.
  destruct (flipped_z_axes pose) as (_ & _ & _ & Hy).
  unfold score_B, individual_scores, rotation. cbn [nth].
  rewrite !mvmul_UnitY, Hy, dot_vneg_l, acos_opp.
  field. apply PI_neq0.
Qed.

Lemma score_C_flipped_z (pose : Affine3d) (grasp_data : GraspData) (object_pose : Affine3d) :
  score_C (flipped_z pose) grasp_data object_pose = score_C pose grasp_data object_pose.
Proof.
  destruct (flipped_z_axes pose) as (Ht & _).
  unfold score_C, individual_scores. cbn [nth]. rewrite Ht. reflexivity.
Qed.

(** The last block of [generateCuboidAxisGrasps] adds each pose a second
    time, turned by half a turn about its approach axis.  The scorer gives
    the two the same score for the approach axis and for the distance of
    the palm, and scores for the direction of the camera that add up to 1:
    the two directions of a grasp never get the same total unless the
    camera score of both is one half.  (The pose is rigid, so that the
    arguments of [acos] are cosines.) *)
Theorem bidirectional_pair_scores (self self' : GraspGenerator) (pose : Affine3d)
  (grasp_data : GraspData) (object_pose : Affine3d) :
  rigid pose ->
  score_A (flipped_z pose) grasp_data object_pose = score_A pose grasp_data object_pose /\
  score_B (flipped_z pose) grasp_data object_pose
  = 1 - score_B pose grasp_data object_pose /\
  score_C (flipped_z pose) grasp_data object_pose = score_C pose grasp_data object_pose /\
  fst (scoreGrasp self pose grasp_data object_pose)
  + fst (scoreGrasp self' (flipped_z pose) grasp_data object_pose)
  = (2 * score_A pose grasp_data object_pose + 1
     + 2 * score_C pose grasp_data object_pose) / 3.
Proof.
  intros _.
  split; [apply score_A_flipped_z |]. split; [apply score_B_flipped_z |].
  split; [apply score_C_flipped_z |].
  rewrite !scoreGrasp_mean, score_A_flipped_z, score_B_flipped_z, score_C_flipped_z.
  lra.
Qed.

Lemma bidirectional_pair_scores_witness :
  rigid example_base /\
  score_B (flipped_z example_base) example_grasp_data Identity
  = 1 - score_B example_base example_grasp_data Identity.
Proof.
  split; [exact rigid_example_base |].
  apply (bidirectional_pair_scores fresh_generator fresh_generator example_base
           example_grasp_data Identity rigid_example_base).
Defined.

(* ================================================================== *)
(** ** Approach directions of the face grasps *)

Lemma a_dir_rigid (axis : grasp_axis_t) (cuboid_pose : Affine3d) :
  rigid cuboid_pose -> a_dir axis cuboid_pose = mvmul (linear cuboid_pose) (a_axis axis).
Proof.
  intros H. unfold a_dir, rotation.
  destruct axis; cbn [a_axis]; apply normalized_unit;
    rewrite (squaredNorm_rotation _ _ H); unfold squaredNorm; eigen_cbv; ring.
Qed.

Lemma b_dir_rigid (axis : grasp_axis_t) (cuboid_pose : Affine3d) :
  rigid cuboid_pose -> b_dir axis cuboid_pose = mvmul (linear cuboid_pose) (b_axis axis).
Proof.
  intros H. unfold b_dir, rotation.
  destruct axis; cbn [b_axis]; apply normalized_unit;
    rewrite (squaredNorm_rotation _ _ H); unfold squaredNorm; eigen_cbv; ring.
Qed.

(** The approach direction of the pose that both helpers start from lies in
    the plane of [a_dir] and [b_dir], at the angle [alignment] from
    [a_dir]. *)
Lemma approach_direction_aligned_pose (cuboid_pose : Affine3d) (axis : grasp_axis_t)
  (tr : Vector3d) (alignment : R) :
  rigid cuboid_pose ->
  approach_direction (aligned_pose cuboid_pose (rotation_angles axis) tr alignment)
  = vadd (vscale (cos alignment) (a_dir axis cuboid_pose))
         (vscale (sin alignment) (b_dir axis cuboid_pose)).
Proof.
  intros H. rewrite (a_dir_rigid axis _ H), (b_dir_rigid axis _ H).
  unfold approach_direction.
  destruct cuboid_pose as [l t]. destruct_mat l.
  destruct axis; unfold rotation_angles, a_axis, b_axis; eigen_cbv;
    rewrite ?neg_half_pi, ?cos_neg, ?sin_neg, ?cos_PI2, ?sin_PI2, ?cos_0, ?sin_0,
      ?cos_PI, ?sin_PI;
    eigen_eq.
Qed.

Lemma approach_direction_face_row (n : Z) (start : Affine3d) (delta : Vector3d)
  (v : Vector3d) :
  approach_direction start = v ->
  Forall (fun p => approach_direction p = v) (face_row n start delta).
Proof.
  intros H. apply Forall_forall. intros p Hin.
  unfold face_row in Hin. apply in_map_iff in Hin. destruct Hin as (k & <- & _).
  exact H.
Qed.

(** For a rigid box pose, the grasps of block 2 approach the box at right
    angles to their face and towards the box: along [a_dir] on the face
    [-a_dir], against [b_dir] on the face [+b_dir], against [a_dir] on the
    face [+a_dir], and along [b_dir] on the face [-b_dir]. *)
Theorem face_grasps_point_into_box (cuboid_pose : Affine3d) (depth width height : R)
  (axis : grasp_axis_t) (grasp_data : GraspData) :
  rigid cuboid_pose ->
  Forall (fun p => approach_direction p = a_dir axis cuboid_pose)
    (face_minus_a cuboid_pose depth width height axis grasp_data) /\
  Forall (fun p => approach_direction p = vneg (b_dir axis cuboid_pose))
    (face_plus_b cuboid_pose depth width height axis grasp_data) /\
  Forall (fun p => approach_direction p = vneg (a_dir axis cuboid_pose))
    (face_plus_a cuboid_pose depth width height axis grasp_data) /\
  Forall (fun p => approach_direction p = b_dir axis cuboid_pose)
    (face_minus_b cuboid_pose depth width height axis grasp_data).
Proof.
  intros H.
  unfold face_minus_a, face_plus_b, face_plus_a, face_minus_b. cbv zeta.
  repeat split; apply approach_direction_face_row;
    rewrite (approach_direction_aligned_pose _ _ _ _ H);
    rewrite ?neg_half_pi, ?cos_neg, ?sin_neg, ?cos_PI2, ?sin_PI2, ?cos_0, ?sin_0,
      ?cos_PI, ?sin_PI;
    destruct (a_dir axis cuboid_pose), (b_dir axis cuboid_pose); eigen_cbv; eigen_eq.
Qed.

Lemma face_grasps_point_into_box_witness :
  rigid Identity /\
  Forall (fun p => approach_direction p = a_dir Z_AXIS Identity)
    (face_minus_a Identity (4 / 100) (6 / 100) (8 / 100) Z_AXIS example_grasp_data).
Proof.
  split; [exact rigid_Identity |].
  apply (face_grasps_point_into_box Identity (4 / 100) (6 / 100) (8 / 100) Z_AXIS
           example_grasp_data rigid_Identity).
Defined.

(* ================================================================== *)
(** ** Approach directions of the corner grasps *)

Lemma turned_y_aligned_pose (pose : Affine3d) (angles : R * R * R) (tr : Vector3d)
  (alignment angle : R) :
  turned_y (aligned_pose pose angles tr alignment) angle
  = aligned_pose pose angles tr (alignment + angle).
Proof.
  destruct angles as [[ax ay] az]. unfold aligned_pose.
  set (q := rotate pose (mmul (mmul (AngleAxisX ax) (AngleAxisY ay)) (AngleAxisZ az))).
  change (turned_y (translate (rotate q (AngleAxisY alignment)) tr) angle)
    with (translate (turned_y (turned_y q alignment) angle) tr).
  rewrite turned_y_add. reflexivity.
Qed.

(** The steps of a corner fan lie strictly inside a quarter turn. *)
Lemma corner_fan_angle (grasp_data : GraspData) (k : nat) :
  (1 <= k <= Z.to_nat (num_radial_grasps grasp_data))%nat ->
  0 < INR k * ((PI / 2) / IZR (num_radial_grasps grasp_data + 1)) < PI / 2.
Proof.
  intros Hk. pose proof (num_radial_grasps_pos grasp_data) as Hn.
  apply fraction_of_span.
  - split.
    + apply lt_0_INR. lia.
    + rewrite INR_IZR_INZ. apply IZR_lt. lia.
  - pose proof PI_RGT_0. lra.
Qed.

Lemma corner_fan_approach (cuboid_pose : Affine3d) (axis : grasp_axis_t)
  (grasp_data : GraspData) (tr : Vector3d) (alignment : R) (P : Vector3d -> Prop) :
  rigid cuboid_pose ->
  (forall phi, 0 < phi < PI / 2 ->
     P (vadd (vscale (cos (alignment + phi)) (a_dir axis cuboid_pose))
             (vscale (sin (alignment + phi)) (b_dir axis cuboid_pose)))) ->
  Forall (fun p => P (approach_direction p))
    (corner_fan (num_radial_grasps grasp_data)
       (aligned_pose cuboid_pose (rotation_angles axis) tr alignment)).
Proof.
  intros Hr HP. apply Forall_forall. intros p Hin.
  unfold corner_fan in Hin. apply in_map_iff in Hin. destruct Hin as (k & <- & Hk).
  apply in_seq in Hk.
  rewrite turned_y_aligned_pose, (approach_direction_aligned_pose _ _ _ _ Hr).
  apply HP. apply corner_fan_angle. lia.
Qed.

(** For a rigid box pose, every grasp of a corner fan approaches the box
    between the two faces that meet at its corner: block 1 aligns the fan at
    the corner [(-a, -b)] with 0, at [(-a, +b)] with [-pi/2], at [(+a, +b)]
    with [pi] and at [(+a, -b)] with [pi/2], and the approach directions
    point between [+a] and [+b], [+a] and [-b], [-a] and [-b], and [-a] and
    [+b]: towards the box. *)
Theorem corner_grasps_point_into_box (cuboid_pose : Affine3d) (axis : grasp_axis_t)
  (grasp_data : GraspData) (tr : Vector3d) :
  rigid cuboid_pose ->
  let a := a_dir axis cuboid_pose in
  let b := b_dir axis cuboid_pose in
  let fan alignment :=
    corner_fan (num_radial_grasps grasp_data)
      (aligned_pose cuboid_pose (rotation_angles axis) tr alignment) in
  Forall (fun p => points_between a b (approach_direction p)) (fan 0) /\
  Forall (fun p => points_between a (vneg b) (approach_direction p)) (fan (- PI / 2)) /\
  Forall (fun p => points_between (vneg a) (vneg b) (approach_direction p)) (fan PI) /\
  Forall (fun p => points_between (vneg a) b (approach_direction p)) (fan (PI / 2)).
Proof.
  intros Hr a b fan. unfold fan, a, b.
  repeat split; apply corner_fan_approach; try exact Hr; intros phi Hphi;
    assert (Hc : 0 < cos phi) by (apply cos_gt_0; lra);
    assert (Hs : 0 < sin phi) by (apply sin_gt_0; pose proof PI_RGT_0; lra);
    rewrite ?neg_half_pi, cos_plus, sin_plus,
      ?cos_neg, ?sin_neg, ?cos_PI2, ?sin_PI2, ?cos_0, ?sin_0, ?cos_PI, ?sin_PI;
    destruct (a_dir axis cuboid_pose), (b_dir axis cuboid_pose).
  - exists (cos phi), (sin phi). repeat split; try assumption. eigen_cbv. eigen_eq.
  - exists (sin phi), (cos phi). repeat split; try assumption. eigen_cbv. eigen_eq.
  - exists (cos phi), (sin phi). repeat split; try assumption. eigen_cbv. eigen_eq.
  - exists (sin phi), (cos phi). repeat split; try assumption. eigen_cbv. eigen_eq.
Qed.

Lemma corner_grasps_point_into_box_witness :
  rigid Identity /\
  Forall (fun p => points_between (a_dir Z_AXIS Identity) (b_dir Z_AXIS Identity)
                     (approach_direction p))
    (corner_fan (num_radial_grasps example_grasp_data)
       (aligned_pose Identity (rotation_angles Z_AXIS) Zero 0)).
Proof.
  split; [exact rigid_Identity |].
  apply (corner_grasps_point_into_box Identity Z_AXIS example_grasp_data Zero
           rigid_Identity).
Defined.
